(** * Switchboard: listener client and Unreal device plugin

    A shallow embedding of

    - [switchboard/listener_client.py] (class [ListenerClient]) and
    - [switchboard/devices/unreal/plugin_unreal.py] (class [DeviceUnreal] and
      the function [parse_unreal_tag_file]),

    together with the properties of the connection, the message router and
    the device life cycle that are stated about them.

    Conventions.
    - A Python [str] is a [string]; one [ascii] stands for one code point
      (code points above 255 do not occur in the markers the code looks
      for and are outside this model).
    - A Python [dict] is a [gmap]; [d[k]] and [d.pop(k)] raise [KeyError]
      on a missing key, [d.get(k, None)] does not.
    - Python exceptions are values of type [exn]; a computation that can
      raise returns an [outcome], which keeps the state reached when the
      exception left the function.
    - The logger, the Qt signals, thread starts and socket writes are
      recorded, in program order, in the [trace] of the world state. *)

From Stdlib Require Import ZArith Ascii String List Bool Lia.
From Stdlib Require Import DecimalString Permutation.
From stdpp Require Import base option list strings gmap.

Local Open Scope Z_scope.

(* ===================================================================== *)
(** * Python built-ins used by the two modules *)
(* ===================================================================== *)

Module Py.

(** The exceptions that the modelled code can raise. *)
Inductive exn : Type :=
| KeyError
| IndexError
| AttributeError
| ValueError
| TypeError
| OSError
| ConnectionResetError
| OverflowError.

#[global] Instance exn_eq_dec : EqDecision exn.
Proof. solve_decision. Defined.

(** [l[i]] for a non-negative index. *)
Definition index {A : Type} (l : list A) (i : nat) : exn + A :=
  match nth_error l i with
  | Some x => inr x
  | None => inl IndexError
  end.

(** [l[-1]] on a non-empty list. *)
Fixpoint last_item {A : Type} (l : list A) : exn + A :=
  match l with
  | [] => inl IndexError
  | [x] => inr x
  | _ :: l' => last_item l'
  end.

(** [s.startswith(p)]. *)
Fixpoint startswith (s p : string) : bool :=
  match p, s with
  | EmptyString, _ => true
  | String _ _, EmptyString => false
  | String a p', String b s' =>
      if Ascii.eqb a b then startswith s' p' else false
  end.

(** [s.endswith(p)]. *)
Fixpoint endswith (s p : string) : bool :=
  bool_decide (s = p) ||
  match s with
  | EmptyString => false
  | String _ s' => endswith s' p
  end.

(** [p in s] for strings: [p] occurs somewhere in [s]. *)
Fixpoint contains (s p : string) : bool :=
  startswith s p ||
  match s with
  | EmptyString => false
  | String _ s' => contains s' p
  end.

(** [s.split(sep)] for a non-empty separator.  The scan goes from left to
    right; when [sep] matches at the current position the current piece is
    closed and the [length sep] matched characters are skipped ([skip]
    counts the ones still to be dropped), so matches do not overlap. *)
Fixpoint split_go (sep : string) (skip : nat) (s : string) : list string :=
  match s with
  | EmptyString => [""]
  | String c s' =>
      match skip with
      | S k => split_go sep k s'
      | O =>
          if startswith s sep
          then "" :: split_go sep (Nat.pred (String.length sep)) s'
          else match split_go sep O s' with
               | p :: ps => String c p :: ps
               | [] => [String c ""]
               end
      end
  end.

Definition split (s sep : string) : list string := split_go sep O s.

(** [s.split(c, 1)] for a one-character separator: at most one cut, at
    the first occurrence. *)
Fixpoint split1 (s : string) (c : ascii) : list string :=
  match s with
  | EmptyString => [""]
  | String a s' =>
      if Ascii.eqb a c then [""; s']
      else match split1 s' c with
           | p :: ps => String a p :: ps
           | [] => [String a ""]
           end
  end.

(** [s.lstrip(chars)], [s.rstrip(chars)] and [s.strip(chars)], the set of
    characters given as a predicate. *)
Fixpoint lstrip (p : ascii -> bool) (s : string) : string :=
  match s with
  | EmptyString => ""
  | String c s' => if p c then lstrip p s' else s
  end.

Fixpoint rstrip (p : ascii -> bool) (s : string) : string :=
  match s with
  | EmptyString => ""
  | String c s' =>
      match rstrip p s' with
      | EmptyString => if p c then "" else String c ""
      | r => String c r
      end
  end.

Definition strip (p : ascii -> bool) (s : string) : string :=
  rstrip p (lstrip p s).

(** The double quote character, code point 34. *)
Definition dquote : ascii := "034"%char.

Definition is_quote (c : ascii) : bool := Ascii.eqb c dquote.

(** The characters [str.split()] and [str.strip()] treat as white space,
    among the code points below 256. *)
Definition is_space (c : ascii) : bool :=
  let n := N_of_ascii c in
  ((9 <=? n) && (n <=? 13) || (28 <=? n) && (n <=? 32)
   || (n =? 133) || (n =? 160))%N.

(** [s.split()]: the maximal runs of characters that are not white
    space. *)
Fixpoint words_go (cur : option string) (s : string) : list string :=
  match s with
  | EmptyString => option_list cur
  | String a s' =>
      if is_space a
      then option_list cur ++ words_go None s'
      else words_go (Some (from_option (fun w => w +:+ String a "")
                                       (String a "") cur)) s'
  end.

Definition words (s : string) : list string := words_go None s.

(** The line boundaries of [str.splitlines()] among the code points
    below 256: LF, VT, FF, CR, FS, GS, RS and NEL. *)
Definition is_linebreak (c : ascii) : bool :=
  let n := N_of_ascii c in
  ((10 <=? n) && (n <=? 13) || (28 <=? n) && (n <=? 30) || (n =? 133))%N.

(** [s.splitlines()]: a line ends at every boundary, CR LF counts as one
    boundary ([after_cr] tells that the previous character was a CR), and
    a boundary at the very end opens no empty last line. *)
Fixpoint splitlines_go (after_cr : bool) (cur : string) (s : string)
  : list string :=
  match s with
  | EmptyString =>
      match cur with EmptyString => [] | _ => [cur] end
  | String a s' =>
      if after_cr && (N_of_ascii a =? 10)%N
      then splitlines_go false cur s'
      else if is_linebreak a
           then cur :: splitlines_go (N_of_ascii a =? 13)%N "" s'
           else splitlines_go false (cur +:+ String a "") s'
  end.

Definition splitlines (s : string) : list string :=
  splitlines_go false "" s.

End Py.

(* ===================================================================== *)
(** * [parse_unreal_tag_file] *)
(* ===================================================================== *)

Module TagFile.

Definition prefix_marker : string := "GameplayTagList".
Definition tag_marker : string := "Tag=".
Definition comma : ascii := ","%char.

(** The body of the [if] for one line: [tag] is item 1 of the line split
    at "Tag=", then item 0 of that split once at a comma, then stripped of
    the double quotes at both ends. *)
Definition tag_of_line (line : string) : Py.exn + string :=
  match Py.index (Py.split line tag_marker) 1 with
  | inl e => inl e
  | inr tag =>
      match Py.index (Py.split1 tag comma) 0 with
      | inl e => inl e
      | inr tag => inr (Py.strip Py.is_quote tag)
      end
  end.

(** The loop of [parse_unreal_tag_file], [tags] being the list built so
    far; the first exception ends it.  (The [LOGGER.info(line)] of every
    iteration is left to the caller's trace.) *)
Fixpoint parse_loop (tags : list string) (file_content : list string)
  : Py.exn + list string :=
  match file_content with
  | [] => inr tags
  | line :: rest =>
      if Py.startswith line prefix_marker then
        match tag_of_line line with
        | inl e => inl e
        | inr tag => parse_loop (tags ++ [tag]) rest
        end
      else parse_loop tags rest
  end.

Definition parse_unreal_tag_file (file_content : list string)
  : Py.exn + list string :=
  parse_loop [] file_content.

(** The lines that reach [LOGGER.info(line)]: every line up to and
    including the one at which the loop raises, if it does. *)
Fixpoint lines_logged (file_content : list string) : list string :=
  match file_content with
  | [] => []
  | line :: rest =>
      line ::
      (if Py.startswith line prefix_marker then
         match tag_of_line line with
         | inl _ => []
         | inr _ => lines_logged rest
         end
       else lines_logged rest)
  end.

End TagFile.

(* ===================================================================== *)
(** * Data model *)
(* ===================================================================== *)

(** A [uuid.UUID], identified with its 128-bit integer value. *)
Abbreviation UUID := N.

(** The JSON values found in a decoded message and the values a changelist
    or a return code can hold. *)
Inductive value : Type :=
| VNone
| VBool (b : bool)
| VInt (z : Z)
| VStr (s : string).

#[global] Instance value_eq_dec : EqDecision value.
Proof. solve_decision. Defined.

(** Python's [==] on these values: [True] and [False] compare equal to [1]
    and [0]. *)
Definition py_eq (a b : value) : bool :=
  match a, b with
  | VNone, VNone => true
  | VBool x, VBool y => Bool.eqb x y
  | VBool x, VInt z | VInt z, VBool x => Z.eqb z (if x then 1 else 0)
  | VInt x, VInt y => Z.eqb x y
  | VStr x, VStr y => bool_decide (x = y)
  | _, _ => false
  end.

(** Truth value of an optional string ([None] and the empty string are
    false). *)
Definition truthy (o : option string) : bool :=
  match o with
  | Some (String _ _) => true
  | _ => false
  end.

Definition value_of_str (o : option string) : value :=
  match o with Some s => VStr s | None => VNone end.

(** Modelled from the spec: the states of [DeviceStatus], which is declared
    in [switchboard/devices/device_base.py]. *)
Inductive DeviceStatus : Type :=
| DISCONNECTED | CONNECTING | CONNECTED | SYNCING | BUILDING
| OPEN | READY | CLOSED.

#[global] Instance DeviceStatus_eq_dec : EqDecision DeviceStatus.
Proof. solve_decision. Defined.

(** Modelled from the spec: the encoded commands that [message_protocol]
    builds.  The wire encoding is not part of these two modules, so an
    encoded message is represented by the command it carries; the start
    command carries the message id that was generated for it. *)
Inductive wire : Type :=
| DisconnectMessage
| KeepAliveMessage
| StartProcessMessage (mid : UUID) (prog args : string)
| KillProcessMessage (program_id : UUID)
| CopyFileFromListenerMessage (path : string).

#[global] Instance wire_eq_dec : EqDecision wire.
Proof. solve_decision. Defined.

(** ** The observable effects *)

(** The pieces of an f-string: literal text and interpolated values. *)
Inductive frag : Type :=
| Lit (s : string)
| Fv (v : value)
| Fu (u : UUID)
| Fw (m : wire)
| Fl (l : list string)
| Ftraceback (e : Py.exn).

Inductive level : Type := DEBUG | INFO | MESSAGE | ERROR.

#[global] Instance level_eq_dec : EqDecision level.
Proof. solve_decision. Defined.

(** The Qt signals emitted through [device_qt_handler]. *)
Inductive signal : Type :=
| signal_device_client_disconnected
| signal_device_sync_failed.

Inductive event : Type :=
| Log (lvl : level) (text : list frag)     (* LOGGER.<lvl>(text) *)
| Emit (s : signal)                        (* <signal>.emit(self) *)
| StatusAssigned (s : DeviceStatus)        (* self.status = s *)
| ChangelistAssigned (v : value)           (* self.changelist = v *)
| OscMessage (command : string)            (* self.send_osc_message(..) *)
| SocketOpened                             (* socket.socket(..) *)
| ThreadStarted                            (* Thread(..).start() *)
| SocketSend (m : wire)                    (* ws.send(message_bytes) *)
| SocketShutdown
| SocketClosed.

(** ** [ListenerClient] *)

(** An OS socket as the client sees it: [peername] is what [getpeername()]
    returns, [None] when that call raises. *)
Record Socket : Type := mkSocket {
  peername : option (string * Z)
}.

Inductive Thread : Type := WorkerThread.

Record ListenerClient : Type := mkListenerClient {
  ip_address : option string;
  port : Z;
  buffer_size : Z;
  message_queue : list wire;      (* a deque; the head is its left end *)
  close_socket : bool;
  socket : option Socket;
  handle_connection_thread : option Thread;
  last_activity : Z               (* microseconds *)
}.

(** ** [DeviceUnreal] and the world around it *)

(** The strings the device takes from [CONFIG] and from its settings.  How
    the command lines are assembled from them is not modelled. *)
Record Config : Type := mkConfig {
  project_name : string;
  roles_filename : string;
  roles_file_path : string;
  cstat_args : string;
  sync_command : value -> string * string;
  build_command : string * string
}.

(** The library calls whose results the code depends on:
    [uuid.UUID(x)], [message_protocol.decode_message(buffer)],
    [base64.b64decode(x).decode()] and the ids
    that [uuid.uuid4()] hands out, in order. *)
Record Platform : Type := mkPlatform {
  uuid_of : value -> Py.exn + UUID;
  decode_message : string -> Py.exn + gmap string value;
  b64decode : value -> Py.exn + string;   (* base64.b64decode(x).decode() *)
  uuid4 : nat -> UUID
}.

Record DeviceUnreal : Type := mkDeviceUnreal {
  name : string;
  status : DeviceStatus;
  changelist : value;
  inflight_changelist : value;
  start_build_after_sync : bool;
  _remote_programs_start_queue : gmap UUID string;
  _running_remote_program_names : gmap UUID string;
  _running_remote_program_ids : gmap string UUID;
  setting_roles : list string;            (* setting_roles.get_value() *)
  possible_values : list string;          (* setting_roles.possible_values *)
  unreal_client : ListenerClient;
  config : Config;
  platform : Platform;
  uuids_drawn : nat;
  trace : list event
}.

(** ** Field updates *)

Definition set_ip_address (v : option string) (c : ListenerClient) :=
  mkListenerClient v (port c) (buffer_size c) (message_queue c)
    (close_socket c) (socket c) (handle_connection_thread c) (last_activity c).

Definition set_message_queue (v : list wire) (c : ListenerClient) :=
  mkListenerClient (ip_address c) (port c) (buffer_size c) v
    (close_socket c) (socket c) (handle_connection_thread c) (last_activity c).

Definition set_close_socket (v : bool) (c : ListenerClient) :=
  mkListenerClient (ip_address c) (port c) (buffer_size c) (message_queue c)
    v (socket c) (handle_connection_thread c) (last_activity c).

Definition set_socket (v : option Socket) (c : ListenerClient) :=
  mkListenerClient (ip_address c) (port c) (buffer_size c) (message_queue c)
    (close_socket c) v (handle_connection_thread c) (last_activity c).

Definition set_handle_connection_thread (v : option Thread)
  (c : ListenerClient) :=
  mkListenerClient (ip_address c) (port c) (buffer_size c) (message_queue c)
    (close_socket c) (socket c) v (last_activity c).

Definition set_last_activity (v : Z) (c : ListenerClient) :=
  mkListenerClient (ip_address c) (port c) (buffer_size c) (message_queue c)
    (close_socket c) (socket c) (handle_connection_thread c) v.

Definition set_status (v : DeviceStatus) (w : DeviceUnreal) :=
  mkDeviceUnreal (name w) v (changelist w) (inflight_changelist w)
    (start_build_after_sync w) (_remote_programs_start_queue w)
    (_running_remote_program_names w) (_running_remote_program_ids w)
    (setting_roles w) (possible_values w) (unreal_client w) (config w)
    (platform w) (uuids_drawn w) (trace w).

Definition set_changelist (v : value) (w : DeviceUnreal) :=
  mkDeviceUnreal (name w) (status w) v (inflight_changelist w)
    (start_build_after_sync w) (_remote_programs_start_queue w)
    (_running_remote_program_names w) (_running_remote_program_ids w)
    (setting_roles w) (possible_values w) (unreal_client w) (config w)
    (platform w) (uuids_drawn w) (trace w).

Definition set_inflight_changelist (v : value) (w : DeviceUnreal) :=
  mkDeviceUnreal (name w) (status w) (changelist w) v
    (start_build_after_sync w) (_remote_programs_start_queue w)
    (_running_remote_program_names w) (_running_remote_program_ids w)
    (setting_roles w) (possible_values w) (unreal_client w) (config w)
    (platform w) (uuids_drawn w) (trace w).

Definition set_start_build_after_sync (v : bool) (w : DeviceUnreal) :=
  mkDeviceUnreal (name w) (status w) (changelist w) (inflight_changelist w) v
    (_remote_programs_start_queue w) (_running_remote_program_names w)
    (_running_remote_program_ids w) (setting_roles w) (possible_values w)
    (unreal_client w) (config w) (platform w) (uuids_drawn w) (trace w).

Definition set_start_queue (v : gmap UUID string) (w : DeviceUnreal) :=
  mkDeviceUnreal (name w) (status w) (changelist w) (inflight_changelist w)
    (start_build_after_sync w) v (_running_remote_program_names w)
    (_running_remote_program_ids w) (setting_roles w) (possible_values w)
    (unreal_client w) (config w) (platform w) (uuids_drawn w) (trace w).

Definition set_program_names (v : gmap UUID string) (w : DeviceUnreal) :=
  mkDeviceUnreal (name w) (status w) (changelist w) (inflight_changelist w)
    (start_build_after_sync w) (_remote_programs_start_queue w) v
    (_running_remote_program_ids w) (setting_roles w) (possible_values w)
    (unreal_client w) (config w) (platform w) (uuids_drawn w) (trace w).

Definition set_program_ids (v : gmap string UUID) (w : DeviceUnreal) :=
  mkDeviceUnreal (name w) (status w) (changelist w) (inflight_changelist w)
    (start_build_after_sync w) (_remote_programs_start_queue w)
    (_running_remote_program_names w) v (setting_roles w) (possible_values w)
    (unreal_client w) (config w) (platform w) (uuids_drawn w) (trace w).

Definition set_possible_values (v : list string) (w : DeviceUnreal) :=
  mkDeviceUnreal (name w) (status w) (changelist w) (inflight_changelist w)
    (start_build_after_sync w) (_remote_programs_start_queue w)
    (_running_remote_program_names w) (_running_remote_program_ids w)
    (setting_roles w) v (unreal_client w) (config w) (platform w)
    (uuids_drawn w) (trace w).

Definition set_unreal_client (v : ListenerClient) (w : DeviceUnreal) :=
  mkDeviceUnreal (name w) (status w) (changelist w) (inflight_changelist w)
    (start_build_after_sync w) (_remote_programs_start_queue w)
    (_running_remote_program_names w) (_running_remote_program_ids w)
    (setting_roles w) (possible_values w) v (config w) (platform w)
    (uuids_drawn w) (trace w).

Definition set_uuids_drawn (v : nat) (w : DeviceUnreal) :=
  mkDeviceUnreal (name w) (status w) (changelist w) (inflight_changelist w)
    (start_build_after_sync w) (_remote_programs_start_queue w)
    (_running_remote_program_names w) (_running_remote_program_ids w)
    (setting_roles w) (possible_values w) (unreal_client w) (config w)
    (platform w) v (trace w).

Definition set_trace (v : list event) (w : DeviceUnreal) :=
  mkDeviceUnreal (name w) (status w) (changelist w) (inflight_changelist w)
    (start_build_after_sync w) (_remote_programs_start_queue w)
    (_running_remote_program_names w) (_running_remote_program_ids w)
    (setting_roles w) (possible_values w) (unreal_client w) (config w)
    (platform w) (uuids_drawn w) v.

(** Update of the device's client in place. *)
Definition upd_client (f : ListenerClient -> ListenerClient)
  (w : DeviceUnreal) : DeviceUnreal :=
  set_unreal_client (f (unreal_client w)) w.

(* ===================================================================== *)
(** * Computations: state, effects and exceptions *)
(* ===================================================================== *)

Inductive outcome (A : Type) : Type :=
| Ok (a : A) (w : DeviceUnreal)
| Raise (e : Py.exn) (w : DeviceUnreal).

Arguments Ok {A} a w.
Arguments Raise {A} e w.

(** The state a computation ends in, whether it returned or raised. *)
Definition world_of {A : Type} (o : outcome A) : DeviceUnreal :=
  match o with Ok _ w => w | Raise _ w => w end.

Definition M (A : Type) : Type := DeviceUnreal -> outcome A.

#[global] Instance M_ret : MRet M := fun A a w => Ok a w.

#[global] Instance M_bind : MBind M := fun A B f m w =>
  match m w with
  | Ok a w' => f a w'
  | Raise e w' => Raise e w'
  end.

Definition raise {A : Type} (e : Py.exn) : M A := fun w => Raise e w.

Definition gets {A : Type} (f : DeviceUnreal -> A) : M A :=
  fun w => Ok (f w) w.

Definition modify (f : DeviceUnreal -> DeviceUnreal) : M unit :=
  fun w => Ok tt (f w).

Definition emit (e : event) : M unit :=
  modify (fun w => set_trace (trace w ++ [e]) w).

Definition log (lvl : level) (text : list frag) : M unit :=
  emit (Log lvl text).

Definition lift {A : Type} (r : Py.exn + A) : M A :=
  match r with inl e => raise e | inr a => mret a end.

(** [try: body  except <those e for which handler e is Some>: handler]. *)
Definition try_except {A : Type} (body : M A)
  (handler : Py.exn -> option (M A)) : M A :=
  fun w =>
    match body w with
    | Ok a w' => Ok a w'
    | Raise e w' =>
        match handler e with
        | Some h => h w'
        | None => Raise e w'
        end
    end.

(** [except OSError] also catches its subclass [ConnectionResetError]. *)
Definition is_OSError (e : Py.exn) : bool :=
  match e with
  | Py.OSError | Py.ConnectionResetError => true
  | _ => false
  end.

(** [for x in l: body x]. *)
Fixpoint for_each {A : Type} (l : list A) (body : A -> M unit) : M unit :=
  match l with
  | [] => mret tt
  | x :: l' => body x ;; for_each l' body
  end.

(** [d[k]] and [d.pop(k)] on the three tables. *)
Definition getitem {K V : Type} `{Countable K} (d : gmap K V) (k : K)
  : M V :=
  match d !! k with
  | Some v => mret v
  | None => raise Py.KeyError
  end.

(* ===================================================================== *)
(** * [ListenerClient] *)
(* ===================================================================== *)

(** The callbacks a client can hold.  [DeviceUnreal.__init__] assigns
    seven of them and never changes them afterwards, so they are an
    argument of the client's operations rather than part of the state. *)
Record Delegates : Type := mkDelegates {
  disconnect_delegate : option (bool -> option Py.exn -> M unit);
  command_accepted_delegate : option (UUID -> M unit);
  command_declined_delegate : option (UUID -> value -> M unit);
  program_started_delegate : option (UUID -> UUID -> M unit);
  program_start_failed_delegate : option (value -> UUID -> M unit);
  program_ended_delegate : option (UUID -> value -> value -> M unit);
  program_killed_delegate : option (UUID -> M unit);
  program_kill_failed_delegate : option (UUID -> value -> M unit);
  vcs_init_completed_delegate : option (M unit);
  vcs_init_failed_delegate : option (value -> M unit);
  vcs_report_revision_completed_delegate : option (value -> M unit);
  vcs_report_revision_failed_delegate : option (value -> M unit);
  vcs_sync_completed_delegate : option (value -> M unit);
  vcs_sync_failed_delegate : option (value -> M unit);
  send_file_completed_delegate : option (value -> M unit);
  send_file_failed_delegate : option (value -> value -> M unit);
  receive_file_completed_delegate : option (value -> value -> M unit);
  receive_file_failed_delegate : option (value -> value -> M unit);
  (* the dict [self.delegates], keyed by the command of the message *)
  delegates : gmap string (option (gmap string value -> M unit))
}.

(** The property [server_address]. *)
Definition server_address (c : ListenerClient) : option (string * Z) :=
  match ip_address c with
  | Some (String a s) => Some (String a s, port c)
  | _ => None
  end.

(** The property [is_connected]: the socket exists and its peer can be
    queried; a failing query counts as not connected. *)
Definition is_connected (c : ListenerClient) : bool :=
  match socket c with
  | Some s =>
      match peername s with
      | Some _ => true
      | None => false
      end
  | None => false
  end.

(** What the two socket calls of one [connect] call do, and the clock
    reading taken by it.  [socket.socket(..)] raises an [OSError] if it
    does not return.  [socket.connect(..)] raises [connect_error] if it
    does not return: an [OSError] when the operating system refuses the
    connection, and an exception of another class when the call fails
    before it reaches the operating system, as it does with an
    [OverflowError] for a port outside 0..65535.  Creating and starting the
    thread is taken to succeed. *)
Record ConnectEnv : Type := mkConnectEnv {
  connect_now : Z;
  os_socket_ok : bool;      (* socket.socket(..) returns *)
  os_connect_ok : bool;     (* socket.connect(..) returns *)
  connect_error : Py.exn    (* what socket.connect(..) raises otherwise *)
}.

Definition connect_attempt (env : ConnectEnv) : M bool :=
  modify (upd_client (set_close_socket false)) ;;
  modify (upd_client (set_last_activity (connect_now env))) ;;
  try_except
    (c ← gets unreal_client;
     log INFO [Lit "Connecting to "; Fv (value_of_str (ip_address c));
               Lit ":"; Fv (VInt (port c))] ;;
     (if os_socket_ok env then emit SocketOpened else raise Py.OSError) ;;
     modify (upd_client (set_socket (Some (mkSocket None)))) ;;
     (if os_connect_ok env
      then modify (upd_client
                     (set_socket (Some (mkSocket (server_address c)))))
      else raise (connect_error env)) ;;
     modify (upd_client (set_handle_connection_thread (Some WorkerThread))) ;;
     emit ThreadStarted ;;
     mret true)
    (fun e =>
       if is_OSError e then Some (
         c ← gets unreal_client;
         log ERROR [Lit "Socket Error: "; Fv (value_of_str (ip_address c));
                    Lit ":"; Fv (VInt (port c))] ;;
         modify (upd_client (set_socket None)) ;;
         mret false)
       else None).

(** [connect(ip_address=None)]. *)
Definition connect (env : ConnectEnv) (ip_address_arg : option string)
  : M bool :=
  c ← gets unreal_client;
  if truthy ip_address_arg then
    modify (upd_client (set_ip_address ip_address_arg)) ;;
    connect_attempt env
  else if negb (truthy (ip_address c)) then
    log DEBUG [Lit "No ip_address was given. Cannot connect"] ;;
    mret false
  else connect_attempt env.

(** [send_message(message_bytes)]; only the disconnect delegate is used. *)
Definition send_message
  (on_disconnect : option (bool -> option Py.exn -> M unit))
  (message_bytes : wire) : M unit :=
  c ← gets unreal_client;
  if is_connected c then
    log MESSAGE [Lit "Message: Sending ("; Fv (value_of_str (ip_address c));
                 Lit "): "; Fw message_bytes] ;;
    modify (upd_client
              (fun c => set_message_queue (message_bytes :: message_queue c) c))
  else
    log ERROR [Lit "Message: Failed to send (";
               Fv (value_of_str (ip_address c)); Lit "): "; Fw message_bytes;
               Lit ". No socket connected"] ;;
    match on_disconnect with
    | Some d => d true None
    | None => mret tt
    end.

(** [message[k]]. *)
Definition msg_get (m : gmap string value) (k : string) : M value :=
  getitem m k.

(** [uuid.UUID(message[k])]. *)
Definition msg_uuid (m : gmap string value) (k : string) : M UUID :=
  v ← msg_get m k;
  p ← gets platform;
  lift (uuid_of p v).

(** [k in message]. *)
Definition has_key (m : gmap string value) (k : string) : bool :=
  bool_decide (is_Some (m !! k)).

(** [if d: d(args)]. *)
Definition call {F : Type} (d : option F) (k : F -> M unit) : M unit :=
  match d with
  | Some f => k f
  | None => mret tt
  end.

(** [self.delegates.get(command, None)]. *)
Definition delegates_get (D : Delegates) (command : value)
  : option (gmap string value -> M unit) :=
  match command with
  | VStr s => mjoin (delegates D !! s)
  | _ => None
  end.

Definition route_message (D : Delegates) (m : gmap string value) : M unit :=
  command ← msg_get m "command";
  match delegates_get D command with
  | Some delegate => delegate m
  | None =>
      if has_key m "command accepted" then
        message_id ← msg_uuid m "id";
        accepted ← msg_get m "command accepted";
        if py_eq accepted (VBool true) then
          call (command_accepted_delegate D) (fun f => f message_id)
        else
          call (command_declined_delegate D)
               (fun f => error ← msg_get m "error"; f message_id error)
      else if has_key m "program started" then
        message_id ← msg_uuid m "message id";
        started ← msg_get m "program started";
        if py_eq started (VBool true) then
          program_id ← msg_uuid m "program id";
          call (program_started_delegate D) (fun f => f program_id message_id)
        else
          call (program_start_failed_delegate D)
               (fun f => error ← msg_get m "error"; f error message_id)
      else if has_key m "program ended" then
        program_id ← msg_uuid m "program id";
        call (program_ended_delegate D)
             (fun f => returncode ← msg_get m "returncode";
                       output ← msg_get m "output";
                       f program_id returncode output)
      else if has_key m "program killed" then
        program_id ← msg_uuid m "program id";
        killed ← msg_get m "program killed";
        if py_eq killed (VBool true) then
          call (program_killed_delegate D) (fun f => f program_id)
        else
          call (program_kill_failed_delegate D)
               (fun f => error ← msg_get m "error"; f program_id error)
      else if has_key m "vcs init complete" then
        complete ← msg_get m "vcs init complete";
        if py_eq complete (VBool true) then
          call (vcs_init_completed_delegate D) (fun f => f)
        else
          call (vcs_init_failed_delegate D)
               (fun f => error ← msg_get m "error"; f error)
      else if has_key m "vcs report revision complete" then
        complete ← msg_get m "vcs report revision complete";
        if py_eq complete (VBool true) then
          call (vcs_report_revision_completed_delegate D)
               (fun f => revision ← msg_get m "revision"; f revision)
        else
          call (vcs_report_revision_failed_delegate D)
               (fun f => error ← msg_get m "error"; f error)
      else if has_key m "vcs sync complete" then
        complete ← msg_get m "vcs sync complete";
        if py_eq complete (VBool true) then
          call (vcs_sync_completed_delegate D)
               (fun f => revision ← msg_get m "revision"; f revision)
        else
          call (vcs_sync_failed_delegate D)
               (fun f => error ← msg_get m "error"; f error)
      else if has_key m "send file complete" then
        complete ← msg_get m "send file complete";
        if py_eq complete (VBool true) then
          call (send_file_completed_delegate D)
               (fun f => destination ← msg_get m "destination"; f destination)
        else
          call (send_file_failed_delegate D)
               (fun f => destination ← msg_get m "destination";
                         error ← msg_get m "error"; f destination error)
      else if has_key m "receive file complete" then
        complete ← msg_get m "receive file complete";
        if py_eq complete (VBool true) then
          call (receive_file_completed_delegate D)
               (fun f => source ← msg_get m "source";
                         content ← msg_get m "content"; f source content)
        else
          call (receive_file_failed_delegate D)
               (fun f => source ← msg_get m "source";
                         error ← msg_get m "error"; f source error)
      else raise Py.ValueError
  end.

(** The terminator of a framed message, code point 0. *)
Definition is_terminator (c : ascii) : bool := (N_of_ascii c =? 0)%N.

(** [process_received_data(buffer, received_data)]; the buffer is handed
    back, as the caller keeps it between calls.  Decoding happens outside
    the [try], routing inside it. *)
Fixpoint process_received_data (D : Delegates) (buffer : string)
  (received_data : string) : M string :=
  match received_data with
  | EmptyString => mret buffer
  | String symbol rest =>
      if is_terminator symbol then
        p ← gets platform;
        m ← lift (decode_message p buffer);
        try_except (route_message D m)
          (fun e => Some (log ERROR [Lit "Error while parsing message: ";
                                     Ftraceback e])) ;;
        process_received_data D "" rest
      else process_received_data D (buffer +:+ String symbol "") rest
  end.

(** What one pass of the loop in [handle_connection] gets from outside:
    the answer of [select], of [ws.send] and of [rs.recv(..).decode()], and
    the three clock readings.  [shutdown()] and [close()] on a live
    socket, in the [try] block, are taken to succeed.  In the clause
    [except ConnectionResetError] the socket is one that the peer has
    reset: [shutdown_after_reset] is the exception that [shutdown()]
    raises on it (an [OSError], the socket being no longer connected), or
    [None] if it returns. *)
Record IterEnv : Type := mkIterEnv {
  select_result : Py.exn + (bool * bool);   (* readable, writable *)
  send_result : option Py.exn;              (* the exception, if it raises *)
  recv_result : Py.exn + string;
  now_sent : Z;
  now_received : Z;
  now_idle : Z;
  shutdown_after_reset : option Py.exn      (* the exception, if it raises *)
}.

Inductive loop_exit : Type := Continue | Break | Return.

(** [self.message_queue.pop()]: the right end of the deque. *)
Definition deque_pop (q : list wire) : option (list wire * wire) :=
  match last q with
  | Some m => Some (removelast q, m)
  | None => None
  end.

(** The four steps of the [try] block of one pass. *)

(** A queued message is taken from the right end of the deque and written
    to the socket if [select] reported it writable. *)
Definition transmit_one (env : IterEnv) (writable : bool) : M unit :=
  c ← gets unreal_client;
  match deque_pop (message_queue c) return M unit with
  | Some (rest, message_bytes) =>
      modify (upd_client (set_message_queue rest)) ;;
      if writable then
        match send_result env return M unit with
        | Some e => raise e
        | None => emit (SocketSend message_bytes)
        end ;;
        modify (upd_client (set_last_activity (now_sent env)))
      else mret tt
  | None => mret tt
  end.

(** Data is read and processed if [select] reported the socket readable. *)
Definition receive (D : Delegates) (env : IterEnv) (readable : bool)
  (buffer : string) : M string :=
  if readable then
    received_data ← lift (recv_result env);
    b ← process_received_data D buffer received_data;
    modify (upd_client (set_last_activity (now_received env))) ;;
    mret b
  else mret buffer.

(** A keep-alive message is queued after more than two seconds without
    activity. *)
Definition keep_alive (D : Delegates) (env : IterEnv) : M unit :=
  c ← gets unreal_client;
  if Z.ltb 2000000 (now_idle env - last_activity c)
  then send_message (disconnect_delegate D) KeepAliveMessage
  else mret tt.

(** The socket is closed and the loop left when the close flag is set. *)
Definition close_if_requested (D : Delegates) : M loop_exit :=
  c ← gets unreal_client;
  if close_socket c then
    emit SocketShutdown ;;
    emit SocketClosed ;;
    call (disconnect_delegate D) (fun f => f false None) ;;
    modify (upd_client (set_socket None)) ;;
    mret Break
  else mret Continue.

(** The [try] block of one pass. *)
Definition loop_try (D : Delegates) (env : IterEnv) (buffer : string)
  : M (loop_exit * string) :=
  '(readable, writable) ← lift (select_result env);
  transmit_one env writable ;;
  buffer' ← receive D env readable buffer;
  keep_alive D env ;;
  exit ← close_if_requested D;
  mret (exit, buffer').

(** One pass of the [while] loop with its two [except] clauses.  An
    exception raised inside an [except] clause is not caught by the clause
    that follows it: it leaves the loop. *)
Definition loop_body (D : Delegates) (env : IterEnv) (buffer : string)
  : M (loop_exit * string) :=
  try_except (loop_try D env buffer)
    (fun e =>
       match e with
       | Py.ConnectionResetError => Some (
           match shutdown_after_reset env return M unit with
           | Some e' => raise e'
           | None => emit SocketShutdown
           end ;;
           emit SocketClosed ;;
           modify (upd_client (set_socket None)) ;;
           call (disconnect_delegate D) (fun f => f true (Some e)) ;;
           mret (Return, buffer))
       | Py.OSError => Some (
           modify (upd_client (set_socket None)) ;;
           call (disconnect_delegate D) (fun f => f true (Some e)) ;;
           mret (Return, buffer))
       | _ => None
       end).

(** [handle_connection], for as many passes as [envs] describes. *)
Fixpoint handle_connection_from (D : Delegates) (envs : list IterEnv)
  (buffer : string) : M unit :=
  match envs with
  | [] => mret tt
  | env :: envs' =>
      c ← gets unreal_client;
      if is_connected c then
        '(exit, buffer') ← loop_body D env buffer;
        match exit with
        | Continue => handle_connection_from D envs' buffer'
        | _ => mret tt
        end
      else mret tt
  end.

Definition handle_connection (D : Delegates) (envs : list IterEnv) : M unit :=
  handle_connection_from D envs "".

(** ** The owner and the worker side by side

    The owner thread calls [send_message]; the worker thread runs the passes
    of [handle_connection].  The deque operations are atomic, so a run is an
    interleaving of the two kinds of step.  The worker is described by the
    buffer it holds, or [None] once its thread has ended (the loop was left
    or an exception escaped it). *)
Inductive action : Type :=
| OwnerSend (message_bytes : wire)
| WorkerPass (env : IterEnv).

Definition step (D : Delegates) (a : action)
  (st : DeviceUnreal * option string) : DeviceUnreal * option string :=
  let '(w, worker) := st in
  match a with
  | OwnerSend m => (world_of (send_message (disconnect_delegate D) m w), worker)
  | WorkerPass env =>
      match worker with
      | None => (w, None)
      | Some buffer =>
          if is_connected (unreal_client w) then
            match loop_body D env buffer w with
            | Ok (Continue, buffer') w' => (w', Some buffer')
            | Ok (_, _) w' => (w', None)
            | Raise _ w' => (w', None)
            end
          else (w, None)
      end
  end.

Definition run (D : Delegates) (acts : list action)
  (st : DeviceUnreal * option string) : DeviceUnreal * option string :=
  fold_left (fun st a => step D a st) acts st.

(** What the trace says was handed to the queue and what was written to
    the socket, each in program order. *)
Definition enqueued_of (e : event) : list wire :=
  match e with
  | Log MESSAGE [Lit _; Fv _; Lit _; Fw m] => [m]
  | _ => []
  end.

Definition transmitted_of (e : event) : list wire :=
  match e with
  | SocketSend m => [m]
  | _ => []
  end.

Definition enqueued (t : list event) : list wire := flat_map enqueued_of t.
Definition transmitted (t : list event) : list wire :=
  flat_map transmitted_of t.

(* ===================================================================== *)
(** * [DeviceUnreal] *)
(* ===================================================================== *)

(** Modelled from the spec: [status] and [changelist] are attributes of the
    base class [Device], which is not part of these two modules.  An
    assignment stores the value and is recorded in the trace, which stands
    for the notification that refreshes the display. *)
Definition assign_status (s : DeviceStatus) : M unit :=
  modify (set_status s) ;; emit (StatusAssigned s).

Definition assign_changelist (v : value) : M unit :=
  modify (set_changelist v) ;; emit (ChangelistAssigned v).

(** Modelled from the spec: [message_protocol.create_start_process_message]
    returns a fresh message id together with the encoded command. *)
Definition create_start_process_message (prog args : string)
  : M (UUID * wire) :=
  n ← gets uuids_drawn;
  p ← gets platform;
  modify (set_uuids_drawn (S n)) ;;
  mret (uuid4 p n, StartProcessMessage (uuid4 p n) prog args).

Definition on_listener_disconnect (unexpected : bool)
  (exception : option Py.exn) : M unit :=
  if unexpected then emit (Emit signal_device_client_disconnected)
  else mret tt.

(** [self.unreal_client.send_message(msg)]: the client of a device has
    [on_listener_disconnect] as its disconnect delegate. *)
Definition unreal_client_send_message (msg : wire) : M unit :=
  send_message (Some on_listener_disconnect) msg.

(** [d.pop(k)] on the start queue and on the two tables of running
    programs. *)
Definition pop_start_queue (message_id : UUID) : M string :=
  q ← gets _remote_programs_start_queue;
  v ← getitem q message_id;
  modify (set_start_queue (delete message_id q)) ;;
  mret v.

Definition pop_program_names (program_id : UUID) : M string :=
  d ← gets _running_remote_program_names;
  v ← getitem d program_id;
  modify (set_program_names (delete program_id d)) ;;
  mret v.

Definition pop_program_ids (program_name : string) : M UUID :=
  d ← gets _running_remote_program_ids;
  v ← getitem d program_name;
  modify (set_program_ids (delete program_name d)) ;;
  mret v.

Definition _request_roles_file : M unit :=
  cfg ← gets config;
  unreal_client_send_message (CopyFileFromListenerMessage (roles_file_path cfg)).

Definition _request_current_changelist_number : M unit :=
  cfg ← gets config;
  '(mid, msg) ← create_start_process_message "p4" (cstat_args cfg);
  modify (fun w =>
    set_start_queue (<[mid := "cstat"]> (_remote_programs_start_queue w)) w) ;;
  unreal_client_send_message msg.

Definition sync (cl : value) : M unit :=
  cfg ← gets config;
  nm ← gets name;
  log INFO [Fv (VStr nm); Lit ": Syncing project ";
            Fv (VStr (project_name cfg)); Lit " to revision "; Fv cl] ;;
  modify (set_inflight_changelist cl) ;;
  let '(sync_tool, sync_args) := sync_command cfg cl in
  log INFO [Fv (VStr nm); Lit ": Sending sync command: ";
            Fv (VStr sync_tool); Lit " "; Fv (VStr sync_args)] ;;
  '(mid, msg) ← create_start_process_message sync_tool sync_args;
  modify (fun w =>
    set_start_queue (<[mid := "sync"]> (_remote_programs_start_queue w)) w) ;;
  unreal_client_send_message msg ;;
  assign_status SYNCING.

Definition build : M unit :=
  st ← gets status;
  nm ← gets name;
  if bool_decide (st = SYNCING) then
    modify (set_start_build_after_sync true) ;;
    log INFO [Fv (VStr nm);
              Lit ": Build scheduled to start after successful sync operation"]
  else
    cfg ← gets config;
    let '(build_tool, build_args) := build_command cfg in
    '(mid, msg) ← create_start_process_message build_tool build_args;
    modify (fun w =>
      set_start_queue (<[mid := "build"]> (_remote_programs_start_queue w)) w) ;;
    log INFO [Fv (VStr nm); Lit ": Sending build command: ";
              Fv (VStr build_tool); Lit " "; Fv (VStr build_args)] ;;
    unreal_client_send_message msg ;;
    assign_status BUILDING.

Definition close (force : bool) : M unit :=
  try_except
    (ids ← gets _running_remote_program_ids;
     program_id ← getitem ids "unreal";
     unreal_client_send_message (KillProcessMessage program_id))
    (fun e =>
       match e with
       | Py.KeyError => Some (assign_status CLOSED)
       | _ => None
       end).

Definition on_program_started (program_id message_id : UUID) : M unit :=
  program_name ← pop_start_queue message_id;
  nm ← gets name;
  log INFO [Fv (VStr nm); Lit ": "; Fv (VStr program_name); Lit " with id ";
            Fu program_id; Lit " was successfully started"] ;;
  (if bool_decide (program_name = "unreal") then
     assign_status OPEN ;;
     emit (OscMessage "OSC_ADD_SEND_TARGET")
   else mret tt) ;;
  modify (fun w =>
    set_program_names
      (<[program_id := program_name]> (_running_remote_program_names w)) w) ;;
  modify (fun w =>
    set_program_ids
      (<[program_name := program_id]> (_running_remote_program_ids w)) w).

Definition on_program_start_failed (error : value) (message_id : UUID)
  : M unit :=
  program_name ← pop_start_queue message_id;
  log ERROR [Lit "Could not start "; Fv (VStr program_name); Lit ": ";
             Fv error] ;;
  if bool_decide (program_name = "sync") || bool_decide (program_name = "build")
  then
    assign_status CLOSED ;;
    cl ← gets changelist;
    assign_changelist cl
  else mret tt.

(** [output.splitlines()] and [output.split()]: only a string has these
    methods. *)
Definition value_splitlines (output : value) : M (list string) :=
  match output with
  | VStr s => mret (Py.splitlines s)
  | _ => raise Py.AttributeError
  end.

Definition value_split (output : value) : M (list string) :=
  match output with
  | VStr s => mret (Py.words s)
  | _ => raise Py.AttributeError
  end.

(** [for line in output.splitlines(): LOGGER.error(f"{self.name}: {line}")] *)
Definition log_output (output : value) : M unit :=
  nm ← gets name;
  lines ← value_splitlines output;
  for_each lines (fun line => log ERROR [Fv (VStr nm); Lit ": "; Fv (VStr line)]).

Definition on_program_ended (program_id : UUID) (returncode output : value)
  : M unit :=
  nm ← gets name;
  log INFO [Fv (VStr nm); Lit ": Program with id "; Fu program_id;
            Lit " exited with returncode "; Fv returncode] ;;
  program_name ← pop_program_names program_id;
  pop_program_ids program_name ;;
  if bool_decide (program_name = "unreal") then
    assign_status CLOSED
  else if bool_decide (program_name = "sync") then
    assign_status CLOSED ;;
    (if negb (py_eq returncode (VInt 0)) then
       log ERROR [Fv (VStr nm); Lit ": Project was not synced successfully!"] ;;
       log_output output ;;
       emit (Emit signal_device_sync_failed)
     else
       log INFO [Fv (VStr nm); Lit ": Project was synced successfully"] ;;
       cl ← gets inflight_changelist;
       assign_changelist cl ;;
       pending ← gets start_build_after_sync;
       if pending : bool then
         modify (set_start_build_after_sync false) ;;
         build
       else mret tt) ;;
    modify (set_inflight_changelist (VInt 0))
  else if bool_decide (program_name = "build") then
    (if py_eq returncode (VInt 0) then
       log INFO [Fv (VStr nm); Lit ": Project was built successfully!"]
     else
       log ERROR [Fv (VStr nm); Lit ": Project was not built successfully!"] ;;
       log_output output) ;;
    assign_status CLOSED ;;
    cl ← gets changelist;
    assign_changelist cl
  else if bool_decide (program_name = "cstat") then
    tokens ← value_split output;
    let changelists := map (Py.strip Py.is_space) tokens in
    match changelists with
    | _ :: _ =>
        current_changelist ← lift (Py.last_item changelists);
        cfg ← gets config;
        log INFO [Fv (VStr nm); Lit ": Project ";
                  Fv (VStr (project_name cfg)); Lit " is on revision ";
                  Fv (VStr current_changelist)] ;;
        assign_changelist (VStr current_changelist)
    | [] =>
        log ERROR [Fv (VStr nm);
          Lit ": Could not retrieve changelists for project. Are the Source Control Settings correctly configured?"]
    end
  else mret tt.

(** A [uuid.UUID] has no attribute [pop]: looking it up raises. *)
Definition uuid_pop (u : UUID) (arg : UUID) : M unit :=
  raise Py.AttributeError.

Definition on_program_kill_failed (program_id : UUID) (error : value)
  : M unit :=
  ids ← gets _running_remote_program_ids;
  u ← getitem ids "unreal";
  uuid_pop u program_id ;;
  log ERROR [Lit "Unable to close Unreal with id "; Fu program_id] ;;
  log ERROR [Lit "Error: "; Fv error] ;;
  assign_status CLOSED.

Definition on_file_received (source_path content : value) : M unit :=
  cfg ← gets config;
  nm ← gets name;
  match source_path with
  | VStr path =>
      if Py.endswith path (roles_filename cfg) then
        p ← gets platform;
        decoded_content ← lift (b64decode p content);
        let lines := Py.splitlines decoded_content in
        for_each (TagFile.lines_logged lines)
                 (fun line => log INFO [Fv (VStr line)]) ;;
        tags ← lift (TagFile.parse_unreal_tag_file lines);
        modify (set_possible_values tags) ;;
        log INFO [Fv (VStr nm); Lit ": All possible roles: "; Fl tags] ;;
        roles ← gets setting_roles;
        let unsupported_roles :=
          filter (fun role => role ∉ tags) roles in
        match unsupported_roles with
        | _ :: _ =>
            log ERROR [Fv (VStr nm); Lit ": Found unsupported roles: ";
                       Fl unsupported_roles] ;;
            log ERROR [Fv (VStr nm);
              Lit ": Please change the roles for this device in the settings or in the unreal project settings!"]
        | [] => mret tt
        end
      else mret tt
  | _ => raise Py.AttributeError
  end.

Definition on_file_receive_failed (source_path error : value) : M unit :=
  nm ← gets name;
  roles ← gets setting_roles;
  match roles with
  | _ :: _ =>
      log ERROR [Fv (VStr nm);
        Lit ": Error receiving role file from listener and device claims to have these roles: ";
        Fl roles] ;;
      log ERROR [Lit "Error: "; Fv error]
  | [] => mret tt
  end.

(** The delegates assigned in [DeviceUnreal.__init__]; the two entries of
    the [delegates] dict stay [None]. *)
Definition device_delegates : Delegates := {|
  disconnect_delegate := Some on_listener_disconnect;
  command_accepted_delegate := None;
  command_declined_delegate := None;
  program_started_delegate := Some on_program_started;
  program_start_failed_delegate := Some on_program_start_failed;
  program_ended_delegate := Some on_program_ended;
  program_killed_delegate := None;
  program_kill_failed_delegate := Some on_program_kill_failed;
  vcs_init_completed_delegate := None;
  vcs_init_failed_delegate := None;
  vcs_report_revision_completed_delegate := None;
  vcs_report_revision_failed_delegate := None;
  vcs_sync_completed_delegate := None;
  vcs_sync_failed_delegate := None;
  send_file_completed_delegate := None;
  send_file_failed_delegate := None;
  receive_file_completed_delegate := Some on_file_received;
  receive_file_failed_delegate := Some on_file_receive_failed;
  delegates := {[ "state" := None; "get sync status" := None ]}
|}.

(* ===================================================================== *)
(** * Further operations of the two classes *)
(* ===================================================================== *)

(** ** [ListenerClient.disconnect] *)

(** [handle_connection_thread.join()]: the caller waits until the worker
    has left [handle_connection]; [envs] are the passes the worker still
    makes and [worker] is its buffer, or [None] if its thread has ended
    already.  An exception that leaves the worker ends its thread and does
    not reach the caller. *)
Definition join (D : Delegates) (envs : list IterEnv)
  (worker : option string) : M unit :=
  fun w =>
    match worker with
    | Some buffer => Ok tt (world_of (handle_connection_from D envs buffer w))
    | None => Ok tt w
    end.

(** [disconnect()], when the worker makes no pass between the call of
    [send_message] and the assignment of the flag. *)
Definition disconnect (D : Delegates) (envs : list IterEnv)
  (worker : option string) : M unit :=
  c ← gets unreal_client;
  if is_connected c then
    send_message (disconnect_delegate D) DisconnectMessage ;;
    modify (upd_client (set_close_socket true)) ;;
    join D envs worker
  else mret tt.

(** The setter of the property [is_connected]; the value that [connect]
    returns is dropped. *)
Definition set_is_connected (D : Delegates) (cenv : ConnectEnv)
  (envs : list IterEnv) (worker : option string) (value : bool) : M unit :=
  c ← gets unreal_client;
  if Bool.eqb value (is_connected c) then mret tt
  else if value then connect cenv None ;; mret tt
  else disconnect D envs worker.

(** ** [DeviceUnreal.launch] *)

(** [str(n)] for an integer. *)
Definition str_int (n : Z) : string := NilZero.string_of_int (Z.to_int n).

(** What [launch] reads from [CONFIG], [SETTINGS] and the settings of the
    device. *)
Record LaunchSettings : Type := mkLaunchSettings {
  command_line_arguments : string;
  muserver_auto_join : bool;
  muserver_server_name : string;
  muserver_session_name : string;
  stage_session_id : Z;
  uproject_path : string;
  unreal_exe_path : string      (* generate_unreal_exe_path() *)
}.

(** The two list comprehensions over the selected roles. *)
Definition unsupported_roles (selected possible : list string) : list string :=
  List.filter (fun role => negb (bool_decide (role ∈ possible))) selected.

Definition supported_roles (selected possible : list string) : list string :=
  List.filter
    (fun role => negb (bool_decide (role ∈ unsupported_roles selected possible)))
    selected.

Definition generate_unreal_command_line_args (ls : LaunchSettings)
  (map_name : string) : M string :=
  nm ← gets name;
  let command_line_args := command_line_arguments ls in
  let command_line_args :=
    if muserver_auto_join ls
    then command_line_args +:+ " -CONCERTAUTOCONNECT -CONCERTSERVER="
         +:+ muserver_server_name ls +:+ " -CONCERTSESSION="
         +:+ muserver_session_name ls +:+ " -CONCERTDISPLAYNAME=" +:+ nm
    else command_line_args in
  selected_roles ← gets setting_roles;
  possible ← gets possible_values;
  let unsupported := unsupported_roles selected_roles possible in
  let supported := supported_roles selected_roles possible in
  let command_line_args :=
    match supported with
    | _ :: _ => command_line_args +:+ " -VPRole=" +:+ String.concat "|" supported
    | [] => command_line_args
    end in
  match unsupported with
  | _ :: _ =>
      log ERROR [Fv (VStr nm); Lit ": Omitted unsupported roles: ";
                 Fv (VStr (String.concat "|" unsupported))]
  | [] => mret tt
  end ;;
  let command_line_args :=
    if Z.ltb 0 (stage_session_id ls)
    then command_line_args +:+ " -StageSessionId="
         +:+ str_int (stage_session_id ls)
    else command_line_args in
  let command_line_args :=
    command_line_args +:+ " -StageFriendlyName=" +:+ nm in
  mret (String Py.dquote (uproject_path ls) +:+ String Py.dquote " "
        +:+ map_name +:+ " " +:+ command_line_args).

Definition launch (ls : LaunchSettings) (map_name : string) : M unit :=
  args ← generate_unreal_command_line_args ls map_name;
  let engine_path := unreal_exe_path ls in
  log INFO [Lit "Launching UE4: "; Fv (VStr engine_path); Lit " ";
            Fv (VStr args)] ;;
  '(mid, msg) ← create_start_process_message engine_path args;
  modify (fun w =>
    set_start_queue (<[mid := "unreal"]> (_remote_programs_start_queue w)) w) ;;
  unreal_client_send_message msg.

(** ** The branches of [on_program_ended]

    What [on_program_ended] does once the program is removed from the two
    tables, by the name it ran under; [on_program_ended] is these branches
    behind the two [pop] calls (lemma [on_program_ended_branches]). *)
Definition ended_branch (nm program_name : string) (returncode output : value)
  : M unit :=
  if bool_decide (program_name = "unreal") then
    assign_status CLOSED
  else if bool_decide (program_name = "sync") then
    assign_status CLOSED ;;
    (if negb (py_eq returncode (VInt 0)) then
       log ERROR [Fv (VStr nm); Lit ": Project was not synced successfully!"] ;;
       log_output output ;;
       emit (Emit signal_device_sync_failed)
     else
       log INFO [Fv (VStr nm); Lit ": Project was synced successfully"] ;;
       cl ← gets inflight_changelist;
       assign_changelist cl ;;
       pending ← gets start_build_after_sync;
       if pending : bool then
         modify (set_start_build_after_sync false) ;;
         build
       else mret tt) ;;
    modify (set_inflight_changelist (VInt 0))
  else if bool_decide (program_name = "build") then
    (if py_eq returncode (VInt 0) then
       log INFO [Fv (VStr nm); Lit ": Project was built successfully!"]
     else
       log ERROR [Fv (VStr nm); Lit ": Project was not built successfully!"] ;;
       log_output output) ;;
    assign_status CLOSED ;;
    cl ← gets changelist;
    assign_changelist cl
  else if bool_decide (program_name = "cstat") then
    tokens ← value_split output;
    let changelists := map (Py.strip Py.is_space) tokens in
    match changelists with
    | _ :: _ =>
        current_changelist ← lift (Py.last_item changelists);
        cfg ← gets config;
        log INFO [Fv (VStr nm); Lit ": Project ";
                  Fv (VStr (project_name cfg)); Lit " is on revision ";
                  Fv (VStr current_changelist)] ;;
        assign_changelist (VStr current_changelist)
    | [] =>
        log ERROR [Fv (VStr nm);
          Lit ": Could not retrieve changelists for project. Are the Source Control Settings correctly configured?"]
    end
  else mret tt.

(* ===================================================================== *)
(** * Reading the trace *)
(* ===================================================================== *)

Definition is_thread_start (e : event) : bool :=
  match e with ThreadStarted => true | _ => false end.

Definition is_socket_open (e : event) : bool :=
  match e with SocketOpened => true | _ => false end.

(** How many worker threads were started and sockets opened so far. *)
Definition threads_started (t : list event) : nat :=
  length (List.filter is_thread_start t).

Definition sockets_opened (t : list event) : nat :=
  length (List.filter is_socket_open t).

Definition status_of (e : event) : list DeviceStatus :=
  match e with StatusAssigned s => [s] | _ => [] end.

(** The statuses assigned so far, oldest first. *)
Definition statuses_assigned (t : list event) : list DeviceStatus :=
  flat_map status_of t.

(* ===================================================================== *)
(** * Vocabulary of the statements *)
(* ===================================================================== *)

(** The client after a failed attempt: flag cleared, clock reset, socket
    dropped; queue, port, buffer size and thread handle as before. *)
Definition after_failed_attempt (env : ConnectEnv) (c : ListenerClient)
  : ListenerClient :=
  set_socket None
    (set_last_activity (connect_now env) (set_close_socket false c)).

(** The attempt fails with an [OSError]: the operating system refuses the
    socket, or it refuses the connection. *)
Definition os_refuses (env : ConnectEnv) : bool :=
  negb (os_socket_ok env)
  || negb (os_connect_ok env) && is_OSError (connect_error env).

(** The attempt fails with an exception that is no [OSError]: the socket
    is there and [socket.connect] raises before it reaches the operating
    system. *)
Definition connect_escapes (env : ConnectEnv) : bool :=
  os_socket_ok env && negb (os_connect_ok env)
  && negb (is_OSError (connect_error env)).

(** The client after such an attempt: flag cleared, clock reset, and the
    socket that was created and never connected. *)
Definition after_escaped_attempt (env : ConnectEnv) (c : ListenerClient)
  : ListenerClient :=
  set_socket (Some (mkSocket None))
    (set_last_activity (connect_now env) (set_close_socket false c)).

(** A string without white space. *)
Fixpoint no_space (s : string) : bool :=
  match s with
  | EmptyString => true
  | String c s' => negb (Py.is_space c) && no_space s'
  end.

(** A frame body holds no terminator. *)
Fixpoint no_terminator (s : string) : bool :=
  match s with
  | EmptyString => true
  | String c s' => negb (is_terminator c) && no_terminator s'
  end.

(** The terminator as a one-character string. *)
Definition terminator : string := String "000"%char EmptyString.

(** The error entry written by the [except] clause of
    [process_received_data]. *)
Definition routing_error (e : Py.exn) : event :=
  Log ERROR [Lit "Error while parsing message: "; Ftraceback e].

Module TagFileSpec.

Import TagFile.

(** [s] without its first [n] characters. *)
Fixpoint string_drop (n : nat) (s : string) : string :=
  match n, s with
  | O, _ => s
  | S _, EmptyString => EmptyString
  | S k, String _ s' => string_drop k s'
  end.

(** The first occurrence of [sep] in [s]: the text before it and the text
    after it. *)
Fixpoint cut (s sep : string) : option (string * string) :=
  match s with
  | EmptyString => None
  | String c s' =>
      if Py.startswith s sep
      then Some (EmptyString, string_drop (String.length sep) s)
      else match cut s' sep with
           | Some (p, r) => Some (String c p, r)
           | None => None
           end
  end.

(** The text after the first [sep], if [sep] occurs. *)
Definition after_first (s sep : string) : option string :=
  match cut s sep with
  | Some (_, r) => Some r
  | None => None
  end.

(** The text before the first [sep], or all of [s]. *)
Definition before_first (s sep : string) : string :=
  match cut s sep with
  | Some (p, _) => p
  | None => s
  end.

(** The text before the first character [c], or all of [s]. *)
Fixpoint before_char (s : string) (c : ascii) : string :=
  match s with
  | EmptyString => EmptyString
  | String a s' =>
      if Ascii.eqb a c then EmptyString else String a (before_char s' c)
  end.

(** The tag of a line as the specification words it: the text between
    the first "Tag=" and the next comma, without the quotes around
    it. *)
Definition tag_between (line : string) : option string :=
  match after_first line tag_marker with
  | Some rest => Some (Py.strip Py.is_quote (before_char rest comma))
  | None => None
  end.

(** The tag of a line as the code takes it: the text after the first
    "Tag=" ends at the next "Tag=", at the next comma or at the end of the
    line, whichever comes first. *)
Definition tag_field (line : string) : option string :=
  match after_first line tag_marker with
  | Some rest =>
      Some (Py.strip Py.is_quote
              (before_char (before_first rest tag_marker) comma))
  | None => None
  end.

Definition is_tag_line (line : string) : bool :=
  Py.startswith line prefix_marker.

(** A role line whose tag text holds the marker a second time. *)
Definition nested_marker_line : string :=
  "GameplayTagList=+(Tag=" +:+ String Py.dquote "Stage.Tag=Main"
  +:+ String Py.dquote ",DevComment=none)".

End TagFileSpec.

(** From [w] to [w'] the outbound queue only gained messages at its left
    end, each of them recorded as enqueued, and nothing was written to the
    socket. *)
Definition queue_grows (w w' : DeviceUnreal) : Prop :=
  exists new,
    message_queue (unreal_client w') = new ++ message_queue (unreal_client w)
    /\ enqueued (trace w') = enqueued (trace w) ++ List.rev new
    /\ transmitted (trace w') = transmitted (trace w).

(** A computation that, whether it returns or raises, only enqueues. *)
Definition enqueue_only {A : Type} (m : M A) : Prop :=
  forall w, queue_grows w (world_of (m w)).

(** Every delegate only enqueues. *)
Record delegates_enqueue_only (D : Delegates) : Prop := {
  eo_disconnect : forall f, disconnect_delegate D = Some f ->
    forall u e, enqueue_only (f u e);
  eo_command_accepted : forall f, command_accepted_delegate D = Some f ->
    forall i, enqueue_only (f i);
  eo_command_declined : forall f, command_declined_delegate D = Some f ->
    forall i e, enqueue_only (f i e);
  eo_program_started : forall f, program_started_delegate D = Some f ->
    forall p i, enqueue_only (f p i);
  eo_program_start_failed : forall f,
    program_start_failed_delegate D = Some f ->
    forall e i, enqueue_only (f e i);
  eo_program_ended : forall f, program_ended_delegate D = Some f ->
    forall p r o, enqueue_only (f p r o);
  eo_program_killed : forall f, program_killed_delegate D = Some f ->
    forall p, enqueue_only (f p);
  eo_program_kill_failed : forall f,
    program_kill_failed_delegate D = Some f ->
    forall p e, enqueue_only (f p e);
  eo_vcs_init_completed : forall f, vcs_init_completed_delegate D = Some f ->
    enqueue_only f;
  eo_vcs_init_failed : forall f, vcs_init_failed_delegate D = Some f ->
    forall e, enqueue_only (f e);
  eo_vcs_report_revision_completed : forall f,
    vcs_report_revision_completed_delegate D = Some f ->
    forall r, enqueue_only (f r);
  eo_vcs_report_revision_failed : forall f,
    vcs_report_revision_failed_delegate D = Some f ->
    forall e, enqueue_only (f e);
  eo_vcs_sync_completed : forall f, vcs_sync_completed_delegate D = Some f ->
    forall r, enqueue_only (f r);
  eo_vcs_sync_failed : forall f, vcs_sync_failed_delegate D = Some f ->
    forall e, enqueue_only (f e);
  eo_send_file_completed : forall f, send_file_completed_delegate D = Some f ->
    forall d, enqueue_only (f d);
  eo_send_file_failed : forall f, send_file_failed_delegate D = Some f ->
    forall d e, enqueue_only (f d e);
  eo_receive_file_completed : forall f,
    receive_file_completed_delegate D = Some f ->
    forall s c, enqueue_only (f s c);
  eo_receive_file_failed : forall f,
    receive_file_failed_delegate D = Some f ->
    forall s e, enqueue_only (f s e);
  eo_delegates : forall command f, delegates_get D command = Some f ->
    forall m, enqueue_only (f m)
}.

(** The messages enqueued so far are those taken off the queue so far
    followed by those still on it, oldest first; what was written to the
    socket is, in order, among those taken off. *)
Definition fifo_inv (w : DeviceUnreal) : Prop :=
  exists popped,
    enqueued (trace w)
      = popped ++ List.rev (message_queue (unreal_client w))
    /\ transmitted (trace w) `sublist_of` popped.

(** The same when nothing taken off the queue was lost: the messages
    written to the socket are exactly the first ones enqueued. *)
Definition fifo_exact (w : DeviceUnreal) : Prop :=
  enqueued (trace w)
    = transmitted (trace w) ++ List.rev (message_queue (unreal_client w)).

(** The messages written to the socket are the messages enqueued, in
    their order, but for one: [lost] was enqueued after the messages
    [before] and ahead of every message that was written later or is still
    waiting, and it is neither written nor waiting. *)
Definition fifo_skips (lost : wire) (before : list wire) (w : DeviceUnreal)
  : Prop :=
  exists after,
    transmitted (trace w) = before ++ after
    /\ enqueued (trace w)
       = before ++ lost :: after
           ++ List.rev (message_queue (unreal_client w)).

(** A pass in which the socket, if [select] answers at all, is writable and
    the write succeeds. *)
Definition reliable (a : action) : Prop :=
  match a with
  | OwnerSend _ => True
  | WorkerPass env =>
      send_result env = None
      /\ match select_result env with
         | inr (_, writable) => writable = true
         | inl _ => True
         end
  end.

(** A computation that keeps a property of the world, whether it returns
    or raises. *)
Definition keeps {A : Type} (P : DeviceUnreal -> Prop) (m : M A) : Prop :=
  forall w, P w -> P (world_of (m w)).

(* ===================================================================== *)
(** * A small installation, used to exercise the model *)
(* ===================================================================== *)

Module Lab.

Definition lab_platform : Platform := {|
  uuid_of v :=
    match v with
    | VStr s =>
        if bool_decide (s = "id-1") then inr 1%N
        else if bool_decide (s = "id-2") then inr 2%N
        else if bool_decide (s = "id-100") then inr 100%N
        else inl Py.ValueError
    | _ => inl Py.AttributeError
    end;
  decode_message b :=
    if bool_decide (b = "started")
    then inr ({[ "command" := VStr "start";
                 "program started" := VBool true;
                 "message id" := VStr "id-100";
                 "program id" := VStr "id-1" ]} : gmap string value)
    else if bool_decide (b = "kill failed")
    then inr ({[ "command" := VStr "kill";
                 "program killed" := VBool false;
                 "program id" := VStr "id-1";
                 "error" := VStr "access denied" ]} : gmap string value)
    else inl Py.ValueError;
  b64decode v := inl Py.ValueError;
  uuid4 n := (100 + N.of_nat n)%N
|}.

Definition lab_config : Config := {|
  project_name := "Stage";
  roles_filename := "VPRoles.ini";
  roles_file_path := "D:/Stage/Config/Tags/VPRoles.ini";
  cstat_args := "cstat";
  sync_command cl := ("p4", "sync");
  build_command := ("UnrealBuildTool", "UE4Editor Win64 Development")
|}.

(** A client whose socket is connected to its listener. *)
Definition lab_client : ListenerClient := {|
  ip_address := Some "10.0.0.5";
  port := 2980;
  buffer_size := 1024;
  message_queue := [];
  close_socket := false;
  socket := Some (mkSocket (Some ("10.0.0.5", 2980)));
  handle_connection_thread := Some WorkerThread;
  last_activity := 0
|}.

Definition lab_device : DeviceUnreal := {|
  name := "node1";
  status := CONNECTED;
  changelist := VStr "1000";
  inflight_changelist := VInt 0;
  start_build_after_sync := false;
  _remote_programs_start_queue := ∅;
  _running_remote_program_names := ∅;
  _running_remote_program_ids := ∅;
  setting_roles := [];
  possible_values := [];
  unreal_client := lab_client;
  config := lab_config;
  platform := lab_platform;
  uuids_drawn := 0;
  trace := []
|}.

(** The device after its address setting was emptied while the socket
    is still connected. *)
Definition address_cleared : DeviceUnreal :=
  upd_client (set_ip_address (Some "")) lab_device.

(** The device after a graceful disconnect (the flag stays set, the
    socket is gone) and with its address emptied. *)
Definition disconnected_no_address : DeviceUnreal :=
  upd_client (fun c => set_ip_address None
                         (set_close_socket true (set_socket None c)))
             lab_device.

(** The device with Unreal running as program 1 and the connection
    lost. *)
Definition unreal_running_offline : DeviceUnreal :=
  upd_client (set_socket None)
    (set_status OPEN
       (set_program_ids {[ "unreal" := 1%N ]}
          (set_program_names {[ 1%N := "unreal" ]} lab_device))).

(** The device while the sync to changelist 1234 runs as program 1. *)
Definition sync_running : DeviceUnreal :=
  world_of ((sync (VInt 1234) ;; on_program_started 1%N 100%N) lab_device).

(** The same, after [build] was called in the meantime. *)
Definition sync_running_build_pending : DeviceUnreal :=
  world_of (build sync_running).

(** The device while the changelist query runs as program 1. *)
Definition cstat_running : DeviceUnreal :=
  world_of ((_request_current_changelist_number ;;
             on_program_started 1%N 100%N) lab_device).

(** A pass with a writable socket and nothing to read, and a pass in
    which the socket cannot be written. *)
Definition writable_pass : IterEnv := {|
  select_result := inr (false, true);
  send_result := None;
  recv_result := inr "";
  now_sent := 10;
  now_received := 10;
  now_idle := 20;
  shutdown_after_reset := Some Py.OSError
|}.

Definition blocked_pass : IterEnv := {|
  select_result := inr (false, false);
  send_result := None;
  recv_result := inr "";
  now_sent := 10;
  now_received := 10;
  now_idle := 20;
  shutdown_after_reset := Some Py.OSError
|}.

(** Two sends, a pass, a third send, a pass. *)
Definition schedule : list action :=
  [OwnerSend (KillProcessMessage 1); OwnerSend (KillProcessMessage 2);
   WorkerPass writable_pass; OwnerSend (KillProcessMessage 3);
   WorkerPass writable_pass].

(** The operating system refuses the connection; it accepts it; the port
    is out of range. *)
Definition refused : ConnectEnv := mkConnectEnv 99 true false Py.OSError.
Definition accepted : ConnectEnv := mkConnectEnv 99 true true Py.OSError.
Definition bad_port : ConnectEnv :=
  mkConnectEnv 99 true false Py.OverflowError.

End Lab.

(* ===================================================================== *)
(** * Vocabulary of the further statements *)
(* ===================================================================== *)

(** The keys by which [route_message] tells the kinds of message apart, in
    the order in which it tests them. *)
Definition kind_keys : list string :=
  ["command accepted"; "program started"; "program ended"; "program killed";
   "vcs init complete"; "vcs report revision complete"; "vcs sync complete";
   "send file complete"; "receive file complete"].

(** A relation between the states before and after a computation that
    does not look at the trace nor at the outbound queue. *)
Class Tolerant (R : DeviceUnreal -> DeviceUnreal -> Prop) : Prop := {
  tolerant_refl : forall w, R w w;
  tolerant_trans : forall w1 w2 w3, R w1 w2 -> R w2 w3 -> R w1 w3;
  tolerant_trace : forall w t, R w (set_trace t w);
  tolerant_queue : forall w q, R w (upd_client (set_message_queue q) w)
}.

(** A computation that, whether it returns or raises, ends in a state
    related to the one it started in. *)
Definition respects (R : DeviceUnreal -> DeviceUnreal -> Prop) {A : Type}
  (m : M A) : Prop :=
  forall w, R w (world_of (m w)).

(** Nothing of the connection has changed but, possibly, the outbound
    queue; the platform, the configuration and the name are the same. *)
Definition connection_untouched (w w' : DeviceUnreal) : Prop :=
  set_message_queue [] (unreal_client w')
    = set_message_queue [] (unreal_client w)
  /\ platform w' = platform w
  /\ config w' = config w
  /\ name w' = name w.

(** The two tables of running programs are the same. *)
Definition tables_untouched (w w' : DeviceUnreal) : Prop :=
  _running_remote_program_names w' = _running_remote_program_names w
  /\ _running_remote_program_ids w' = _running_remote_program_ids w.

(** The table of ids by name is the inverse of the table of names by
    id. *)
Definition tables_inverse (w : DeviceUnreal) : Prop :=
  forall (p : UUID) (n : string),
    _running_remote_program_names w !! p = Some n
    <-> _running_remote_program_ids w !! n = Some p.

(** The signals emitted so far, oldest first. *)
Definition signal_of (e : event) : list signal :=
  match e with Emit s => [s] | _ => [] end.

Definition signals_emitted (t : list event) : list signal :=
  flat_map signal_of t.

(** The seven handlers that a device registers all respect [R]. *)
Record handlers_respect (R : DeviceUnreal -> DeviceUnreal -> Prop) : Prop := {
  hr_disconnect : forall u e, respects R (on_listener_disconnect u e);
  hr_started : forall p i, respects R (on_program_started p i);
  hr_start_failed : forall e i, respects R (on_program_start_failed e i);
  hr_ended : forall p r o, respects R (on_program_ended p r o);
  hr_kill_failed : forall p e, respects R (on_program_kill_failed p e);
  hr_file_received : forall s c, respects R (on_file_received s c);
  hr_file_receive_failed : forall s e,
    respects R (on_file_receive_failed s e)
}.

(** The frames that [received_data] completes, given what the buffer
    holds, and what the buffer holds once they are taken out. *)
Fixpoint frames (buffer received_data : string) : list string :=
  match received_data with
  | EmptyString => []
  | String symbol rest =>
      if is_terminator symbol then buffer :: frames "" rest
      else frames (buffer +:+ String symbol "") rest
  end.

Fixpoint pending (buffer received_data : string) : string :=
  match received_data with
  | EmptyString => buffer
  | String symbol rest =>
      if is_terminator symbol then pending "" rest
      else pending (buffer +:+ String symbol "") rest
  end.

(** The platform decodes the frame. *)
Definition decodable (w : DeviceUnreal) (frame : string) : Prop :=
  exists m, decode_message (platform w) frame = inr m.

(** The worker has ended while the socket is still connected. *)
Definition worker_lost (st : DeviceUnreal * option string) : Prop :=
  st.2 = None /\ is_connected (unreal_client st.1) = true.

(** The messages handed to [send_message] in a schedule, oldest first. *)
Definition sends_of (a : action) : list wire :=
  match a with
  | OwnerSend m => [m]
  | WorkerPass _ => []
  end.

Definition sends (acts : list action) : list wire := flat_map sends_of acts.

(** The passes of the worker in a schedule. *)
Definition is_pass (a : action) : bool :=
  match a with
  | WorkerPass _ => true
  | OwnerSend _ => false
  end.

Definition passes (acts : list action) : nat := length (List.filter is_pass acts).

(** From [w] to [w'] at most [n] messages were written to the socket. *)
Definition sent_within (n : nat) (w w' : DeviceUnreal) : Prop :=
  exists sent,
    transmitted (trace w') = transmitted (trace w) ++ sent
    /\ (length sent <= n)%nat.

(** A computation that, whether it returns or raises, writes at most [n]
    messages to the socket. *)
Definition sends_within (n : nat) {A : Type} (m : M A) : Prop :=
  forall w, sent_within n w (world_of (m w)).

(** The line that [on_program_ended] logs first. *)
Definition ended_entry (w : DeviceUnreal) (program_id : UUID)
  (returncode : value) : event :=
  Log INFO [Fv (VStr (name w)); Lit ": Program with id "; Fu program_id;
            Lit " exited with returncode "; Fv returncode].

(** The state once [on_program_ended] has logged that line and taken the
    program out of the table of names. *)
Definition name_popped (w : DeviceUnreal) (program_id : UUID)
  (returncode : value) : DeviceUnreal :=
  set_program_names (delete program_id (_running_remote_program_names w))
    (set_trace (trace w ++ [ended_entry w program_id returncode]) w).

(** The same once the name is taken out of the table of ids as well. *)
Definition ended_popped (w : DeviceUnreal) (program_id : UUID)
  (program_name : string) (returncode : value) : DeviceUnreal :=
  set_program_ids (delete program_name (_running_remote_program_ids w))
    (name_popped w program_id returncode).

(** The names under which [on_program_start_failed] closes the device. *)
Definition closes_on_start_failure (program_name : string) : bool :=
  bool_decide (program_name = "sync") || bool_decide (program_name = "build").

(** The lines that [log_output] writes for the output [out]. *)
Definition output_entries (w : DeviceUnreal) (out : string) : list event :=
  map (fun line => Log ERROR [Fv (VStr (name w)); Lit ": "; Fv (VStr line)])
      (Py.splitlines out).

(** The value is a string. *)
Definition is_str (v : value) : bool :=
  match v with VStr _ => true | _ => false end.

Module RolesLab.

(** A platform on which the content of a file arrives as plain text. *)
Definition plain_platform : Platform := {|
  uuid_of := uuid_of Lab.lab_platform;
  decode_message := decode_message Lab.lab_platform;
  b64decode v :=
    match v with
    | VStr s => inr s
    | _ => inl Py.TypeError
    end;
  uuid4 := uuid4 Lab.lab_platform
|}.

(** A device on it with two roles selected. *)
Definition roles_device : DeviceUnreal := {|
  name := "node1";
  status := CONNECTED;
  changelist := VStr "1000";
  inflight_changelist := VInt 0;
  start_build_after_sync := false;
  _remote_programs_start_queue := ∅;
  _running_remote_program_names := ∅;
  _running_remote_program_ids := ∅;
  setting_roles := ["Stage.Main"; "Stage.Aux"];
  possible_values := [];
  unreal_client := Lab.lab_client;
  config := Lab.lab_config;
  platform := plain_platform;
  uuids_drawn := 0;
  trace := []
|}.

(** A roles file with a section header and one role. *)
Definition roles_file : string :=
  "[/Script/GameplayTags.GameplayTagsList]" +:+ String "010"%char
    ("GameplayTagList=+(Tag=" +:+ String Py.dquote "Stage.Main"
     +:+ String Py.dquote ",DevComment=none)").

(** A roles file whose role line has no tag field. *)
Definition broken_roles_file : string :=
  "GameplayTagList=+(DevComment=none)".

End RolesLab.

(** A line that the parser can handle: it is no role line, or it has a
    tag field. *)
Definition parsable (line : string) : bool :=
  negb (TagFileSpec.is_tag_line line)
  || Py.contains line TagFile.tag_marker.

(** The statuses that the handlers of the listener's events assign. *)
Definition event_status (s : DeviceStatus) : bool :=
  match s with
  | OPEN | CLOSED | BUILDING => true
  | _ => false
  end.

(** The status is what it was, or one that an event handler assigns. *)
Definition status_by_event (w w' : DeviceUnreal) : Prop :=
  status w' = status w \/ event_status (status w') = true.

(** A pass in which nothing is to be read, the socket is writable and the
    write succeeds. *)
Definition clear_pass (env : IterEnv) : Prop :=
  select_result env = inr (false, true) /\ send_result env = None.

(* ===================================================================== *)
(** * Proof support *)
(* ===================================================================== *)

(** Unfold the monad down to matches on outcomes. *)
Ltac unfold_m :=
  cbv beta iota delta
    [mbind M_bind mret M_ret raise gets modify emit log lift try_except
     getitem call].

#[local] Arguments threads_started : simpl never.
#[local] Arguments sockets_opened : simpl never.
#[local] Arguments statuses_assigned : simpl never.
#[local] Arguments enqueued : simpl never.
#[local] Arguments transmitted : simpl never.

Lemma threads_started_snoc (t : list event) (e : event) :
  threads_started (t ++ [e]) =
  (threads_started t + (if is_thread_start e then 1 else 0))%nat.
Proof.
  unfold threads_started. rewrite List.filter_app, length_app. simpl.
  destruct (is_thread_start e); reflexivity.
Qed.

Lemma sockets_opened_snoc (t : list event) (e : event) :
  sockets_opened (t ++ [e]) =
  (sockets_opened t + (if is_socket_open e then 1 else 0))%nat.
Proof.
  unfold sockets_opened. rewrite List.filter_app, length_app. simpl.
  destruct (is_socket_open e); reflexivity.
Qed.

Lemma statuses_assigned_app (t u : list event) :
  statuses_assigned (t ++ u) = statuses_assigned t ++ statuses_assigned u.
Proof. unfold statuses_assigned. apply flat_map_app. Qed.

Lemma enqueued_app (t u : list event) :
  enqueued (t ++ u) = enqueued t ++ enqueued u.
Proof. unfold enqueued. apply flat_map_app. Qed.

Lemma transmitted_app (t u : list event) :
  transmitted (t ++ u) = transmitted t ++ transmitted u.
Proof. unfold transmitted. apply flat_map_app. Qed.

Lemma enqueued_snoc (t : list event) (e : event) :
  enqueued (t ++ [e]) = enqueued t ++ enqueued_of e.
Proof.
  rewrite enqueued_app. unfold enqueued at 2. cbn. rewrite app_nil_r.
  reflexivity.
Qed.

Lemma transmitted_snoc (t : list event) (e : event) :
  transmitted (t ++ [e]) = transmitted t ++ transmitted_of e.
Proof.
  rewrite transmitted_app. unfold transmitted at 2. cbn. rewrite app_nil_r.
  reflexivity.
Qed.

(* ===================================================================== *)
(** * The kill-failed handler *)
(* ===================================================================== *)

(** C1.  Whatever the state of the device, [on_program_kill_failed] raises
    in its first statement: a [KeyError] when no program is registered
    under "unreal", an [AttributeError] otherwise, because the registered
    value is a program id and has no [pop].  The state is left as it was:
    the status is not set to [CLOSED] and neither error line is logged. *)
Theorem kill_failed_handler_raises (program_id : UUID) (error : value)
  (w : DeviceUnreal) :
  on_program_kill_failed program_id error w =
    Raise (match _running_remote_program_ids w !! "unreal" with
           | Some _ => Py.AttributeError
           | None => Py.KeyError
           end) w.
Proof.
  unfold on_program_kill_failed, uuid_pop. unfold_m.
  destruct (_running_remote_program_ids w !! "unreal"); reflexivity.
Qed.

(** With Unreal running as program 1, the kill-failed event leaves the
    device [OPEN]. *)
Example kill_failed_leaves_device_open :
  let w := set_status OPEN
             (set_program_ids {[ "unreal" := 1%N ]} Lab.lab_device) in
  on_program_kill_failed 1%N (VStr "access denied") w
    = Raise Py.AttributeError w
  /\ status w = OPEN.
Proof. split; reflexivity. Qed.

(** The same event arriving over the connection: the loop logs the
    exception as a routing error and the device is still [OPEN]. *)
Example kill_failed_frame_leaves_device_open :
  let w := set_status OPEN
             (set_program_ids {[ "unreal" := 1%N ]} Lab.lab_device) in
  let o := process_received_data device_delegates ""
             ("kill failed" +:+ terminator) w in
  (if o is Ok _ _ then true else false) = true
  /\ status (world_of o) = OPEN
  /\ trace (world_of o) = [routing_error Py.AttributeError].
Proof. vm_compute. repeat split. Qed.

(* ===================================================================== *)
(** * [connect] *)
(* ===================================================================== *)

Section Connect.

Variables (env : ConnectEnv) (ip_address_arg : option string)
          (w : DeviceUnreal).

Let c := unreal_client w.

(** The early return: no argument and no stored address. *)
Lemma connect_no_address :
  truthy ip_address_arg = false ->
  truthy (ip_address c) = false ->
  connect env ip_address_arg w =
    Ok false
       (set_trace
          (trace w ++ [Log DEBUG [Lit "No ip_address was given. Cannot connect"]])
          w).
Proof.
  intros Ha Hs. unfold connect. unfold_m. fold c. rewrite Ha, Hs.
  reflexivity.
Qed.

(** With an address, the call is [connect_attempt], after the argument,
    if any, has been stored. *)
Lemma connect_with_address :
  truthy ip_address_arg || truthy (ip_address c) = true ->
  connect env ip_address_arg w =
    connect_attempt env
      (if truthy ip_address_arg
       then upd_client (set_ip_address ip_address_arg) w
       else w).
Proof.
  intros H. unfold connect. unfold_m. fold c.
  destruct (truthy ip_address_arg); [reflexivity|].
  simpl in H. rewrite H. reflexivity.
Qed.

End Connect.

Lemma connect_attempt_fails (env : ConnectEnv) (w : DeviceUnreal) :
  os_refuses env = true ->
  exists w',
    connect_attempt env w = Ok false w'
    /\ unreal_client w' = after_failed_attempt env (unreal_client w)
    /\ threads_started (trace w') = threads_started (trace w)
    /\ status w' = status w.
Proof.
  unfold os_refuses. intros H. unfold connect_attempt. unfold_m.
  destruct (os_socket_ok env) eqn:Hs; simpl in H.
  - apply andb_prop in H as [Hc He]. apply negb_true_iff in Hc.
    rewrite Hc. cbn. rewrite He. eexists. split; [reflexivity|].
    cbn. rewrite !threads_started_snoc. cbn. repeat split; lia.
  - cbn. eexists. split; [reflexivity|].
    cbn. rewrite !threads_started_snoc. cbn. repeat split; lia.
Qed.

(** An exception of [socket.connect] that is no [OSError] is not caught:
    it leaves [connect], and the socket that was created stays. *)
Lemma connect_attempt_escapes (env : ConnectEnv) (w : DeviceUnreal) :
  connect_escapes env = true ->
  exists w',
    connect_attempt env w = Raise (connect_error env) w'
    /\ unreal_client w' = after_escaped_attempt env (unreal_client w)
    /\ threads_started (trace w') = threads_started (trace w)
    /\ status w' = status w.
Proof.
  unfold connect_escapes. intros H.
  apply andb_prop in H as [H He]. apply andb_prop in H as [Hs Hc].
  apply negb_true_iff in Hc, He.
  unfold connect_attempt. unfold_m. rewrite Hs, Hc. cbn. rewrite He.
  eexists. split; [reflexivity|].
  cbn. rewrite !threads_started_snoc. cbn. repeat split; lia.
Qed.

Lemma connect_attempt_succeeds (env : ConnectEnv) (w : DeviceUnreal) :
  os_socket_ok env && os_connect_ok env = true ->
  exists w',
    connect_attempt env w = Ok true w'
    /\ socket (unreal_client w') =
         Some (mkSocket (server_address (unreal_client w)))
    /\ threads_started (trace w') = S (threads_started (trace w))
    /\ sockets_opened (trace w') = S (sockets_opened (trace w)).
Proof.
  intros H. apply andb_prop in H as [Hs Hc].
  unfold connect_attempt. unfold_m. rewrite Hs, Hc. cbn.
  eexists. split; [reflexivity|]. cbn.
  rewrite !threads_started_snoc, !sockets_opened_snoc. cbn.
  repeat split; lia.
Qed.

(** C5, as the code has it.  A [connect] call never raises for an [OSError];
    - with no address known it returns [False], starts no worker and leaves
      the client untouched, so [is_connected] answers what it answered
      before the call;
    - with an address and an operating system that refuses the socket or
      the connection, that is, when one of the two socket calls raises an
      [OSError], it returns [False], starts no worker, and [is_connected]
      is false afterwards;
    - with an address and a successful connection it returns [True], holds
      a socket, and has opened exactly one socket and started exactly one
      worker thread.
    An exception of [socket.connect] that is no [OSError] is outside these
    cases; [connect_escapes_with_other_errors] says what happens then. *)
Theorem connect_outcomes (env : ConnectEnv) (ip_address_arg : option string)
  (w : DeviceUnreal) :
  let known := truthy ip_address_arg || truthy (ip_address (unreal_client w)) in
  let os_ok := os_socket_ok env && os_connect_ok env in
  (known = false ->
     exists w', connect env ip_address_arg w = Ok false w'
       /\ unreal_client w' = unreal_client w
       /\ is_connected (unreal_client w') = is_connected (unreal_client w)
       /\ threads_started (trace w') = threads_started (trace w))
  /\ (known = true -> os_refuses env = true ->
     exists w', connect env ip_address_arg w = Ok false w'
       /\ is_connected (unreal_client w') = false
       /\ threads_started (trace w') = threads_started (trace w))
  /\ (known = true -> os_ok = true ->
     exists w', connect env ip_address_arg w = Ok true w'
       /\ is_Some (socket (unreal_client w'))
       /\ sockets_opened (trace w') = S (sockets_opened (trace w))
       /\ threads_started (trace w') = S (threads_started (trace w))).
Proof.
  intros known os_ok. subst known os_ok. repeat split.
  - intros H. apply orb_false_elim in H as [Ha Hs].
    rewrite connect_no_address by assumption.
    eexists. split; [reflexivity|]. cbn.
    rewrite threads_started_snoc. cbn. repeat split; lia.
  - intros Hk Hos. rewrite connect_with_address by assumption.
    set (w0 := if truthy ip_address_arg then _ else w).
    destruct (connect_attempt_fails env w0 Hos) as (w' & E & Hc & Ht & _).
    exists w'. split; [exact E|]. split.
    + rewrite Hc. reflexivity.
    + rewrite Ht. subst w0. destruct (truthy ip_address_arg); reflexivity.
  - intros Hk Hos. rewrite connect_with_address by assumption.
    set (w0 := if truthy ip_address_arg then _ else w).
    destruct (connect_attempt_succeeds env w0 Hos) as (w' & E & Hs & Ht & Ho).
    exists w'. split; [exact E|]. split; [rewrite Hs; eauto|].
    rewrite Ht, Ho. subst w0.
    destruct (truthy ip_address_arg); split; reflexivity.
Qed.

(** The three cases of [connect_outcomes] on the lab installation. *)
Lemma connect_outcomes_witness :
  (exists w', connect Lab.refused None Lab.disconnected_no_address = Ok false w'
     /\ unreal_client w' = unreal_client Lab.disconnected_no_address
     /\ is_connected (unreal_client w') = false
     /\ threads_started (trace w') = 0%nat)
  /\ (exists w', connect Lab.refused None Lab.lab_device = Ok false w'
     /\ is_connected (unreal_client w') = false
     /\ threads_started (trace w') = 0%nat)
  /\ (exists w', connect Lab.accepted (Some "10.0.0.9") Lab.lab_device
                 = Ok true w'
     /\ is_Some (socket (unreal_client w'))
     /\ sockets_opened (trace w') = 1%nat
     /\ threads_started (trace w') = 1%nat).
Proof.
  split; [|split].
  - apply (proj1 (connect_outcomes Lab.refused None
                    Lab.disconnected_no_address)). reflexivity.
  - apply (proj1 (proj2 (connect_outcomes Lab.refused None Lab.lab_device)));
      reflexivity.
  - apply (proj2 (proj2 (connect_outcomes Lab.accepted (Some "10.0.0.9")
                           Lab.lab_device))); reflexivity.
Defined.

(** A [connect] call that finds no address returns [False] and yet
    [is_connected] is true afterwards: the socket of the earlier
    connection is still there. *)
Lemma connect_without_address_keeps_live_socket :
  exists w',
    truthy (ip_address (unreal_client Lab.address_cleared)) = false
    /\ connect Lab.refused None Lab.address_cleared = Ok false w'
    /\ is_connected (unreal_client w') = true.
Proof. eexists. repeat split. Qed.

(** C9, as the code has it.  A [connect] call that fails and returns
    [False] because the operating system refuses the socket or the
    connection (one of the two socket calls raises an [OSError]) has
    cleared the close flag, reset the activity time, dropped the socket
    and, when a non-empty address was passed, stored that address; nothing
    else in the client changes.  A call that fails and returns [False] for
    want of an address changes nothing in the client. *)
Theorem failed_connect_mutations (env : ConnectEnv)
  (ip_address_arg : option string) (w : DeviceUnreal) :
  let c := unreal_client w in
  let known := truthy ip_address_arg || truthy (ip_address c) in
  (known = true -> os_refuses env = true ->
     exists w', connect env ip_address_arg w = Ok false w'
       /\ close_socket (unreal_client w') = false
       /\ last_activity (unreal_client w') = connect_now env
       /\ socket (unreal_client w') = None
       /\ ip_address (unreal_client w') =
            (if truthy ip_address_arg then ip_address_arg else ip_address c)
       /\ message_queue (unreal_client w') = message_queue c
       /\ port (unreal_client w') = port c
       /\ handle_connection_thread (unreal_client w')
            = handle_connection_thread c)
  /\ (known = false ->
     exists w', connect env ip_address_arg w = Ok false w'
       /\ unreal_client w' = c).
Proof.
  intros c known. subst c known. split.
  - intros Hk Hos. rewrite connect_with_address by assumption.
    set (w0 := if truthy ip_address_arg then _ else w).
    destruct (connect_attempt_fails env w0 Hos) as (w' & E & Hc & _).
    exists w'. split; [exact E|]. rewrite Hc. subst w0.
    destruct (truthy ip_address_arg); cbn; repeat split.
  - intros H. apply orb_false_elim in H as [Ha Hs].
    rewrite connect_no_address by assumption.
    eexists. split; reflexivity.
Qed.

Lemma failed_connect_mutations_witness :
  (exists w', connect Lab.refused (Some "10.0.0.9") Lab.lab_device = Ok false w'
     /\ close_socket (unreal_client w') = false
     /\ last_activity (unreal_client w') = 99
     /\ socket (unreal_client w') = None
     /\ ip_address (unreal_client w') = Some "10.0.0.9"
     /\ message_queue (unreal_client w') = []
     /\ port (unreal_client w') = 2980
     /\ handle_connection_thread (unreal_client w') = Some WorkerThread)
  /\ (exists w', connect Lab.refused None Lab.disconnected_no_address
                 = Ok false w'
     /\ unreal_client w' = unreal_client Lab.disconnected_no_address).
Proof.
  split.
  - apply (proj1 (failed_connect_mutations Lab.refused (Some "10.0.0.9")
                    Lab.lab_device)); reflexivity.
  - apply (proj2 (failed_connect_mutations Lab.refused None
                    Lab.disconnected_no_address)); reflexivity.
Defined.

(** A [connect] call that fails and returns [False] without clearing the
    close flag and without resetting the activity time (which stays 0
    although the call is made at time 99). *)
Lemma connect_without_address_mutates_nothing :
  exists w',
    connect Lab.refused None Lab.disconnected_no_address = Ok false w'
    /\ close_socket (unreal_client w') = true
    /\ last_activity (unreal_client w') = 0
    /\ connect_now Lab.refused = 99.
Proof. eexists. repeat split. Qed.

(** Outside the two claims: when [socket.connect] raises an exception that
    is no [OSError], [connect] does not return.  The exception leaves it,
    the socket that was created and never connected stays in the client,
    the flag is cleared and the clock reset, no worker is started and
    [is_connected] is false. *)
Lemma connect_escapes_with_other_errors (env : ConnectEnv)
  (ip_address_arg : option string) (w : DeviceUnreal) :
  truthy ip_address_arg || truthy (ip_address (unreal_client w)) = true ->
  connect_escapes env = true ->
  exists w',
    connect env ip_address_arg w = Raise (connect_error env) w'
    /\ socket (unreal_client w') = Some (mkSocket None)
    /\ is_connected (unreal_client w') = false
    /\ close_socket (unreal_client w') = false
    /\ last_activity (unreal_client w') = connect_now env
    /\ threads_started (trace w') = threads_started (trace w).
Proof.
  intros Hk He. rewrite connect_with_address by assumption.
  set (w0 := if truthy ip_address_arg then _ else w).
  destruct (connect_attempt_escapes env w0 He) as (w' & E & Hc & Ht & _).
  exists w'. split; [exact E|]. rewrite Hc, Ht. subst w0.
  destruct (truthy ip_address_arg); repeat split.
Qed.

(** A port outside 0..65535: [socket.connect] raises [OverflowError]. *)
Example connect_with_port_out_of_range :
  let w := upd_client (set_socket None) Lab.lab_device in
  let o := connect Lab.bad_port None w in
  (if o is Raise Py.OverflowError _ then true else false) = true
  /\ socket (unreal_client (world_of o)) = Some (mkSocket None)
  /\ is_connected (unreal_client (world_of o)) = false.
Proof. vm_compute. repeat split. Qed.

(* ===================================================================== *)
(** * The end of a remote program *)
(* ===================================================================== *)

(** Decide the tests on closed names and statuses met while running a
    handler. *)
Ltac decide_closed :=
  repeat match goal with
  | |- context [bool_decide ?P] =>
      let v := eval vm_compute in (bool_decide P) in
      match v with true => idtac | false => idtac end;
      change (bool_decide P) with v
  end.

Ltac exec := cbn; decide_closed; cbn.

Ltac unfold_device :=
  unfold on_program_ended, on_program_started, on_program_start_failed,
         pop_program_names, pop_program_ids, pop_start_queue,
         build, close, create_start_process_message,
         unreal_client_send_message, send_message, on_listener_disconnect,
         value_split, assign_status, assign_changelist.

(** Logging the items of a list, one entry each. *)
Lemma for_each_log {A : Type} (lvl : level) (f : A -> list frag)
  (l : list A) (w : DeviceUnreal) :
  for_each l (fun x => log lvl (f x)) w =
    Ok tt (set_trace (trace w ++ map (fun x => Log lvl (f x)) l) w).
Proof.
  revert w. induction l as [|x l IH]; intros w.
  - cbn. rewrite app_nil_r. destruct w; reflexivity.
  - cbn [for_each]. unfold mbind, M_bind, log, emit, modify at 1.
    rewrite IH. cbn. rewrite <- List.app_assoc. reflexivity.
Qed.

(** A [build] call made while the device is [SYNCING] sets the pending
    flag and sends nothing. *)
Lemma build_while_syncing_defers (w : DeviceUnreal) :
  status w = SYNCING ->
  exists w',
    build w = Ok tt w'
    /\ start_build_after_sync w' = true
    /\ status w' = SYNCING
    /\ unreal_client w' = unreal_client w
    /\ _remote_programs_start_queue w' = _remote_programs_start_queue w.
Proof.
  intros H. unfold_device. unfold_m. rewrite H. exec.
  eexists. split; [reflexivity|]. cbn. rewrite H. repeat split.
Qed.

(** C2.  When the program registered as "sync" ends with return code 0,
    [on_program_ended] returns normally; it assigns [CLOSED], makes the
    in-flight changelist the current one and resets the in-flight
    changelist.  If the pending-build flag was set it is cleared and
    [build] runs: a build command is recorded in the start queue, handed to
    the client (and enqueued if the client is connected), and [BUILDING] is
    assigned after [CLOSED].  If the flag was not set the device stays
    [CLOSED] and nothing is sent. *)
Theorem sync_ended_with_success (w : DeviceUnreal) (program_id : UUID)
  (output : value) :
  _running_remote_program_names w !! program_id = Some "sync" ->
  is_Some (_running_remote_program_ids w !! "sync") ->
  exists w',
    on_program_ended program_id (VInt 0) output w = Ok tt w'
    /\ changelist w' = inflight_changelist w
    /\ inflight_changelist w' = VInt 0
    /\ start_build_after_sync w' = false
    /\ _running_remote_program_names w'
         = delete program_id (_running_remote_program_names w)
    /\ _running_remote_program_ids w'
         = delete "sync" (_running_remote_program_ids w)
    /\ if start_build_after_sync w then
         let mid := uuid4 (platform w) (uuids_drawn w) in
         status w' = BUILDING
         /\ statuses_assigned (trace w')
              = statuses_assigned (trace w) ++ [CLOSED; BUILDING]
         /\ _remote_programs_start_queue w'
              = <[mid := "build"]> (_remote_programs_start_queue w)
         /\ (is_connected (unreal_client w) = true ->
             message_queue (unreal_client w')
               = StartProcessMessage mid (build_command (config w)).1
                                         (build_command (config w)).2
                 :: message_queue (unreal_client w))
       else
         status w' = CLOSED
         /\ statuses_assigned (trace w')
              = statuses_assigned (trace w) ++ [CLOSED]
         /\ _remote_programs_start_queue w' = _remote_programs_start_queue w
         /\ unreal_client w' = unreal_client w.
Proof.
  intros Hn [x Hi]. unfold_device. unfold_m.
  exec. rewrite Hn. exec. rewrite Hi. exec.
  destruct (start_build_after_sync w) eqn:Hf.
  - exec. destruct (build_command (config w)) as [tool args]. exec.
    destruct (is_connected (unreal_client w)) eqn:Hc; exec;
      (eexists; split; [reflexivity|]); cbn;
      rewrite !statuses_assigned_app; cbn; rewrite ?app_nil_r;
      repeat split; try reflexivity; try congruence;
      rewrite <- ?List.app_assoc; reflexivity.
  - (eexists; split; [reflexivity|]); cbn.
    rewrite !statuses_assigned_app; cbn; rewrite ?app_nil_r.
    repeat split; try reflexivity; try assumption;
      rewrite <- ?List.app_assoc; reflexivity.
Qed.

(** Scenario B: [sync(1234)], a [build] call while syncing, then the sync
    ends with return code 0. *)
Lemma sync_ended_with_success_witness :
  exists w',
    on_program_ended 1%N (VInt 0) (VStr "") Lab.sync_running_build_pending
      = Ok tt w'
    /\ changelist w' = VInt 1234
    /\ inflight_changelist w' = VInt 0
    /\ start_build_after_sync w' = false
    /\ _running_remote_program_names w' = delete 1%N {[ 1%N := "sync" ]}
    /\ _running_remote_program_ids w' = delete "sync" {[ "sync" := 1%N ]}
    /\ status w' = BUILDING
    /\ statuses_assigned (trace w') = [SYNCING; CLOSED; BUILDING]
    /\ _remote_programs_start_queue w' = <[101%N := "build"]> ∅
    /\ (true = true ->
        message_queue (unreal_client w')
          = [StartProcessMessage 101 "UnrealBuildTool"
               "UE4Editor Win64 Development";
             StartProcessMessage 100 "p4" "sync"]).
Proof.
  apply (sync_ended_with_success Lab.sync_running_build_pending 1%N (VStr ""));
    vm_compute; eauto.
Defined.

(** The captured output, logged line by line. *)
Lemma log_output_lines (out : string) (w : DeviceUnreal) :
  log_output (VStr out) w =
    Ok tt (set_trace
             (trace w ++
              map (fun line =>
                     Log ERROR [Fv (VStr (name w)); Lit ": "; Fv (VStr line)])
                  (Py.splitlines out)) w).
Proof.
  unfold log_output, value_splitlines. unfold mbind, M_bind, gets, mret, M_ret.
  apply (for_each_log ERROR).
Qed.

#[local] Arguments Py.is_space : simpl never.
#[local] Arguments Py.words : simpl never.
#[local] Arguments Py.splitlines : simpl never.
#[local] Arguments Py.strip : simpl never.

(** C3.  When the program registered as "sync" ends with a return code
    other than 0 and with the text [out] as its output, [on_program_ended]
    returns normally; the device is [CLOSED], the current changelist is
    what it was, the trace gains, after the line that reports the return
    code and the [CLOSED] assignment, one error line that says the sync
    failed and one error line for each line of [out], and then the
    sync-failed signal. *)
Theorem sync_ended_with_failure (w : DeviceUnreal) (program_id : UUID)
  (returncode : value) (out : string) :
  _running_remote_program_names w !! program_id = Some "sync" ->
  is_Some (_running_remote_program_ids w !! "sync") ->
  py_eq returncode (VInt 0) = false ->
  exists w',
    on_program_ended program_id returncode (VStr out) w = Ok tt w'
    /\ status w' = CLOSED
    /\ changelist w' = changelist w
    /\ inflight_changelist w' = VInt 0
    /\ unreal_client w' = unreal_client w
    /\ trace w' =
         trace w ++
         [Log INFO [Fv (VStr (name w)); Lit ": Program with id ";
                    Fu program_id; Lit " exited with returncode ";
                    Fv returncode];
          StatusAssigned CLOSED;
          Log ERROR [Fv (VStr (name w));
                     Lit ": Project was not synced successfully!"]] ++
         map (fun line =>
                Log ERROR [Fv (VStr (name w)); Lit ": "; Fv (VStr line)])
             (Py.splitlines out) ++
         [Emit signal_device_sync_failed].
Proof.
  intros Hn [x Hi] Hrc. unfold_device. unfold_m.
  exec. rewrite Hn. exec. rewrite Hi. exec. rewrite Hrc. exec.
  rewrite log_output_lines. exec.
  eexists. split; [reflexivity|]. cbn.
  repeat split. rewrite <- !List.app_assoc. reflexivity.
Qed.

(** Scenario C: [sync(1234)], then the sync ends with return code 5 and the
    output "error: conflict". *)
Lemma sync_ended_with_failure_witness :
  exists w',
    on_program_ended 1%N (VInt 5) (VStr "error: conflict") Lab.sync_running
      = Ok tt w'
    /\ status w' = CLOSED
    /\ changelist w' = VStr "1000"
    /\ inflight_changelist w' = VInt 0
    /\ unreal_client w' = unreal_client Lab.sync_running
    /\ trace w' =
         trace Lab.sync_running ++
         [Log INFO [Fv (VStr "node1"); Lit ": Program with id "; Fu 1%N;
                    Lit " exited with returncode "; Fv (VInt 5)];
          StatusAssigned CLOSED;
          Log ERROR [Fv (VStr "node1");
                     Lit ": Project was not synced successfully!"];
          Log ERROR [Fv (VStr "node1"); Lit ": ";
                     Fv (VStr "error: conflict")];
          Emit signal_device_sync_failed].
Proof.
  apply (sync_ended_with_failure Lab.sync_running 1%N (VInt 5)
           "error: conflict"); vm_compute; eauto.
Defined.

(* ===================================================================== *)
(** * The changelist query *)
(* ===================================================================== *)

Lemma append_cons (a : ascii) (s t : string) :
  String a s +:+ t = String a (s +:+ t).
Proof. reflexivity. Qed.

Lemma append_empty_l (t : string) : "" +:+ t = t.
Proof. reflexivity. Qed.

Lemma no_space_snoc (s : string) (c : ascii) :
  no_space s = true -> Py.is_space c = false ->
  no_space (s +:+ String c "") = true.
Proof.
  intros Hs Hc. induction s as [|a s IH].
  - rewrite append_empty_l. cbn. rewrite Hc. reflexivity.
  - rewrite append_cons. cbn in *.
    apply andb_prop in Hs as [Ha Hs]. rewrite Ha. cbn. auto.
Qed.

(** The tokens of [split()] hold no white space. *)
Lemma words_go_no_space (s : string) (cur : option string) :
  (forall t, cur = Some t -> no_space t = true) ->
  Forall (fun t => no_space t = true) (Py.words_go cur s).
Proof.
  revert cur. induction s as [|a s IH]; intros cur Hcur; cbn.
  - destruct cur as [t|]; cbn; auto.
  - destruct (Py.is_space a) eqn:Ha.
    + apply Forall_app. split.
      * destruct cur as [t|]; cbn; auto.
      * apply IH. discriminate.
    + apply IH. intros t [= <-]. destruct cur as [t0|]; cbn.
      * apply no_space_snoc; auto.
      * rewrite Ha. reflexivity.
Qed.

Lemma rstrip_no_space (t : string) :
  no_space t = true -> Py.rstrip Py.is_space t = t.
Proof.
  induction t as [|c t IH]; cbn; [reflexivity|].
  intros H. apply andb_prop in H as [Hc Ht]. rewrite (IH Ht).
  apply negb_true_iff in Hc. rewrite Hc. destruct t; reflexivity.
Qed.

(** Stripping a token changes nothing. *)
Lemma strip_no_space (t : string) :
  no_space t = true -> Py.strip Py.is_space t = t.
Proof.
  intros H. unfold Py.strip.
  assert (Py.lstrip Py.is_space t = t) as ->.
  { destruct t as [|c t]; cbn; [reflexivity|].
    cbn in H. apply andb_prop in H as [Hc _].
    apply negb_true_iff in Hc. rewrite Hc. reflexivity. }
  apply rstrip_no_space, H.
Qed.

Lemma map_strip_words (out : string) :
  map (Py.strip Py.is_space) (Py.words out) = Py.words out.
Proof.
  unfold Py.words.
  assert (H := words_go_no_space out None ltac:(discriminate)).
  induction H as [|t l Ht _ IH]; cbn; [reflexivity|].
  rewrite strip_no_space by exact Ht. f_equal. exact IH.
Qed.

Lemma last_item_snoc {A : Type} (l : list A) (x : A) :
  Py.last_item (l ++ [x]) = inr x.
Proof.
  induction l as [|a l IH]; [reflexivity|].
  cbn. destruct (l ++ [x]) eqn:E; [destruct l; discriminate|exact IH].
Qed.

(** C8.  When the program registered as "cstat" ends with the text [out] as
    its output, [on_program_ended] returns normally.  If [out] splits at
    white space into at least one token, the last token becomes the
    current changelist.  If it yields no token, as the empty output does,
    the configuration error is logged and the changelist is what it was.
    The status does not change in either case. *)
Theorem changelist_query_ended (w : DeviceUnreal) (program_id : UUID)
  (returncode : value) (out : string) :
  _running_remote_program_names w !! program_id = Some "cstat" ->
  is_Some (_running_remote_program_ids w !! "cstat") ->
  (forall tokens last_token,
      Py.words out = tokens ++ [last_token] ->
      exists w',
        on_program_ended program_id returncode (VStr out) w = Ok tt w'
        /\ changelist w' = VStr last_token
        /\ status w' = status w
        /\ trace w' =
             trace w ++
             [Log INFO [Fv (VStr (name w)); Lit ": Program with id ";
                        Fu program_id; Lit " exited with returncode ";
                        Fv returncode];
              Log INFO [Fv (VStr (name w)); Lit ": Project ";
                        Fv (VStr (project_name (config w)));
                        Lit " is on revision "; Fv (VStr last_token)];
              ChangelistAssigned (VStr last_token)])
  /\ (Py.words out = [] ->
      exists w',
        on_program_ended program_id returncode (VStr out) w = Ok tt w'
        /\ changelist w' = changelist w
        /\ status w' = status w
        /\ trace w' =
             trace w ++
             [Log INFO [Fv (VStr (name w)); Lit ": Program with id ";
                        Fu program_id; Lit " exited with returncode ";
                        Fv returncode];
              Log ERROR [Fv (VStr (name w));
                Lit ": Could not retrieve changelists for project. Are the Source Control Settings correctly configured?"]])
  /\ Py.words "" = [].
Proof.
  intros Hn [x Hi]. split; [|split; [|reflexivity]].
  - intros tokens last_token Hw. unfold_device. unfold_m.
    exec. rewrite Hn. exec. rewrite Hi. exec.
    rewrite map_strip_words, Hw.
    pose proof (last_item_snoc tokens last_token) as Hl.
    destruct (tokens ++ [last_token]) as [|a l] eqn:E;
      [destruct tokens; discriminate|].
    rewrite Hl. exec.
    eexists. split; [reflexivity|]. cbn. repeat split.
    rewrite <- !List.app_assoc. reflexivity.
  - intros Hw. unfold_device. unfold_m.
    exec. rewrite Hn. exec. rewrite Hi. exec.
    rewrite Hw. exec.
    eexists. split; [reflexivity|]. cbn. repeat split.
    rewrite <- !List.app_assoc. reflexivity.
Qed.

(** Scenarios D and E: the query ends with three changelists, one per
    line, and with no output at all. *)
Lemma changelist_query_ended_witness :
  (exists w',
      on_program_ended 1%N (VInt 0) (VStr "1000
1005
1007") Lab.cstat_running = Ok tt w'
      /\ changelist w' = VStr "1007"
      /\ status w' = CONNECTED
      /\ trace w' =
           trace Lab.cstat_running ++
           [Log INFO [Fv (VStr "node1"); Lit ": Program with id "; Fu 1%N;
                      Lit " exited with returncode "; Fv (VInt 0)];
            Log INFO [Fv (VStr "node1"); Lit ": Project ";
                      Fv (VStr "Stage");
                      Lit " is on revision "; Fv (VStr "1007")];
            ChangelistAssigned (VStr "1007")])
  /\ (exists w',
      on_program_ended 1%N (VInt 0) (VStr "") Lab.cstat_running = Ok tt w'
      /\ changelist w' = VStr "1000"
      /\ status w' = CONNECTED
      /\ trace w' =
           trace Lab.cstat_running ++
           [Log INFO [Fv (VStr "node1"); Lit ": Program with id "; Fu 1%N;
                      Lit " exited with returncode "; Fv (VInt 0)];
            Log ERROR [Fv (VStr "node1");
              Lit ": Could not retrieve changelists for project. Are the Source Control Settings correctly configured?"]]).
Proof.
  split.
  - apply (proj1 (changelist_query_ended Lab.cstat_running 1%N (VInt 0)
                    "1000
1005
1007" ltac:(vm_compute; reflexivity) ltac:(vm_compute; eauto))
             ["1000"; "1005"]).
    vm_compute. reflexivity.
  - apply (proj1 (proj2 (changelist_query_ended Lab.cstat_running 1%N (VInt 0)
                    "" ltac:(vm_compute; reflexivity) ltac:(vm_compute; eauto)))).
    vm_compute. reflexivity.
Defined.

(* ===================================================================== *)
(** * [close] *)
(* ===================================================================== *)

(** C7, as the code has it.  With no program registered under "unreal",
    [close] assigns [CLOSED] and touches neither the client nor the record
    of what was enqueued.  With a program registered, [close] is exactly
    one [send_message] call with the kill command for that program and the
    status stays as it is; the command is put on the queue, once, if the
    client is connected, and otherwise nothing is put on the queue: the
    failure is logged and the client-disconnected signal is emitted. *)
Theorem close_effects (force : bool) (w : DeviceUnreal) :
  (_running_remote_program_ids w !! "unreal" = None ->
     exists w',
       close force w = Ok tt w'
       /\ status w' = CLOSED
       /\ unreal_client w' = unreal_client w
       /\ trace w' = trace w ++ [StatusAssigned CLOSED])
  /\ (forall program_id,
     _running_remote_program_ids w !! "unreal" = Some program_id ->
     close force w
       = unreal_client_send_message (KillProcessMessage program_id) w
     /\ exists w',
       close force w = Ok tt w'
       /\ status w' = status w
       /\ statuses_assigned (trace w') = statuses_assigned (trace w)
       /\ if is_connected (unreal_client w) then
            message_queue (unreal_client w')
              = KillProcessMessage program_id :: message_queue (unreal_client w)
            /\ enqueued (trace w')
                 = enqueued (trace w) ++ [KillProcessMessage program_id]
          else
            message_queue (unreal_client w') = message_queue (unreal_client w)
            /\ enqueued (trace w') = enqueued (trace w)
            /\ trace w' =
                 trace w ++
                 [Log ERROR [Lit "Message: Failed to send (";
                             Fv (value_of_str (ip_address (unreal_client w)));
                             Lit "): "; Fw (KillProcessMessage program_id);
                             Lit ". No socket connected"];
                  Emit signal_device_client_disconnected]).
Proof.
  split.
  - intros H. unfold_device. unfold_m. rewrite H. exec.
    eexists. split; [reflexivity|]. repeat split.
  - intros program_id H. unfold_device. unfold_m. rewrite H. exec.
    destruct (is_connected (unreal_client w)); exec.
    + split; [reflexivity|]. eexists. split; [reflexivity|]. cbn.
      rewrite statuses_assigned_app, enqueued_app. cbn.
      rewrite app_nil_r. repeat split.
    + split; [reflexivity|]. eexists. split; [reflexivity|]. cbn.
      rewrite !statuses_assigned_app, !enqueued_app. cbn.
      rewrite !app_nil_r. repeat split.
      rewrite <- List.app_assoc. reflexivity.
Qed.

(** [close] with nothing running, and with Unreal running as program 1 on a
    connected client. *)
Lemma close_effects_witness :
  (exists w',
      close false Lab.lab_device = Ok tt w'
      /\ status w' = CLOSED
      /\ unreal_client w' = Lab.lab_client
      /\ trace w' = [StatusAssigned CLOSED])
  /\ (exists w',
      close false (set_program_ids {[ "unreal" := 1%N ]} Lab.lab_device)
        = Ok tt w'
      /\ status w' = CONNECTED
      /\ statuses_assigned (trace w') = []
      /\ message_queue (unreal_client w') = [KillProcessMessage 1%N]
      /\ enqueued (trace w') = [KillProcessMessage 1%N]).
Proof.
  split.
  - apply (proj1 (close_effects false Lab.lab_device)). reflexivity.
  - apply (proj2 (close_effects false
                    (set_program_ids {[ "unreal" := 1%N ]} Lab.lab_device))
                 1%N). reflexivity.
Defined.

(** Unreal is registered as program 1 and the connection is lost: [close]
    puts no kill command on the queue and none is recorded as sent. *)
Lemma close_offline_sends_nothing :
  _running_remote_program_ids Lab.unreal_running_offline !! "unreal"
    = Some 1%N
  /\ exists w',
      close false Lab.unreal_running_offline = Ok tt w'
      /\ message_queue (unreal_client w') = []
      /\ enqueued (trace w') = []
      /\ transmitted (trace w') = [].
Proof. split; [reflexivity|]. eexists. repeat split. Qed.

(* ===================================================================== *)
(** * Routing a start confirmation *)
(* ===================================================================== *)

(** The dict [delegates] of a device holds no handler. *)
Lemma device_delegates_get (command : value) :
  delegates_get device_delegates command = None.
Proof.
  destruct command as [| |z|s]; try reflexivity. cbn.
  destruct (decide (s = "state")) as [->|Hs]; [reflexivity|].
  rewrite lookup_insert_ne by congruence.
  destruct (decide (s = "get sync status")) as [->|Hg]; [reflexivity|].
  rewrite lookup_singleton_ne by congruence. reflexivity.
Qed.

Lemma append_snoc_assoc (b : string) (a : ascii) (s : string) :
  (b +:+ String a "") +:+ s = b +:+ String a s.
Proof.
  induction b as [|c b IH]; [reflexivity|].
  rewrite !append_cons. f_equal. exact IH.
Qed.

Lemma append_empty_r (s : string) : s +:+ "" = s.
Proof.
  induction s as [|c s IH]; [reflexivity|]. rewrite append_cons, IH.
  reflexivity.
Qed.

(** Reading one whole frame: the body is collected, decoded, routed inside
    the [try], and the rest of the data is read with an empty buffer. *)
Lemma process_received_frame (D : Delegates) (frame rest buffer : string)
  (w : DeviceUnreal) :
  no_terminator frame = true ->
  process_received_data D buffer (frame +:+ terminator +:+ rest) w =
    (p ← gets platform;
     m ← lift (decode_message p (buffer +:+ frame));
     try_except (route_message D m) (fun e => Some (emit (routing_error e))) ;;
     process_received_data D "" rest) w.
Proof.
  revert buffer. induction frame as [|c frame IH]; intros buffer H.
  - rewrite append_empty_l, append_empty_r. reflexivity.
  - cbn in H. apply andb_prop in H as [Hc Hf].
    rewrite append_cons. cbn [process_received_data].
    apply negb_true_iff in Hc. rewrite Hc.
    rewrite (IH _ Hf), append_snoc_assoc. reflexivity.
Qed.

Section StartConfirmed.

Variables (w : DeviceUnreal) (m : gmap string value).
Variables (message_id program_id : UUID).
Variables (command started vmid vpid : value).

(** [m] is a start confirmation that carries [message_id] and
    [program_id]. *)
Hypothesis m_command : m !! "command" = Some command.
Hypothesis m_not_ack : m !! "command accepted" = None.
Hypothesis m_started : m !! "program started" = Some started.
Hypothesis m_started_true : py_eq started (VBool true) = true.
Hypothesis m_message_id : m !! "message id" = Some vmid.
Hypothesis m_program_id : m !! "program id" = Some vpid.
Hypothesis vmid_uuid : uuid_of (platform w) vmid = inr message_id.
Hypothesis vpid_uuid : uuid_of (platform w) vpid = inr program_id.

(** Of all the delegates, routing calls [program_started_delegate], with
    the two ids, and nothing else. *)
Lemma route_start_confirmed (D : Delegates) (w0 : DeviceUnreal) :
  delegates_get D command = None ->
  platform w0 = platform w ->
  route_message D m w0 =
    call (program_started_delegate D)
         (fun f => f program_id message_id) w0.
Proof.
  intros HD Hp. unfold route_message, msg_uuid, msg_get, has_key.
  unfold mbind, M_bind, gets, getitem.
  rewrite m_command. cbn. rewrite HD, m_not_ack. exec.
  rewrite m_started. exec. rewrite m_message_id. cbn.
  rewrite Hp, vmid_uuid. cbn. rewrite m_started_true, m_program_id. cbn.
  rewrite Hp, vpid_uuid. cbn. reflexivity.
Qed.

End StartConfirmed.

(** The start-confirmed handler on a recorded command id. *)
Lemma on_program_started_recorded (w : DeviceUnreal)
  (program_id message_id : UUID) (program_name : string) :
  _remote_programs_start_queue w !! message_id = Some program_name ->
  exists w1,
    on_program_started program_id message_id w = Ok tt w1
    /\ _remote_programs_start_queue w1
         = delete message_id (_remote_programs_start_queue w)
    /\ _running_remote_program_names w1
         = <[program_id := program_name]> (_running_remote_program_names w)
    /\ _running_remote_program_ids w1
         = <[program_name := program_id]> (_running_remote_program_ids w)
    /\ status w1
         = (if bool_decide (program_name = "unreal") then OPEN else status w)
    /\ trace w1 =
         trace w ++
         [Log INFO [Fv (VStr (name w)); Lit ": "; Fv (VStr program_name);
                    Lit " with id "; Fu program_id;
                    Lit " was successfully started"]] ++
         (if bool_decide (program_name = "unreal")
          then [StatusAssigned OPEN; OscMessage "OSC_ADD_SEND_TARGET"]
          else [])
    /\ platform w1 = platform w
    /\ unreal_client w1 = unreal_client w.
Proof.
  intros H. unfold_device. unfold_m. cbn. rewrite H. cbn.
  destruct (bool_decide (program_name = "unreal")); cbn;
    (eexists; split; [reflexivity|]); cbn; repeat split;
    rewrite <- ?List.app_assoc; reflexivity.
Qed.

(** The start-confirmed handler on an id that is not, or no longer, in
    the start queue. *)
Lemma on_program_started_unknown (w : DeviceUnreal)
  (program_id message_id : UUID) :
  _remote_programs_start_queue w !! message_id = None ->
  on_program_started program_id message_id w = Raise Py.KeyError w.
Proof.
  intros H. unfold_device. unfold_m. cbn. rewrite H. reflexivity.
Qed.

(** C6.  Let [message_id] be recorded in the start queue and let the frame
    decode to a start confirmation that carries it.  Reading the frame
    calls the start-confirmed handler and no other delegate; the handler
    returns normally, the entry of [message_id] is removed from the start
    queue and the running program is registered under its name.  Reading
    the same frame a second time calls the same handler, which raises
    [KeyError] on the missing entry; the loop catches it and logs it, and
    nothing else in the device changes. *)
Theorem start_confirmed_consumes_entry
  (w : DeviceUnreal) (m : gmap string value) (frame : string)
  (message_id program_id : UUID) (program_name : string)
  (command started vmid vpid : value) :
  _remote_programs_start_queue w !! message_id = Some program_name ->
  decode_message (platform w) frame = inr m ->
  no_terminator frame = true ->
  m !! "command" = Some command ->
  m !! "command accepted" = None ->
  m !! "program started" = Some started ->
  py_eq started (VBool true) = true ->
  m !! "message id" = Some vmid ->
  m !! "program id" = Some vpid ->
  uuid_of (platform w) vmid = inr message_id ->
  uuid_of (platform w) vpid = inr program_id ->
  exists w1,
    route_message device_delegates m w
      = on_program_started program_id message_id w
    /\ process_received_data device_delegates "" (frame +:+ terminator) w
         = Ok "" w1
    /\ _remote_programs_start_queue w1
         = delete message_id (_remote_programs_start_queue w)
    /\ _remote_programs_start_queue w1 !! message_id = None
    /\ _running_remote_program_names w1
         = <[program_id := program_name]> (_running_remote_program_names w)
    /\ _running_remote_program_ids w1
         = <[program_name := program_id]> (_running_remote_program_ids w)
    /\ trace w1 =
         trace w ++
         [Log INFO [Fv (VStr (name w)); Lit ": "; Fv (VStr program_name);
                    Lit " with id "; Fu program_id;
                    Lit " was successfully started"]] ++
         (if bool_decide (program_name = "unreal")
          then [StatusAssigned OPEN; OscMessage "OSC_ADD_SEND_TARGET"]
          else [])
    /\ route_message device_delegates m w1 = Raise Py.KeyError w1
    /\ process_received_data device_delegates "" (frame +:+ terminator) w1
         = Ok "" (set_trace (trace w1 ++ [routing_error Py.KeyError]) w1).
Proof.
  intros Hq Hdec Hframe Hc Hna Hs Hst Hmid Hpid Humid Hupid.
  destruct (on_program_started_recorded w program_id message_id program_name Hq)
    as (w1 & E & Hq1 & Hn1 & Hi1 & _ & Ht1 & Hp1 & _).
  assert (Hroute : forall w0, platform w0 = platform w ->
            route_message device_delegates m w0
            = on_program_started program_id message_id w0).
  { intros w0 Hp0.
    rewrite (route_start_confirmed w m message_id program_id command started
               vmid vpid Hc Hna Hs Hst Hmid Hpid Humid Hupid
               device_delegates w0 (device_delegates_get command) Hp0).
    reflexivity. }
  assert (Hgone : _remote_programs_start_queue w1 !! message_id = None).
  { rewrite Hq1. apply lookup_delete_eq. }
  exists w1. repeat split; try assumption.
  - apply Hroute. reflexivity.
  - change (frame +:+ terminator) with (frame +:+ terminator +:+ "").
    rewrite process_received_frame by assumption.
    unfold mbind, M_bind, gets, lift, try_except. cbn.
    rewrite append_empty_l, Hdec. cbn. rewrite Hroute by reflexivity. rewrite E. reflexivity.
  - rewrite Hroute by assumption.
    apply on_program_started_unknown, Hgone.
  - change (frame +:+ terminator) with (frame +:+ terminator +:+ "").
    rewrite process_received_frame by assumption.
    unfold mbind, M_bind, gets, lift, try_except. cbn.
    rewrite append_empty_l, Hp1, Hdec. cbn. rewrite Hroute by assumption.
    rewrite (on_program_started_unknown _ _ _ Hgone). reflexivity.
Qed.

(** A sync command was sent with message id 100; the listener confirms the
    start of program 1 for it, twice. *)
Lemma start_confirmed_consumes_entry_witness :
  let w := world_of (sync (VInt 1234) Lab.lab_device) in
  exists w1,
    route_message device_delegates
      {[ "command" := VStr "start"; "program started" := VBool true;
         "message id" := VStr "id-100"; "program id" := VStr "id-1" ]} w
      = on_program_started 1%N 100%N w
    /\ process_received_data device_delegates "" ("started" +:+ terminator) w
         = Ok "" w1
    /\ _remote_programs_start_queue w1
         = delete 100%N (_remote_programs_start_queue w)
    /\ _remote_programs_start_queue w1 !! 100%N = None
    /\ _running_remote_program_names w1 = <[1%N := "sync"]> ∅
    /\ _running_remote_program_ids w1 = <["sync" := 1%N]> ∅
    /\ trace w1 =
         trace w ++
         [Log INFO [Fv (VStr "node1"); Lit ": "; Fv (VStr "sync");
                    Lit " with id "; Fu 1%N;
                    Lit " was successfully started"]] ++ []
    /\ route_message device_delegates
         {[ "command" := VStr "start"; "program started" := VBool true;
            "message id" := VStr "id-100"; "program id" := VStr "id-1" ]} w1
       = Raise Py.KeyError w1
    /\ process_received_data device_delegates "" ("started" +:+ terminator) w1
         = Ok "" (set_trace (trace w1 ++ [routing_error Py.KeyError]) w1).
Proof.
  intros w.
  apply (start_confirmed_consumes_entry w _ "started" 100%N 1%N "sync"
           (VStr "start") (VBool true) (VStr "id-100") (VStr "id-1"));
    vm_compute; reflexivity.
Defined.

(* ===================================================================== *)
(** * The tag file parser *)
(* ===================================================================== *)


Section TagFileProofs.

Import TagFile TagFileSpec.

Variables (a0 : ascii) (sep0 : string).
Let sep := String a0 sep0.

Lemma split_go_skip (k : nat) (s : string) :
  Py.split_go sep k s = Py.split_go sep 0 (string_drop k s).
Proof.
  revert k. induction s as [|c s IH]; intros [|k]; try reflexivity.
  cbn [Py.split_go string_drop]. apply IH.
Qed.

(** [split] cuts at the first occurrence and goes on behind it. *)
Lemma split_cut (s : string) :
  Py.split s sep =
    match cut s sep with
    | Some (p, r) => p :: Py.split r sep
    | None => [s]
    end.
Proof.
  unfold Py.split. induction s as [|c s IH]; [reflexivity|].
  cbn [Py.split_go cut].
  destruct (Py.startswith (String c s) sep) eqn:E.
  - rewrite split_go_skip. reflexivity.
  - rewrite IH. destruct (cut s sep) as [[p r]|]; reflexivity.
Qed.

Lemma contains_cut (s : string) :
  Py.contains s sep = match cut s sep with Some _ => true | None => false end.
Proof.
  induction s as [|c s IH]; [reflexivity|].
  cbn [Py.contains cut].
  destruct (Py.startswith (String c s) sep); [reflexivity|].
  cbn. rewrite IH. destruct (cut s sep) as [[p r]|]; reflexivity.
Qed.

End TagFileProofs.

Section TagFileTheorems.

Import TagFile TagFileSpec.

Lemma split1_head (s : string) (c : ascii) :
  exists tl, Py.split1 s c = before_char s c :: tl.
Proof.
  induction s as [|a s [tl IH]]; cbn; [eauto|].
  destruct (Ascii.eqb a c); [eauto|]. rewrite IH. eauto.
Qed.

(** One line: the code yields [tag_field], and raises [IndexError] where
    that is undefined. *)
Lemma tag_of_line_field (line : string) :
  tag_of_line line =
    match tag_field line with
    | Some t => inr t
    | None => inl Py.IndexError
    end.
Proof.
  unfold tag_of_line, tag_field, after_first, before_first, tag_marker.
  rewrite split_cut.
  destruct (cut line "Tag=") as [[p r]|]; [|reflexivity].
  rewrite split_cut. unfold Py.index.
  destruct (cut r "Tag=") as [[p' r']|]; cbn;
    match goal with
    | |- context [Py.split1 ?t comma] =>
        destruct (split1_head t comma) as [tl ->]
    end; reflexivity.
Qed.

Lemma tag_field_defined (line : string) :
  Py.contains line tag_marker = true -> is_Some (tag_field line).
Proof.
  unfold tag_field, after_first, tag_marker. rewrite contains_cut.
  destruct (cut line "Tag=") as [[p r]|]; [eauto|discriminate].
Qed.

Lemma tag_field_undefined (line : string) :
  Py.contains line tag_marker = false -> tag_field line = None.
Proof.
  unfold tag_field, after_first, tag_marker. rewrite contains_cut.
  destruct (cut line "Tag=") as [[p r]|]; [discriminate|reflexivity].
Qed.

Lemma parse_loop_total (content : list string) (acc : list string) :
  (forall line, In line content -> is_tag_line line = true ->
                Py.contains line tag_marker = true) ->
  exists tags,
    parse_loop acc content = inr (acc ++ tags)
    /\ map Some tags = map tag_field (List.filter is_tag_line content).
Proof.
  revert acc. induction content as [|line rest IH]; intros acc H.
  - exists []. rewrite app_nil_r. split; reflexivity.
  - cbn [parse_loop List.filter]. fold (is_tag_line line).
    destruct (is_tag_line line) eqn:E.
    + destruct (tag_field_defined line) as [t Ht];
        [apply H; [left; reflexivity| exact E]|].
      rewrite tag_of_line_field, Ht.
      destruct (IH (acc ++ [t])) as (tags & Hp & Hm);
        [intros l Hl; apply H; right; exact Hl|].
      exists (t :: tags). rewrite Hp, <- List.app_assoc. split; [reflexivity|].
      cbn. rewrite Ht, Hm. reflexivity.
    + apply IH. intros l Hl. apply H. right. exact Hl.
Qed.

Lemma parse_loop_raises (content : list string) (acc : list string) :
  (exists line, In line content /\ is_tag_line line = true
                /\ Py.contains line tag_marker = false) ->
  parse_loop acc content = inl Py.IndexError.
Proof.
  revert acc. induction content as [|line rest IH]; intros acc (l & Hin & Hl & Hc).
  - destruct Hin.
  - cbn [parse_loop]. fold (is_tag_line line).
    destruct (is_tag_line line) eqn:E.
    + rewrite tag_of_line_field.
      destruct (tag_field line) as [t|] eqn:Ht; [|reflexivity].
      apply IH. destruct Hin as [->|Hin]; [|eauto].
      rewrite (tag_field_undefined l Hc) in Ht. discriminate.
    + apply IH. destruct Hin as [->|Hin]; [congruence|eauto].
Qed.

(** C10, as the code has it.  A file with a line that starts with
    "GameplayTagList" and holds no "Tag=" makes the parser raise
    [IndexError]; there is such a file.  On a file whose
    "GameplayTagList" lines all hold "Tag=" the parser returns, in the
    order of the lines, one tag for each of them: the text after the first
    "Tag=" up to the next "Tag=", the next comma or the end of the line,
    whichever comes first, without the double quotes at its two ends. *)
Theorem parse_unreal_tag_file_spec :
  parse_unreal_tag_file ["GameplayTagList=+(DevComment=none)"]
    = inl Py.IndexError
  /\ (forall content,
        (exists line, In line content /\ is_tag_line line = true
                      /\ Py.contains line tag_marker = false) ->
        parse_unreal_tag_file content = inl Py.IndexError)
  /\ (forall content,
        (forall line, In line content -> is_tag_line line = true ->
                      Py.contains line tag_marker = true) ->
        exists tags,
          parse_unreal_tag_file content = inr tags
          /\ map Some tags
             = map tag_field (List.filter is_tag_line content)).
Proof.
  split; [reflexivity|]. split.
  - intros content H. apply parse_loop_raises, H.
  - intros content H.
    destruct (parse_loop_total content [] H) as (tags & Hp & Hm).
    exists tags. split; assumption.
Qed.

End TagFileTheorems.

(** A roles file with two tag lines, and a file with a tag line that
    lacks the marker. *)
Lemma parse_unreal_tag_file_spec_witness :
  TagFile.parse_unreal_tag_file
    ["[/Script/GameplayTags.GameplayTagsList]"; "GameplayTagList=+(Other=1)"]
    = inl Py.IndexError
  /\ exists tags,
      TagFile.parse_unreal_tag_file
        ["[/Script/GameplayTags.GameplayTagsList]";
         "GameplayTagList=+(Tag=" +:+ String Py.dquote "VPRole.Camera"
           +:+ String Py.dquote ",DevComment=none)";
         "GameplayTagList=+(Tag=VPRole.Render)"] = inr tags
      /\ map Some tags = [Some "VPRole.Camera"; Some "VPRole.Render)"].
Proof.
  split.
  - apply (proj1 (proj2 parse_unreal_tag_file_spec)).
    exists "GameplayTagList=+(Other=1)". vm_compute. auto.
  - apply (proj2 (proj2 parse_unreal_tag_file_spec)).
    intros line [<-|[<-|[<-|[]]]]; vm_compute; congruence.
Defined.

(** Every "GameplayTagList" line of this one-line file holds "Tag=", and
    the parser does not return the text between "Tag=" and the next comma
    with the quotes stripped: it stops at the second "Tag=". *)
Lemma parse_stops_at_second_marker :
  Py.contains TagFileSpec.nested_marker_line "Tag=" = true
  /\ TagFileSpec.tag_between TagFileSpec.nested_marker_line
       = Some "Stage.Tag=Main"
  /\ TagFile.parse_unreal_tag_file [TagFileSpec.nested_marker_line]
       = inr ["Stage."].
Proof. vm_compute. repeat split. Qed.

(* ===================================================================== *)
(** * The order of transmission *)
(* ===================================================================== *)

Section EnqueueOnly.

Lemma queue_grows_refl (w : DeviceUnreal) : queue_grows w w.
Proof. exists []. cbn. rewrite app_nil_r. auto. Qed.

Lemma queue_grows_trans (w1 w2 w3 : DeviceUnreal) :
  queue_grows w1 w2 -> queue_grows w2 w3 -> queue_grows w1 w3.
Proof.
  intros (n1 & Hq1 & He1 & Ht1) (n2 & Hq2 & He2 & Ht2).
  exists (n2 ++ n1). rewrite Hq2, Hq1, He2, He1, Ht2, Ht1.
  rewrite rev_app_distr, <- !List.app_assoc. auto.
Qed.

Lemma enqueue_only_ret {A : Type} (a : A) : enqueue_only (mret a).
Proof. intros w. apply queue_grows_refl. Qed.

Lemma enqueue_only_raise {A : Type} (e : Py.exn) :
  enqueue_only (raise e : M A).
Proof. intros w. apply queue_grows_refl. Qed.

Lemma enqueue_only_gets {A : Type} (f : DeviceUnreal -> A) :
  enqueue_only (gets f).
Proof. intros w. apply queue_grows_refl. Qed.

Lemma enqueue_only_lift {A : Type} (r : Py.exn + A) :
  enqueue_only (lift r).
Proof. intros w. destruct r; apply queue_grows_refl. Qed.

Lemma enqueue_only_bind {A B : Type} (m : M A) (f : A -> M B) :
  enqueue_only m -> (forall a, enqueue_only (f a)) ->
  enqueue_only (m ≫= f).
Proof.
  intros Hm Hf w. unfold mbind, M_bind. specialize (Hm w).
  destruct (m w) as [a w1|e w1]; cbn in *; [|exact Hm].
  eapply queue_grows_trans; [exact Hm|apply Hf].
Qed.

Lemma enqueue_only_modify (f : DeviceUnreal -> DeviceUnreal) :
  (forall w, message_queue (unreal_client (f w))
             = message_queue (unreal_client w)
             /\ trace (f w) = trace w) ->
  enqueue_only (modify f).
Proof.
  intros H w. destruct (H w) as [Hq Ht]. exists []. cbn.
  rewrite Hq, Ht, app_nil_r. auto.
Qed.

Lemma enqueue_only_emit (e : event) :
  enqueued_of e = [] -> transmitted_of e = [] -> enqueue_only (emit e).
Proof.
  intros He Ht w. exists []. cbn.
  rewrite enqueued_snoc, transmitted_snoc, He, Ht, !app_nil_r.
  auto.
Qed.

Lemma enqueue_only_try_except {A : Type} (body : M A)
  (handler : Py.exn -> option (M A)) :
  enqueue_only body ->
  (forall e h, handler e = Some h -> enqueue_only h) ->
  enqueue_only (try_except body handler).
Proof.
  intros Hb Hh w. unfold try_except. specialize (Hb w).
  destruct (body w) as [a w1|e w1]; cbn in *; [exact Hb|].
  destruct (handler e) as [h|] eqn:E; [|exact Hb].
  eapply queue_grows_trans; [exact Hb|apply (Hh e h E)].
Qed.

Lemma enqueue_only_for_each {A : Type} (l : list A) (body : A -> M unit) :
  (forall x, enqueue_only (body x)) -> enqueue_only (for_each l body).
Proof.
  intros H. induction l as [|x l IH]; cbn [for_each].
  - apply enqueue_only_ret.
  - apply enqueue_only_bind; [apply H|intros _; exact IH].
Qed.

Lemma enqueue_only_call {F : Type} (d : option F) (k : F -> M unit) :
  (forall f, d = Some f -> enqueue_only (k f)) -> enqueue_only (call d k).
Proof.
  intros H. destruct d as [f|]; cbn; [apply H; reflexivity|].
  apply enqueue_only_ret.
Qed.

(** [send_message] puts its message on the left end of the queue and
    records it, or calls the disconnect delegate. *)
Lemma enqueue_only_send_message
  (d : option (bool -> option Py.exn -> M unit)) (msg : wire) :
  (forall f, d = Some f -> forall u e, enqueue_only (f u e)) ->
  enqueue_only (send_message d msg).
Proof.
  intros Hd w. unfold send_message. unfold_m.
  destruct (is_connected (unreal_client w)).
  - exists [msg]. cbn. rewrite enqueued_snoc, transmitted_snoc. cbn.
    rewrite app_nil_r. auto.
  - cbn. destruct d as [f|].
    + eapply queue_grows_trans; [|apply (Hd f eq_refl)].
      exists []. cbn. rewrite enqueued_snoc, transmitted_snoc. cbn.
      rewrite !app_nil_r. auto.
    + exists []. cbn. rewrite enqueued_snoc, transmitted_snoc. cbn.
      rewrite !app_nil_r. auto.
Qed.

End EnqueueOnly.

(** One step of the proof that a composed computation only enqueues. *)
Ltac eo_step :=
  lazymatch goal with
  | |- enqueue_only (mbind _ _) => apply enqueue_only_bind; [|intros ?]
  | |- enqueue_only (mret _) => apply enqueue_only_ret
  | |- enqueue_only (raise _) => apply enqueue_only_raise
  | |- enqueue_only (gets _) => apply enqueue_only_gets
  | |- enqueue_only (lift _) => apply enqueue_only_lift
  | |- enqueue_only (modify _) =>
      apply enqueue_only_modify; intros ?; split; reflexivity
  | |- enqueue_only (emit _) => apply enqueue_only_emit; reflexivity
  | |- enqueue_only (log _ _) => apply enqueue_only_emit; reflexivity
  | |- enqueue_only (try_except _ _) =>
      apply enqueue_only_try_except; [|intros [] ? ?; simplify_eq/=]
  | |- enqueue_only (for_each _ _) =>
      apply enqueue_only_for_each; intros ?
  | |- enqueue_only (call _ _) => apply enqueue_only_call; intros ? ?
  | |- enqueue_only (if ?b then _ else _) => destruct b
  | |- enqueue_only (match ?x with _ => _ end) => destruct x
  end.

Section DeviceEnqueueOnly.

Lemma enqueue_only_on_listener_disconnect (u : bool) (e : option Py.exn) :
  enqueue_only (on_listener_disconnect u e).
Proof. unfold on_listener_disconnect. repeat eo_step. Qed.

Lemma enqueue_only_unreal_client_send_message (msg : wire) :
  enqueue_only (unreal_client_send_message msg).
Proof.
  apply enqueue_only_send_message. intros f [= <-] u e.
  apply enqueue_only_on_listener_disconnect.
Qed.

Lemma enqueue_only_assign_status (s : DeviceStatus) :
  enqueue_only (assign_status s).
Proof. unfold assign_status. repeat eo_step. Qed.

Lemma enqueue_only_assign_changelist (v : value) :
  enqueue_only (assign_changelist v).
Proof. unfold assign_changelist. repeat eo_step. Qed.

Lemma enqueue_only_build : enqueue_only build.
Proof.
  unfold build, create_start_process_message. repeat eo_step.
  - apply enqueue_only_unreal_client_send_message.
  - apply enqueue_only_assign_status.
Qed.

Lemma enqueue_only_on_program_started (p i : UUID) :
  enqueue_only (on_program_started p i).
Proof.
  unfold on_program_started, pop_start_queue, getitem. repeat eo_step.
  all: apply enqueue_only_assign_status.
Qed.

Lemma enqueue_only_on_program_start_failed (e : value) (i : UUID) :
  enqueue_only (on_program_start_failed e i).
Proof.
  unfold on_program_start_failed, pop_start_queue, getitem.
  repeat eo_step;
    first [apply enqueue_only_assign_status
          |apply enqueue_only_assign_changelist].
Qed.

Lemma enqueue_only_log_output (output : value) :
  enqueue_only (log_output output).
Proof. unfold log_output, value_splitlines. repeat eo_step. Qed.

Lemma enqueue_only_on_program_ended (p : UUID) (r o : value) :
  enqueue_only (on_program_ended p r o).
Proof.
  unfold on_program_ended, pop_program_names, pop_program_ids, getitem,
         value_split.
  repeat eo_step;
    first [apply enqueue_only_assign_status
          |apply enqueue_only_assign_changelist
          |apply enqueue_only_log_output
          |apply enqueue_only_build].
Qed.

Lemma enqueue_only_on_program_kill_failed (p : UUID) (e : value) :
  enqueue_only (on_program_kill_failed p e).
Proof.
  unfold on_program_kill_failed, uuid_pop, getitem. repeat eo_step.
  apply enqueue_only_assign_status.
Qed.

Lemma enqueue_only_on_file_received (s c : value) :
  enqueue_only (on_file_received s c).
Proof. unfold on_file_received. repeat eo_step. Qed.

Lemma enqueue_only_on_file_receive_failed (s e : value) :
  enqueue_only (on_file_receive_failed s e).
Proof. unfold on_file_receive_failed. repeat eo_step. Qed.

(** The delegates of a device only enqueue. *)
Lemma device_delegates_enqueue_only :
  delegates_enqueue_only device_delegates.
Proof.
  split; cbn; try discriminate.
  - intros f [= <-]. apply enqueue_only_on_listener_disconnect.
  - intros f [= <-]. apply enqueue_only_on_program_started.
  - intros f [= <-]. apply enqueue_only_on_program_start_failed.
  - intros f [= <-]. apply enqueue_only_on_program_ended.
  - intros f [= <-]. apply enqueue_only_on_program_kill_failed.
  - intros f [= <-]. apply enqueue_only_on_file_received.
  - intros f [= <-]. apply enqueue_only_on_file_receive_failed.
  - intros command f H. rewrite device_delegates_get in H. discriminate.
Qed.

End DeviceEnqueueOnly.

Section Fifo.

Variable D : Delegates.
Hypothesis HD : delegates_enqueue_only D.

Lemma enqueue_only_route_message (m : gmap string value) :
  enqueue_only (route_message D m).
Proof.
  unfold route_message, msg_uuid, msg_get, getitem.
  apply enqueue_only_bind; [repeat eo_step|intros command].
  destruct (delegates_get D command) as [f|] eqn:E.
  { apply (eo_delegates D HD command f E). }
  repeat eo_step;
    match goal with
    | H : _ = Some _ |- _ =>
        first [ eapply (eo_command_accepted D HD) in H; apply H
              | eapply (eo_command_declined D HD) in H; apply H
              | eapply (eo_program_started D HD) in H; apply H
              | eapply (eo_program_start_failed D HD) in H; apply H
              | eapply (eo_program_ended D HD) in H; apply H
              | eapply (eo_program_killed D HD) in H; apply H
              | eapply (eo_program_kill_failed D HD) in H; apply H
              | eapply (eo_vcs_init_completed D HD) in H; apply H
              | eapply (eo_vcs_init_failed D HD) in H; apply H
              | eapply (eo_vcs_report_revision_completed D HD) in H; apply H
              | eapply (eo_vcs_report_revision_failed D HD) in H; apply H
              | eapply (eo_vcs_sync_completed D HD) in H; apply H
              | eapply (eo_vcs_sync_failed D HD) in H; apply H
              | eapply (eo_send_file_completed D HD) in H; apply H
              | eapply (eo_send_file_failed D HD) in H; apply H
              | eapply (eo_receive_file_completed D HD) in H; apply H
              | eapply (eo_receive_file_failed D HD) in H; apply H ]
    end.
Qed.

Lemma enqueue_only_process_received_data (data buffer : string) :
  enqueue_only (process_received_data D buffer data).
Proof.
  revert buffer. induction data as [|symbol rest IH]; intros buffer;
    cbn [process_received_data].
  - apply enqueue_only_ret.
  - destruct (is_terminator symbol); [|apply IH].
    repeat eo_step; first [apply enqueue_only_route_message | apply IH].
Qed.

Lemma enqueue_only_receive (env : IterEnv) (readable : bool)
  (buffer : string) :
  enqueue_only (receive D env readable buffer).
Proof.
  unfold receive. repeat eo_step.
  apply enqueue_only_process_received_data.
Qed.

Lemma enqueue_only_keep_alive (env : IterEnv) :
  enqueue_only (keep_alive D env).
Proof.
  unfold keep_alive. repeat eo_step.
  apply enqueue_only_send_message. apply (eo_disconnect D HD).
Qed.

Lemma enqueue_only_close_if_requested :
  enqueue_only (close_if_requested D).
Proof.
  unfold close_if_requested. repeat eo_step.
  match goal with H : _ = Some _ |- _ => apply (eo_disconnect D HD _ H) end.
Qed.

End Fifo.

Lemma deque_pop_Some (q rest : list wire) (m : wire) :
  deque_pop q = Some (rest, m) -> q = rest ++ [m].
Proof.
  unfold deque_pop. destruct (last q) as [x|] eqn:E; [|discriminate].
  intros [= <- <-]. apply last_Some in E as [l' ->].
  rewrite removelast_last. reflexivity.
Qed.

Lemma deque_pop_snoc (q : list wire) (m : wire) :
  deque_pop (q ++ [m]) = Some (q, m).
Proof. unfold deque_pop. rewrite last_snoc, removelast_last. reflexivity. Qed.

Section Keeps.

Context {A B : Type} (P : DeviceUnreal -> Prop).

Lemma keeps_bind (m : M A) (f : A -> M B) :
  keeps P m -> (forall a, keeps P (f a)) -> keeps P (m ≫= f).
Proof.
  intros Hm Hf w HP. unfold mbind, M_bind. specialize (Hm w HP).
  destruct (m w) as [a w1|e w1]; cbn in *; [apply Hf|]; assumption.
Qed.

Lemma keeps_try_except (body : M A) (handler : Py.exn -> option (M A)) :
  keeps P body ->
  (forall e h, handler e = Some h -> keeps P h) ->
  keeps P (try_except body handler).
Proof.
  intros Hb Hh w HP. unfold try_except. specialize (Hb w HP).
  destruct (body w) as [a w1|e w1]; cbn in *; [assumption|].
  destruct (handler e) as [h|] eqn:E; [|assumption].
  apply (Hh e h E), Hb.
Qed.

End Keeps.

Lemma fifo_inv_grows (w w' : DeviceUnreal) :
  queue_grows w w' -> fifo_inv w -> fifo_inv w'.
Proof.
  intros (new & Hq & He & Ht) (popped & Hp & Hs). exists popped.
  rewrite He, Hp, Hq, Ht, rev_app_distr, <- List.app_assoc. auto.
Qed.

Lemma fifo_exact_grows (w w' : DeviceUnreal) :
  queue_grows w w' -> fifo_exact w -> fifo_exact w'.
Proof.
  intros (new & Hq & He & Ht) Hp. unfold fifo_exact in *.
  rewrite He, Hp, Hq, Ht, rev_app_distr, <- List.app_assoc. reflexivity.
Qed.

Lemma enqueue_only_keeps_inv {A : Type} (m : M A) :
  enqueue_only m -> keeps fifo_inv m.
Proof. intros H w. apply fifo_inv_grows, H. Qed.

Lemma enqueue_only_keeps_exact {A : Type} (m : M A) :
  enqueue_only m -> keeps fifo_exact m.
Proof. intros H w. apply fifo_exact_grows, H. Qed.

(** Taking a message off the right end and writing it, or losing it,
    keeps the order. *)
Lemma transmit_one_keeps_inv (env : IterEnv) (writable : bool) :
  keeps fifo_inv (transmit_one env writable).
Proof.
  intros w (popped & Hp & Hs). unfold transmit_one. unfold_m.
  destruct (deque_pop (message_queue (unreal_client w)))
    as [[rest m]|] eqn:E; [|exists popped; auto].
  apply deque_pop_Some in E. rewrite E, rev_app_distr in Hp. cbn in Hp.
  destruct writable; [destruct (send_result env)|]; cbn;
    exists (popped ++ [m]); cbn;
    rewrite ?enqueued_snoc, ?transmitted_snoc, <- List.app_assoc; cbn;
    rewrite ?app_nil_r; (split; [exact Hp|]).
  - apply sublist_inserts_r, Hs.
  - apply sublist_app; [exact Hs|reflexivity].
  - apply sublist_inserts_r, Hs.
Qed.

(** On a writable socket that takes the write, nothing is lost. *)
Lemma transmit_one_keeps_exact (env : IterEnv) :
  send_result env = None -> keeps fifo_exact (transmit_one env true).
Proof.
  intros Hsend w Hp. unfold fifo_exact in *. unfold transmit_one. unfold_m.
  destruct (deque_pop (message_queue (unreal_client w)))
    as [[rest m]|] eqn:E; [|exact Hp].
  apply deque_pop_Some in E. rewrite E, rev_app_distr in Hp. cbn in Hp.
  rewrite Hsend. cbn. rewrite enqueued_snoc, transmitted_snoc. cbn.
  rewrite app_nil_r, <- List.app_assoc. exact Hp.
Qed.

Section FifoRun.

Variable D : Delegates.
Hypothesis HD : delegates_enqueue_only D.

(** The part of a pass that follows the transmission. *)
Lemma enqueue_only_after_transmit (env : IterEnv) (readable : bool)
  (buffer : string) :
  enqueue_only
    (buffer' ← receive D env readable buffer;
     keep_alive D env ;;
     exit ← close_if_requested D;
     mret (exit, buffer')).
Proof.
  repeat eo_step.
  - apply enqueue_only_receive, HD.
  - apply enqueue_only_keep_alive, HD.
  - apply enqueue_only_close_if_requested, HD.
Qed.

(** The two [except] clauses only enqueue. *)
Lemma enqueue_only_handlers (env : IterEnv) (buffer : string) (e : Py.exn)
  (h : M (loop_exit * string)) :
  match e with
  | Py.ConnectionResetError => Some (
      match shutdown_after_reset env return M unit with
      | Some e' => raise e'
      | None => emit SocketShutdown
      end ;;
      emit SocketClosed ;;
      modify (upd_client (set_socket None)) ;;
      call (disconnect_delegate D) (fun f => f true (Some e)) ;;
      mret (Return, buffer))
  | Py.OSError => Some (
      modify (upd_client (set_socket None)) ;;
      call (disconnect_delegate D) (fun f => f true (Some e)) ;;
      mret (Return, buffer))
  | _ => None
  end = Some h ->
  enqueue_only h.
Proof.
  destruct e; intros [= <-]; repeat eo_step;
    match goal with
    | H : _ = Some _ |- _ => apply (eo_disconnect D HD _ H)
    end.
Qed.

Lemma loop_body_keeps_inv (env : IterEnv) (buffer : string) :
  keeps fifo_inv (loop_body D env buffer).
Proof.
  unfold loop_body. apply keeps_try_except.
  - unfold loop_try. apply keeps_bind.
    + apply enqueue_only_keeps_inv, enqueue_only_lift.
    + intros [readable writable]. apply keeps_bind.
      * apply transmit_one_keeps_inv.
      * intros _. apply enqueue_only_keeps_inv, enqueue_only_after_transmit.
  - intros e h H. apply enqueue_only_keeps_inv.
    apply (enqueue_only_handlers env buffer e h H).
Qed.

Lemma loop_body_keeps_exact (env : IterEnv) (buffer : string) :
  reliable (WorkerPass env) ->
  keeps fifo_exact (loop_body D env buffer).
Proof.
  intros [Hsend Hsel]. unfold loop_body. apply keeps_try_except.
  - unfold loop_try. destruct (select_result env) as [e|[readable writable]].
    + intros w Hw. exact Hw.
    + subst writable. intros w Hw. unfold lift.
      change (fifo_exact
                (world_of
                   ((transmit_one env true ;;
                     buffer' ← receive D env readable buffer;
                     keep_alive D env ;;
                     exit ← close_if_requested D;
                     mret (exit, buffer')) w))).
      revert w Hw. apply keeps_bind.
      * apply transmit_one_keeps_exact, Hsend.
      * intros _. apply enqueue_only_keeps_exact, enqueue_only_after_transmit.
  - intros e h H. apply enqueue_only_keeps_exact.
    apply (enqueue_only_handlers env buffer e h H).
Qed.

End FifoRun.

Section FifoSchedule.

Variable D : Delegates.
Hypothesis HD : delegates_enqueue_only D.

Lemma step_world (P : DeviceUnreal -> Prop) (a : action)
  (w : DeviceUnreal) (worker : option string) :
  (forall m, keeps P (send_message (disconnect_delegate D) m)) ->
  (forall env buffer, a = WorkerPass env ->
                      keeps P (loop_body D env buffer)) ->
  P w -> P (step D a (w, worker)).1.
Proof.
  intros Hsend Hloop HP. destruct a as [m|env]; cbn.
  - apply Hsend, HP.
  - destruct worker as [buffer|]; [|exact HP].
    destruct (is_connected (unreal_client w)); [|exact HP].
    specialize (Hloop env buffer eq_refl w HP).
    destruct (loop_body D env buffer w) as [[[] b] w'|e w']; exact Hloop.
Qed.

Lemma send_message_enqueue_only (m : wire) :
  enqueue_only (send_message (disconnect_delegate D) m).
Proof. apply enqueue_only_send_message, (eo_disconnect D HD). Qed.

Lemma run_fifo_inv (acts : list action) (st : DeviceUnreal * option string) :
  fifo_inv st.1 -> fifo_inv (run D acts st).1.
Proof.
  revert st. induction acts as [|a acts IH]; intros [w worker] H; [exact H|].
  cbn [run fold_left]. apply IH. apply step_world; [| |exact H].
  - intros m. apply enqueue_only_keeps_inv, send_message_enqueue_only.
  - intros env buffer _. apply loop_body_keeps_inv, HD.
Qed.

Lemma run_fifo_exact (acts : list action)
  (st : DeviceUnreal * option string) :
  Forall reliable acts -> fifo_exact st.1 -> fifo_exact (run D acts st).1.
Proof.
  revert st. induction acts as [|a acts IH]; intros [w worker] Hr H;
    [exact H|].
  apply Forall_cons in Hr as [Ha Hr].
  cbn [run fold_left]. apply (IH _ Hr). apply step_world; [| |exact H].
  - intros m. apply enqueue_only_keeps_exact, send_message_enqueue_only.
  - intros env buffer ->. apply loop_body_keeps_exact; assumption.
Qed.

End FifoSchedule.

(** What holds of the order.  Take any interleaving of [send_message]
    calls by the owner and passes of the loop in [handle_connection], with
    delegates that do nothing to the queue but send.  A [send_message] call
    on a connected client puts its message on the left end of the queue and
    records it as enqueued.  Throughout the run, what was enqueued is what
    the loop has taken off the queue followed by what is still on it,
    oldest first, and what was written to the socket is, in the same
    order, among the messages taken off.  If moreover the socket is
    writable and takes the write in every pass, no message is lost: the
    messages written are exactly the first ones enqueued. *)
Theorem fifo_order (D : Delegates) (acts : list action) (w : DeviceUnreal)
  (worker : option string) :
  delegates_enqueue_only D ->
  let w' := (run D acts (w, worker)).1 in
  (forall msg w0,
      is_connected (unreal_client w0) = true ->
      exists w1,
        send_message (disconnect_delegate D) msg w0 = Ok tt w1
        /\ message_queue (unreal_client w1)
             = msg :: message_queue (unreal_client w0)
        /\ enqueued (trace w1) = enqueued (trace w0) ++ [msg])
  /\ (fifo_inv w -> fifo_inv w')
  /\ (Forall reliable acts -> fifo_exact w -> fifo_exact w').
Proof.
  intros HD w'. subst w'. split; [|split].
  - intros msg w0 Hc. unfold send_message. unfold_m. rewrite Hc. cbn.
    eexists. split; [reflexivity|]. cbn. rewrite enqueued_snoc. auto.
  - apply (run_fifo_inv D HD acts (w, worker)).
  - apply (run_fifo_exact D HD acts (w, worker)).
Qed.

(** Three messages are sent while the loop makes two passes: the first two
    are written, in the order of the calls, and the third waits. *)
Lemma fifo_order_witness :
  let w' := (run device_delegates Lab.schedule (Lab.lab_device, Some "")).1 in
  enqueued (trace w')
    = [KillProcessMessage 1; KillProcessMessage 2; KillProcessMessage 3]
  /\ transmitted (trace w') = [KillProcessMessage 1; KillProcessMessage 2]
  /\ message_queue (unreal_client w') = [KillProcessMessage 3]
  /\ fifo_inv w'
  /\ fifo_exact w'.
Proof.
  destruct (fifo_order device_delegates Lab.schedule Lab.lab_device (Some "")
              device_delegates_enqueue_only) as (_ & Hinv & Hexact).
  split; [vm_compute; reflexivity|].
  split; [vm_compute; reflexivity|].
  split; [vm_compute; reflexivity|].
  split.
  - apply Hinv. exists []. split; [reflexivity|constructor].
  - apply Hexact; [|reflexivity].
    repeat constructor.
Defined.

Section FifoSkips.

Variable D : Delegates.
Hypothesis HD : delegates_enqueue_only D.
Variables (lost : wire) (before : list wire).

Lemma fifo_skips_grows (w w' : DeviceUnreal) :
  queue_grows w w' -> fifo_skips lost before w -> fifo_skips lost before w'.
Proof.
  intros (new & Hq & He & Ht) (after & T & E). exists after.
  rewrite Ht, He, E, Hq, rev_app_distr. split; [exact T|].
  rewrite <- List.app_assoc. cbn [app]. rewrite <- List.app_assoc.
  reflexivity.
Qed.

Lemma enqueue_only_keeps_skips {A : Type} (m : M A) :
  enqueue_only m -> keeps (fifo_skips lost before) m.
Proof. intros H w. apply fifo_skips_grows, H. Qed.

Lemma transmit_one_keeps_skips (env : IterEnv) :
  send_result env = None ->
  keeps (fifo_skips lost before) (transmit_one env true).
Proof.
  intros Hsend w (after & T & E). unfold transmit_one. unfold_m.
  destruct (deque_pop (message_queue (unreal_client w)))
    as [[rest m]|] eqn:Ep; [|exists after; auto].
  apply deque_pop_Some in Ep. rewrite Ep, rev_app_distr in E. cbn in E.
  rewrite Hsend. cbn. exists (after ++ [m]). cbn.
  rewrite transmitted_snoc, enqueued_snoc, T, E. cbn.
  rewrite !app_nil_r, <- !List.app_assoc. split; reflexivity.
Qed.

Lemma loop_body_keeps_skips (env : IterEnv) (buffer : string) :
  reliable (WorkerPass env) ->
  keeps (fifo_skips lost before) (loop_body D env buffer).
Proof.
  intros [Hsend Hsel]. unfold loop_body. apply keeps_try_except.
  - unfold loop_try. destruct (select_result env) as [e|[readable writable]].
    + intros w Hw. exact Hw.
    + subst writable. intros w Hw. unfold lift.
      change (fifo_skips lost before
                (world_of
                   ((transmit_one env true ;;
                     buffer' ← receive D env readable buffer;
                     keep_alive D env ;;
                     exit ← close_if_requested D;
                     mret (exit, buffer')) w))).
      revert w Hw. apply keeps_bind.
      * apply transmit_one_keeps_skips, Hsend.
      * intros _. apply enqueue_only_keeps_skips.
        apply (enqueue_only_after_transmit D HD).
  - intros e h H. apply enqueue_only_keeps_skips.
    apply (enqueue_only_handlers D HD env buffer e h H).
Qed.

Lemma run_keeps_skips (acts : list action)
  (st : DeviceUnreal * option string) :
  Forall reliable acts ->
  fifo_skips lost before st.1 -> fifo_skips lost before (run D acts st).1.
Proof.
  revert st. induction acts as [|a acts IH]; intros [w worker] Hr H;
    [exact H|].
  apply Forall_cons in Hr as [Ha Hr].
  cbn [run fold_left]. apply (IH _ Hr). apply step_world; [| |exact H].
  - intros m. apply enqueue_only_keeps_skips.
    apply (send_message_enqueue_only D HD).
  - intros env buffer ->. apply loop_body_keeps_skips; assumption.
Qed.

End FifoSkips.

(** A [try] whose body goes on as another body does from another state. *)
Lemma try_except_from {A : Type} (body body' : M A)
  (handler : Py.exn -> option (M A)) (w w1 : DeviceUnreal) :
  body w = body' w1 ->
  try_except body handler w = try_except body' handler w1.
Proof. unfold try_except. intros ->. reflexivity. Qed.

(** The pass that takes a message off the queue and finds the socket not
    writable. *)
Lemma unwritable_pass_skips (D : Delegates) (env : IterEnv)
  (buffer : string) (readable : bool) (q : list wire) (m : wire)
  (w : DeviceUnreal) :
  delegates_enqueue_only D ->
  fifo_exact w ->
  message_queue (unreal_client w) = q ++ [m] ->
  select_result env = inr (readable, false) ->
  fifo_skips m (transmitted (trace w)) (world_of (loop_body D env buffer w)).
Proof.
  intros HD Hex Hq Hsel.
  set (w1 := upd_client (set_message_queue q) w).
  assert (H1 : fifo_skips m (transmitted (trace w)) w1).
  { exists []. unfold fifo_exact in Hex.
    rewrite Hq, rev_app_distr in Hex. cbn in Hex.
    subst w1. cbn. rewrite app_nil_r. split; [reflexivity|exact Hex]. }
  assert (Ht : transmit_one env false w = Ok tt w1).
  { unfold transmit_one. unfold_m. rewrite Hq, deque_pop_snoc. reflexivity. }
  assert (E : loop_try D env buffer w
              = (buffer' ← receive D env readable buffer;
                 keep_alive D env ;;
                 exit ← close_if_requested D;
                 mret (exit, buffer')) w1).
  { unfold loop_try. unfold_m. rewrite Hsel. cbv beta iota. rewrite Ht.
    reflexivity. }
  unfold loop_body. rewrite (try_except_from _ _ _ _ _ E).
  revert H1. generalize w1. apply keeps_try_except.
  - apply enqueue_only_keeps_skips, (enqueue_only_after_transmit D HD).
  - intros e h H. apply enqueue_only_keeps_skips.
    apply (enqueue_only_handlers D HD env buffer e h H).
Qed.

(** C4.  The messages given to [send_message] on a connected client are
    not all transmitted.  The loop takes the oldest message off the queue
    before it looks whether the socket can be written; in a pass in which
    it cannot, that message is written nowhere and is not put back.
    Whatever was enqueued and written before, and however the run goes on
    with sends and with passes that find the socket writable, the messages
    written to the socket from then on are the messages enqueued, in their
    order, without that one: the listener never receives it. *)
Theorem fifo_broken_by_unwritable_pass (D : Delegates) (env : IterEnv)
  (acts : list action) (buffer : string) (readable : bool)
  (q : list wire) (m : wire) (w : DeviceUnreal) :
  delegates_enqueue_only D ->
  fifo_exact w ->
  is_connected (unreal_client w) = true ->
  message_queue (unreal_client w) = q ++ [m] ->
  select_result env = inr (readable, false) ->
  Forall reliable acts ->
  fifo_skips m (transmitted (trace w))
    (run D (WorkerPass env :: acts) (w, Some buffer)).1.
Proof.
  intros HD Hex Hc Hq Hsel Hr.
  change (run D (WorkerPass env :: acts) (w, Some buffer))
    with (run D acts (step D (WorkerPass env) (w, Some buffer))).
  apply (run_keeps_skips D HD); [exact Hr|].
  pose proof (unwritable_pass_skips D env buffer readable q m w
                HD Hex Hq Hsel) as H.
  cbn [step]. rewrite Hc.
  destruct (loop_body D env buffer w) as [[[] b] w'|e w']; exact H.
Qed.

(** Two kill commands are sent; the first pass finds the socket blocked;
    a third command is sent between two passes that find it writable.
    The listener receives the second and the third command. *)
Lemma fifo_broken_by_unwritable_pass_witness :
  let w := world_of ((unreal_client_send_message (KillProcessMessage 1) ;;
                      unreal_client_send_message (KillProcessMessage 2))
                       Lab.lab_device) in
  let acts := [WorkerPass Lab.writable_pass; OwnerSend (KillProcessMessage 3);
               WorkerPass Lab.writable_pass] in
  let w' := (run device_delegates (WorkerPass Lab.blocked_pass :: acts)
               (w, Some "")).1 in
  fifo_skips (KillProcessMessage 1) [] w'
  /\ enqueued (trace w')
     = [KillProcessMessage 1; KillProcessMessage 2; KillProcessMessage 3]
  /\ transmitted (trace w') = [KillProcessMessage 2; KillProcessMessage 3]
  /\ message_queue (unreal_client w') = [].
Proof.
  intros w acts w'. split; [|vm_compute; repeat split].
  apply (fifo_broken_by_unwritable_pass device_delegates Lab.blocked_pass
           acts "" false [KillProcessMessage 2] (KillProcessMessage 1) w
           device_delegates_enqueue_only).
  - reflexivity.
  - reflexivity.
  - reflexivity.
  - reflexivity.
  - repeat constructor.
Defined.

(** When the socket cannot be written in a pass, the message taken off the
    queue in that pass is not transmitted; the ones that are transmitted
    still come in the order of the calls. *)
Example blocked_pass_loses_message :
  let acts := [OwnerSend (KillProcessMessage 1);
               OwnerSend (KillProcessMessage 2);
               WorkerPass Lab.blocked_pass; WorkerPass Lab.writable_pass] in
  let w' := (run device_delegates acts (Lab.lab_device, Some "")).1 in
  enqueued (trace w') = [KillProcessMessage 1; KillProcessMessage 2]
  /\ transmitted (trace w') = [KillProcessMessage 2]
  /\ message_queue (unreal_client w') = [].
Proof. vm_compute. repeat split. Qed.

(* ===================================================================== *)
(** * The schedule and the loop *)
(* ===================================================================== *)

Lemma run_worker_ended (D : Delegates) (envs : list IterEnv)
  (w : DeviceUnreal) :
  run D (map WorkerPass envs) (w, None) = (w, None).
Proof. induction envs as [|env envs IH]; [reflexivity|exact IH]. Qed.

(** A run that consists of worker passes only is [handle_connection]. *)
Lemma run_worker_passes (D : Delegates) (envs : list IterEnv)
  (buffer : string) (w : DeviceUnreal) :
  (run D (map WorkerPass envs) (w, Some buffer)).1
    = world_of (handle_connection_from D envs buffer w).
Proof.
  revert buffer w. induction envs as [|env envs IH]; intros buffer w;
    [reflexivity|].
  change (run D (map WorkerPass (env :: envs)) (w, Some buffer))
    with (run D (map WorkerPass envs)
            (step D (WorkerPass env) (w, Some buffer))).
  cbn [step handle_connection_from]. unfold mbind, M_bind, gets.
  destruct (is_connected (unreal_client w)).
  - destruct (loop_body D env buffer w) as [[[] b] w'|e w']; cbv beta iota;
      first [apply IH | rewrite run_worker_ended; reflexivity].
  - rewrite run_worker_ended. reflexivity.
Qed.

(* ===================================================================== *)
(** * The built-ins on examples *)
(* ===================================================================== *)

Example split_examples :
  Py.split "aTag=bTag=c" "Tag=" = ["a"; "b"; "c"]
  /\ Py.split "abc" "Tag=" = ["abc"]
  /\ Py.split "Tag=" "Tag=" = [""; ""]
  /\ Py.split "aaa" "aa" = [""; "a"]
  /\ Py.split1 "a,b,c" ","%char = ["a"; "b,c"]
  /\ Py.split1 "abc" ","%char = ["abc"].
Proof. vm_compute. repeat split. Qed.

Example strip_examples :
  Py.strip Py.is_quote
    (String Py.dquote (String Py.dquote "a" +:+ String Py.dquote "b"
       +:+ String Py.dquote "")) = "a" +:+ String Py.dquote "b"
  /\ Py.strip Py.is_space "  1007 " = "1007".
Proof. vm_compute. repeat split. Qed.

Example words_examples :
  Py.words "1000
1005
1007" = ["1000"; "1005"; "1007"]
  /\ Py.words "   " = []
  /\ Py.words "" = [].
Proof. vm_compute. repeat split. Qed.

Example splitlines_examples :
  Py.splitlines "error: conflict" = ["error: conflict"]
  /\ Py.splitlines "" = []
  /\ Py.splitlines ("a" +:+ String "013" (String "010" "b")
                    +:+ String "010" (String "010" "c"))
     = ["a"; "b"; ""; "c"].
Proof. vm_compute. repeat split. Qed.

(* ===================================================================== *)
(** * [on_program_ended] by its branches *)
(* ===================================================================== *)

Lemma on_program_ended_branches (program_id : UUID)
  (returncode output : value) :
  on_program_ended program_id returncode output =
    (nm ← gets name;
     log INFO [Fv (VStr nm); Lit ": Program with id "; Fu program_id;
               Lit " exited with returncode "; Fv returncode] ;;
     program_name ← pop_program_names program_id;
     pop_program_ids program_name ;;
     ended_branch nm program_name returncode output).
Proof. reflexivity. Qed.

(* ===================================================================== *)
(** * More on [connect] *)
(* ===================================================================== *)

(** X1.  Whatever the outcome, [connect] leaves the outbound queue, the
    port and the buffer size of the client as they are, and changes nothing
    in the device but the client and the trace: messages that were queued
    before a reconnect are still queued after it. *)
Theorem connect_frame (env : ConnectEnv) (ip_address_arg : option string)
  (w : DeviceUnreal) :
  let w' := world_of (connect env ip_address_arg w) in
  message_queue (unreal_client w') = message_queue (unreal_client w)
  /\ port (unreal_client w') = port (unreal_client w)
  /\ buffer_size (unreal_client w') = buffer_size (unreal_client w)
  /\ status w' = status w
  /\ changelist w' = changelist w
  /\ _remote_programs_start_queue w' = _remote_programs_start_queue w
  /\ _running_remote_program_names w' = _running_remote_program_names w
  /\ _running_remote_program_ids w' = _running_remote_program_ids w.
Proof.
  unfold connect, connect_attempt. unfold_m.
  destruct (truthy ip_address_arg),
           (truthy (ip_address (unreal_client w))),
           (os_socket_ok env), (os_connect_ok env),
           (is_OSError (connect_error env));
    cbn; repeat split.
Qed.

Lemma server_address_known (c : ListenerClient) :
  truthy (ip_address c) = true -> is_Some (server_address c).
Proof.
  unfold truthy, server_address.
  destruct (ip_address c) as [[|a s]|]; try discriminate. eauto.
Qed.

#[local] Arguments server_address : simpl never.
#[local] Arguments is_connected : simpl never.

(** The client after a successful attempt. *)
Lemma connect_attempt_success_state (env : ConnectEnv) (w : DeviceUnreal) :
  os_socket_ok env && os_connect_ok env = true ->
  exists w1,
    connect_attempt env w = Ok true w1
    /\ unreal_client w1 =
         set_handle_connection_thread (Some WorkerThread)
           (set_socket (Some (mkSocket (server_address (unreal_client w))))
              (set_last_activity (connect_now env)
                 (set_close_socket false (unreal_client w)))).
Proof.
  intros H. apply andb_prop in H as [Hs Hc].
  unfold connect_attempt. unfold_m. rewrite Hs, Hc. cbn.
  eexists. split; reflexivity.
Qed.

(** X2.  After a [connect] call that succeeds, [is_connected] is true, the
    close flag is clear, and a [send_message] call puts its message on the
    queue, in front of whatever was queued before the call to [connect]. *)
Theorem connect_then_send (env : ConnectEnv) (ip_address_arg : option string)
  (d : option (bool -> option Py.exn -> M unit)) (msg : wire)
  (w : DeviceUnreal) :
  truthy ip_address_arg || truthy (ip_address (unreal_client w)) = true ->
  os_socket_ok env && os_connect_ok env = true ->
  exists w1 w2,
    connect env ip_address_arg w = Ok true w1
    /\ is_connected (unreal_client w1) = true
    /\ close_socket (unreal_client w1) = false
    /\ last_activity (unreal_client w1) = connect_now env
    /\ send_message d msg w1 = Ok tt w2
    /\ message_queue (unreal_client w2)
         = msg :: message_queue (unreal_client w)
    /\ is_connected (unreal_client w2) = true.
Proof.
  intros Hk Hos. rewrite connect_with_address by assumption.
  set (w0 := if truthy ip_address_arg then _ else w).
  assert (Hq : message_queue (unreal_client w0)
               = message_queue (unreal_client w)).
  { subst w0. destruct (truthy ip_address_arg); reflexivity. }
  assert (Hip : truthy (ip_address (unreal_client w0)) = true).
  { subst w0. destruct (truthy ip_address_arg) eqn:E; [exact E|exact Hk]. }
  destruct (connect_attempt_success_state env w0 Hos) as (w1 & E1 & Hc1).
  destruct (server_address_known _ Hip) as [a Ha].
  assert (Hconn : is_connected (unreal_client w1) = true).
  { rewrite Hc1. unfold is_connected. cbn. rewrite Ha. reflexivity. }
  exists w1. eexists. split; [exact E1|]. split; [exact Hconn|].
  split; [rewrite Hc1; reflexivity|]. split; [rewrite Hc1; reflexivity|].
  unfold send_message. unfold_m. rewrite Hconn. cbn.
  split; [reflexivity|]. cbn. rewrite Hc1. cbn. rewrite Hq.
  split; [reflexivity|]. unfold is_connected. cbn. rewrite Ha. reflexivity.
Qed.

Lemma connect_then_send_witness :
  exists w1 w2,
    connect Lab.accepted (Some "10.0.0.9") Lab.disconnected_no_address
      = Ok true w1
    /\ is_connected (unreal_client w1) = true
    /\ close_socket (unreal_client w1) = false
    /\ last_activity (unreal_client w1) = 99
    /\ send_message None KeepAliveMessage w1 = Ok tt w2
    /\ message_queue (unreal_client w2) = [KeepAliveMessage]
    /\ is_connected (unreal_client w2) = true.
Proof.
  apply (connect_then_send Lab.accepted (Some "10.0.0.9") None
           KeepAliveMessage Lab.disconnected_no_address); reflexivity.
Defined.

(* ===================================================================== *)
(** * What a computation leaves alone *)
(* ===================================================================== *)

Section Respects.

Context (R : DeviceUnreal -> DeviceUnreal -> Prop) `{!Tolerant R}.

Lemma respects_ret {A : Type} (a : A) : respects R (mret a).
Proof. intros w. apply tolerant_refl. Qed.

Lemma respects_raise {A : Type} (e : Py.exn) : respects R (raise e : M A).
Proof. intros w. apply tolerant_refl. Qed.

Lemma respects_gets {A : Type} (f : DeviceUnreal -> A) : respects R (gets f).
Proof. intros w. apply tolerant_refl. Qed.

Lemma respects_lift {A : Type} (r : Py.exn + A) : respects R (lift r).
Proof. intros w. destruct r; apply tolerant_refl. Qed.

Lemma respects_bind {A B : Type} (m : M A) (f : A -> M B) :
  respects R m -> (forall a, respects R (f a)) -> respects R (m ≫= f).
Proof.
  intros Hm Hf w. unfold mbind, M_bind. specialize (Hm w).
  destruct (m w) as [a w1|e w1]; cbn in *; [|exact Hm].
  eapply tolerant_trans; [exact Hm|apply Hf].
Qed.

Lemma respects_modify (f : DeviceUnreal -> DeviceUnreal) :
  (forall w, R w (f w)) -> respects R (modify f).
Proof. intros H w. apply H. Qed.

Lemma respects_emit (e : event) : respects R (emit e).
Proof. intros w. apply tolerant_trace. Qed.

Lemma respects_try_except {A : Type} (body : M A)
  (handler : Py.exn -> option (M A)) :
  respects R body ->
  (forall e h, handler e = Some h -> respects R h) ->
  respects R (try_except body handler).
Proof.
  intros Hb Hh w. unfold try_except. specialize (Hb w).
  destruct (body w) as [a w1|e w1]; cbn in *; [exact Hb|].
  destruct (handler e) as [h|] eqn:E; [|exact Hb].
  eapply tolerant_trans; [exact Hb|apply (Hh e h E)].
Qed.

Lemma respects_for_each {A : Type} (l : list A) (body : A -> M unit) :
  (forall x, respects R (body x)) -> respects R (for_each l body).
Proof.
  intros H. induction l as [|x l IH]; cbn [for_each].
  - apply respects_ret.
  - apply respects_bind; [apply H|intros _; exact IH].
Qed.

Lemma respects_send_message
  (d : option (bool -> option Py.exn -> M unit)) (msg : wire) :
  (forall f, d = Some f -> forall u e, respects R (f u e)) ->
  respects R (send_message d msg).
Proof.
  intros Hd. unfold send_message.
  apply respects_bind; [apply respects_gets|intros c].
  destruct (is_connected c).
  - apply respects_bind; [apply respects_emit|intros _].
    apply respects_modify. intros w.
    apply (tolerant_queue w (msg :: message_queue (unreal_client w))).
  - apply respects_bind; [apply respects_emit|intros _].
    destruct d as [f|]; [apply (Hd f eq_refl)|apply respects_ret].
Qed.

End Respects.

#[global] Instance connection_untouched_tolerant :
  Tolerant connection_untouched.
Proof.
  split.
  - intros w. repeat split.
  - intros w1 w2 w3 (H1 & H2 & H3 & H4) (K1 & K2 & K3 & K4).
    repeat split; congruence.
  - intros w t. repeat split.
  - intros w q. repeat split.
Qed.

#[global] Instance tables_untouched_tolerant : Tolerant tables_untouched.
Proof.
  split.
  - intros w. split; reflexivity.
  - intros w1 w2 w3 [H1 H2] [K1 K2]. split; congruence.
  - intros w t. split; reflexivity.
  - intros w q. split; reflexivity.
Qed.

(** One step of the proof that a composed computation respects a
    relation; an assignment to a field is checked by computation. *)
Ltac rs_step :=
  lazymatch goal with
  | |- respects ?R (mbind _ _) => apply (respects_bind R); [|intros ?]
  | |- respects ?R (mret _) => apply (respects_ret R)
  | |- respects ?R (raise _) => apply (respects_raise R)
  | |- respects ?R (gets _) => apply (respects_gets R)
  | |- respects ?R (lift _) => apply (respects_lift R)
  | |- respects ?R (modify _) =>
      apply (respects_modify R); intros ?; repeat split
  | |- respects ?R (emit _) => apply (respects_emit R)
  | |- respects ?R (log _ _) => apply (respects_emit R)
  | |- respects ?R (try_except _ _) =>
      apply (respects_try_except R); [|intros [] ? ?; simplify_eq/=]
  | |- respects ?R (for_each _ _) => apply (respects_for_each R); intros ?
  | |- respects ?R (send_message _ _) =>
      apply (respects_send_message R); intros ? ? ? ?; simplify_eq/=
  | |- respects _ (on_listener_disconnect _ _) =>
      unfold on_listener_disconnect
  | |- respects _ (if ?b then _ else _) => destruct b
  | |- respects _ (match ?x with _ => _ end) => destruct x
  end.

(** The definitions of the device that are made of such steps. *)
Ltac unfold_handlers :=
  unfold on_program_started, on_program_start_failed, on_program_ended,
         on_program_kill_failed, on_file_received, on_file_receive_failed,
         on_listener_disconnect, ended_branch, build, sync, launch, close,
         generate_unreal_command_line_args,
         _request_roles_file, _request_current_changelist_number,
         create_start_process_message, unreal_client_send_message,
         pop_start_queue, pop_program_names, pop_program_ids, getitem,
         log_output, value_splitlines, value_split, uuid_pop,
         assign_status, assign_changelist.

Section DeviceLeavesConnection.

Lemma connection_on_listener_disconnect (u : bool) (e : option Py.exn) :
  respects connection_untouched (on_listener_disconnect u e).
Proof. unfold_handlers. repeat rs_step. Qed.

Lemma connection_on_program_started (p i : UUID) :
  respects connection_untouched (on_program_started p i).
Proof. unfold_handlers. repeat rs_step. Qed.

Lemma connection_on_program_start_failed (e : value) (i : UUID) :
  respects connection_untouched (on_program_start_failed e i).
Proof. unfold_handlers. repeat rs_step. Qed.

Lemma connection_on_program_ended (p : UUID) (r o : value) :
  respects connection_untouched (on_program_ended p r o).
Proof. unfold_handlers. repeat rs_step. Qed.

Lemma connection_on_program_kill_failed (p : UUID) (e : value) :
  respects connection_untouched (on_program_kill_failed p e).
Proof. unfold_handlers. repeat rs_step. Qed.

Lemma connection_on_file_received (s c : value) :
  respects connection_untouched (on_file_received s c).
Proof. unfold_handlers. repeat rs_step. Qed.

Lemma connection_on_file_receive_failed (s e : value) :
  respects connection_untouched (on_file_receive_failed s e).
Proof. unfold_handlers. repeat rs_step. Qed.

End DeviceLeavesConnection.

Lemma connection_handlers : handlers_respect connection_untouched.
Proof.
  split.
  - apply connection_on_listener_disconnect.
  - apply connection_on_program_started.
  - apply connection_on_program_start_failed.
  - apply connection_on_program_ended.
  - apply connection_on_program_kill_failed.
  - apply connection_on_file_received.
  - apply connection_on_file_receive_failed.
Qed.

Section DeviceRouting.

Context (R : DeviceUnreal -> DeviceUnreal -> Prop) `{!Tolerant R}.
Hypothesis HR : handlers_respect R.

Lemma respects_route_message_device (m : gmap string value) :
  respects R (route_message device_delegates m).
Proof.
  unfold route_message, msg_uuid, msg_get, getitem.
  apply (respects_bind R); [repeat rs_step|intros command].
  rewrite device_delegates_get.
  repeat first
    [ rs_step
    | progress cbn [call device_delegates
        command_accepted_delegate command_declined_delegate
        program_started_delegate program_start_failed_delegate
        program_ended_delegate program_killed_delegate
        program_kill_failed_delegate vcs_init_completed_delegate
        vcs_init_failed_delegate vcs_report_revision_completed_delegate
        vcs_report_revision_failed_delegate vcs_sync_completed_delegate
        vcs_sync_failed_delegate send_file_completed_delegate
        send_file_failed_delegate receive_file_completed_delegate
        receive_file_failed_delegate]
    | apply (hr_started R HR)
    | apply (hr_start_failed R HR)
    | apply (hr_ended R HR)
    | apply (hr_kill_failed R HR)
    | apply (hr_file_received R HR)
    | apply (hr_file_receive_failed R HR) ].
Qed.

Lemma respects_process_received_data_device (data buffer : string) :
  respects R (process_received_data device_delegates buffer data).
Proof.
  revert buffer. induction data as [|symbol rest IH]; intros buffer;
    cbn [process_received_data].
  - apply (respects_ret R).
  - destruct (is_terminator symbol); [|apply IH].
    repeat first [rs_step | apply respects_route_message_device | apply IH].
Qed.

End DeviceRouting.

(** X3.  Whatever an event handler of the device does, and whether it
    returns or raises, it leaves the connection as it is but for the
    outbound queue: address, port, buffer size, socket, close flag, thread
    handle and activity time of the client are unchanged, and so are the
    platform, the configuration and the name of the device.  The same holds
    for routing one message to these handlers and for processing any
    received data with them. *)
Theorem device_handlers_leave_connection (w : DeviceUnreal) :
  (forall p i, connection_untouched w (world_of (on_program_started p i w)))
  /\ (forall e i,
        connection_untouched w (world_of (on_program_start_failed e i w)))
  /\ (forall p r o,
        connection_untouched w (world_of (on_program_ended p r o w)))
  /\ (forall p e,
        connection_untouched w (world_of (on_program_kill_failed p e w)))
  /\ (forall s c, connection_untouched w (world_of (on_file_received s c w)))
  /\ (forall s e,
        connection_untouched w (world_of (on_file_receive_failed s e w)))
  /\ (forall u e,
        connection_untouched w (world_of (on_listener_disconnect u e w)))
  /\ (forall m,
        connection_untouched w
          (world_of (route_message device_delegates m w)))
  /\ (forall buffer data,
        connection_untouched w
          (world_of (process_received_data device_delegates buffer data w))).
Proof.
  split; [intros; apply connection_on_program_started|].
  split; [intros; apply connection_on_program_start_failed|].
  split; [intros; apply connection_on_program_ended|].
  split; [intros; apply connection_on_program_kill_failed|].
  split; [intros; apply connection_on_file_received|].
  split; [intros; apply connection_on_file_receive_failed|].
  split; [intros; apply connection_on_listener_disconnect|].
  split; intros.
  - apply (respects_route_message_device connection_untouched
             connection_handlers).
  - apply (respects_process_received_data_device connection_untouched
             connection_handlers).
Qed.

(* ===================================================================== *)
(** * Messages that reach no handler *)
(* ===================================================================== *)

Lemma has_key_None (m : gmap string value) (k : string) :
  m !! k = None -> has_key m k = false.
Proof. intros H. unfold has_key. rewrite H. reflexivity. Qed.

Lemma has_key_Some (m : gmap string value) (k : string) (v : value) :
  m !! k = Some v -> has_key m k = true.
Proof. intros H. unfold has_key. rewrite H. reflexivity. Qed.

(** X4.  A message without a "command" entry makes [route_message] raise
    [KeyError]; a message whose command has no entry in the dict of
    delegates and that holds none of the nine keys that tell the kinds
    apart makes it raise [ValueError].  In both cases no delegate is called
    and the state is what it was. *)
Theorem route_message_unroutable (D : Delegates) (m : gmap string value)
  (w : DeviceUnreal) :
  (m !! "command" = None -> route_message D m w = Raise Py.KeyError w)
  /\ (forall command,
        m !! "command" = Some command ->
        delegates_get D command = None ->
        Forall (fun k => m !! k = None) kind_keys ->
        route_message D m w = Raise Py.ValueError w).
Proof.
  split.
  - intros H. unfold route_message, msg_get. unfold_m. rewrite H.
    reflexivity.
  - intros command Hc HD Hk. unfold kind_keys in Hk.
    repeat match goal with
           | H : Forall _ (_ :: _) |- _ => apply Forall_cons in H as [? H]
           end.
    unfold route_message, msg_get. unfold_m. rewrite Hc. cbn. rewrite HD.
    rewrite !has_key_None by assumption. reflexivity.
Qed.

Lemma route_message_unroutable_witness :
  route_message device_delegates ∅ Lab.lab_device
    = Raise Py.KeyError Lab.lab_device
  /\ route_message device_delegates {[ "command" := VStr "state" ]}
       Lab.lab_device
     = Raise Py.ValueError Lab.lab_device.
Proof.
  split.
  - apply (proj1 (route_message_unroutable device_delegates ∅ Lab.lab_device)).
    reflexivity.
  - apply (proj2 (route_message_unroutable device_delegates
                    {[ "command" := VStr "state" ]} Lab.lab_device)
                 (VStr "state")).
    + reflexivity.
    + reflexivity.
    + repeat constructor.
Defined.

(** X5.  A device registers no delegate for the acknowledgement of a
    command nor for the confirmation of a kill.  Routing a message that
    says a command was accepted or declined, or that a program was killed,
    returns normally and changes nothing: after [close] the device stays as
    it is until the program-ended event arrives. *)
Theorem device_ignores_acknowledgements (m : gmap string value)
  (w : DeviceUnreal) (command : value) :
  m !! "command" = Some command ->
  (forall accepted vid (message_id : UUID),
      m !! "command accepted" = Some accepted ->
      m !! "id" = Some vid ->
      uuid_of (platform w) vid = inr message_id ->
      route_message device_delegates m w = Ok tt w)
  /\ (forall killed vpid (program_id : UUID),
      m !! "command accepted" = None ->
      m !! "program started" = None ->
      m !! "program ended" = None ->
      m !! "program killed" = Some killed ->
      py_eq killed (VBool true) = true ->
      m !! "program id" = Some vpid ->
      uuid_of (platform w) vpid = inr program_id ->
      route_message device_delegates m w = Ok tt w).
Proof.
  intros Hc. split.
  - intros accepted vid message_id Ha Hid Hu.
    unfold route_message, msg_uuid, msg_get. unfold_m.
    rewrite Hc. cbn. rewrite device_delegates_get.
    rewrite (has_key_Some _ _ _ Ha), Hid. cbn. rewrite Hu. cbn.
    rewrite Ha. cbn. destruct (py_eq accepted (VBool true)); reflexivity.
  - intros killed vpid program_id Hna Hns Hne Hk Hkt Hid Hu.
    unfold route_message, msg_uuid, msg_get. unfold_m.
    rewrite Hc. cbn. rewrite device_delegates_get.
    rewrite !has_key_None by assumption.
    rewrite (has_key_Some _ _ _ Hk), Hid. cbn. rewrite Hu. cbn.
    rewrite Hk. cbn. rewrite Hkt. reflexivity.
Qed.

Lemma device_ignores_acknowledgements_witness :
  route_message device_delegates
    {[ "command" := VStr "start"; "command accepted" := VBool false;
       "id" := VStr "id-100"; "error" := VStr "busy" ]}
    Lab.unreal_running_offline
    = Ok tt Lab.unreal_running_offline
  /\ route_message device_delegates
       {[ "command" := VStr "kill"; "program killed" := VBool true;
          "program id" := VStr "id-1" ]}
       Lab.unreal_running_offline
     = Ok tt Lab.unreal_running_offline.
Proof.
  split.
  - refine (proj1 (device_ignores_acknowledgements _ _ (VStr "start") _)
                  (VBool false) (VStr "id-100") 100%N _ _ _);
      reflexivity.
  - refine (proj2 (device_ignores_acknowledgements _ _ (VStr "kill") _)
                  (VBool true) (VStr "id-1") 1%N _ _ _ _ _ _ _);
      reflexivity.
Defined.

(* ===================================================================== *)
(** * Received data: routing errors are caught, decoding errors are not *)
(* ===================================================================== *)

Lemma caught_route_returns (m : gmap string value) (w : DeviceUnreal) :
  exists w1,
    try_except (route_message device_delegates m)
      (fun e => Some (log ERROR [Lit "Error while parsing message: ";
                                 Ftraceback e])) w = Ok tt w1
    /\ connection_untouched w w1.
Proof.
  pose proof (respects_route_message_device connection_untouched
                connection_handlers m w) as Hr.
  unfold try_except.
  destruct (route_message device_delegates m w) as [[] w1|e w1]; cbn in *.
  - exists w1. split; [reflexivity|exact Hr].
  - eexists. split; [reflexivity|].
    eapply tolerant_trans; [exact Hr|apply tolerant_trace].
Qed.

(** X6.  When every frame completed by the received data can be decoded,
    [process_received_data] with the handlers of a device returns: whatever
    a handler raises is caught and logged.  The buffer then holds the text
    after the last terminator, and the connection is as before but for the
    outbound queue. *)
Theorem process_received_data_returns (data buffer : string)
  (w : DeviceUnreal) :
  Forall (decodable w) (frames buffer data) ->
  exists w',
    process_received_data device_delegates buffer data w
      = Ok (pending buffer data) w'
    /\ connection_untouched w w'.
Proof.
  revert buffer w. induction data as [|symbol rest IH]; intros buffer w H.
  - exists w. split; [reflexivity|apply tolerant_refl].
  - cbn [process_received_data frames pending] in *.
    destruct (is_terminator symbol).
    + apply Forall_cons in H as [[m Hm] H].
      destruct (caught_route_returns m w) as (w1 & E1 & C1).
      destruct (IH "" w1) as (w' & E' & C').
      { unfold decodable in *. destruct C1 as (_ & -> & _). exact H. }
      exists w'. split.
      * unfold mbind, M_bind, gets, lift. rewrite Hm. cbn.
        unfold mbind, M_bind in E1 |- *. rewrite E1. exact E'.
      * eapply tolerant_trans; eassumption.
    + apply IH, H.
Qed.

(** The frame of a start confirmation is read twice; the second routing
    raises in the handler. *)
Lemma process_received_data_returns_witness :
  let w := world_of (sync (VInt 1234) Lab.lab_device) in
  exists w',
    process_received_data device_delegates ""
      ("started" +:+ terminator +:+ "started" +:+ terminator +:+ "sta") w
      = Ok "sta" w'
    /\ connection_untouched w w'.
Proof.
  intros w.
  apply (process_received_data_returns
           ("started" +:+ terminator +:+ "started" +:+ terminator +:+ "sta")
           "" w).
  repeat constructor; eexists; reflexivity.
Defined.

Lemma transmit_one_returns (env : IterEnv) (writable : bool)
  (w : DeviceUnreal) :
  send_result env = None ->
  transmit_one env writable w = Ok tt (world_of (transmit_one env writable w))
  /\ platform (world_of (transmit_one env writable w)) = platform w
  /\ socket (unreal_client (world_of (transmit_one env writable w)))
     = socket (unreal_client w).
Proof.
  intros Hs. unfold transmit_one. unfold_m. rewrite Hs.
  destruct (deque_pop (message_queue (unreal_client w))) as [[rest m]|];
    [destruct writable|]; cbn; repeat split.
Qed.

Lemma is_connected_socket (c c' : ListenerClient) :
  socket c' = socket c -> is_connected c' = is_connected c.
Proof. unfold is_connected. intros ->. reflexivity. Qed.

(** X7.  Decoding a frame happens outside the [try] of
    [process_received_data], and the loop of [handle_connection] catches
    nothing but [OSError].  So when the first frame completed by the data
    just read cannot be decoded, the exception leaves the loop: the worker
    ends in the state left by the transmission step of that pass, no
    delegate is called, the socket is not closed, and the client still says
    it is connected. *)
Theorem undecodable_frame_ends_worker (D : Delegates) (env : IterEnv)
  (w : DeviceUnreal) (buffer frame rest : string) (writable : bool)
  (e : Py.exn) :
  is_connected (unreal_client w) = true ->
  select_result env = inr (true, writable) ->
  send_result env = None ->
  recv_result env = inr (frame +:+ terminator +:+ rest) ->
  no_terminator frame = true ->
  decode_message (platform w) (buffer +:+ frame) = inl e ->
  e <> Py.OSError ->
  e <> Py.ConnectionResetError ->
  let w' := world_of (transmit_one env writable w) in
  loop_body D env buffer w = Raise e w'
  /\ step D (WorkerPass env) (w, Some buffer) = (w', None)
  /\ is_connected (unreal_client w') = true.
Proof.
  intros Hc Hsel Hsend Hrecv Hf Hdec Hos Hreset w'.
  destruct (transmit_one_returns env writable w Hsend) as (Ht & Hp & Hsock).
  fold w' in Ht, Hp, Hsock.
  assert (Hbody : loop_body D env buffer w = Raise e w').
  { unfold loop_body, loop_try, receive. unfold_m. rewrite Hsel.
    cbv beta iota. rewrite Ht. cbv beta iota. rewrite Hrecv.
    cbv beta iota.
    rewrite (process_received_frame D frame rest buffer w' Hf).
    unfold_m. rewrite Hp, Hdec.
    destruct e; try reflexivity; congruence. }
  split; [exact Hbody|]. split.
  - cbn [step]. rewrite Hc, Hbody. reflexivity.
  - rewrite (is_connected_socket _ _ Hsock). exact Hc.
Qed.

(** A kill command is queued and the listener sends a frame that the
    platform cannot decode: the command is written, the worker ends. *)
Lemma undecodable_frame_ends_worker_witness :
  let env := mkIterEnv (inr (true, true)) None
               (inr ("garbage" +:+ terminator +:+ "started")) 10 10 20
               (Some Py.OSError) in
  let w := world_of (unreal_client_send_message (KillProcessMessage 1)
                       Lab.lab_device) in
  let w' := world_of (transmit_one env true w) in
  loop_body device_delegates env "" w = Raise Py.ValueError w'
  /\ step device_delegates (WorkerPass env) (w, Some "") = (w', None)
  /\ is_connected (unreal_client w') = true.
Proof.
  intros env w.
  apply (undecodable_frame_ends_worker device_delegates env w
           "" "garbage" "started" true Py.ValueError);
    first [reflexivity | discriminate].
Defined.

Lemma step_worker_lost (D : Delegates) (a : action) (w : DeviceUnreal) :
  is_connected (unreal_client w) = true ->
  step D a (w, None)
    = (match a with
       | OwnerSend m => world_of (send_message (disconnect_delegate D) m w)
       | WorkerPass _ => w
       end, None)
  /\ is_connected (unreal_client (step D a (w, None)).1) = true
  /\ message_queue (unreal_client (step D a (w, None)).1)
     = List.rev (sends_of a) ++ message_queue (unreal_client w)
  /\ transmitted (trace (step D a (w, None)).1) = transmitted (trace w)
  /\ signals_emitted (trace (step D a (w, None)).1)
     = signals_emitted (trace w).
Proof.
  intros Hc. destruct a as [m|env]; cbn [step sends_of].
  - unfold send_message. unfold_m. rewrite Hc. cbn.
    rewrite transmitted_snoc. unfold signals_emitted.
    rewrite flat_map_app. cbn. rewrite !app_nil_r.
    repeat split. exact Hc.
  - repeat split; assumption.
Qed.

(** X8.  Once the worker has ended while the socket is still connected,
    every message handed to [send_message] is accepted and put at the left
    end of the queue, none is ever written to the socket, and no
    disconnection is signalled, whatever the owner sends and however long
    it waits. *)
Theorem lost_worker_queues_forever (D : Delegates) (acts : list action)
  (st : DeviceUnreal * option string) :
  worker_lost st ->
  worker_lost (run D acts st)
  /\ message_queue (unreal_client (run D acts st).1)
     = List.rev (sends acts) ++ message_queue (unreal_client st.1)
  /\ transmitted (trace (run D acts st).1) = transmitted (trace st.1)
  /\ signals_emitted (trace (run D acts st).1) = signals_emitted (trace st.1).
Proof.
  revert st. induction acts as [|a acts IH]; intros [w worker] [Hw Hc];
    cbn in Hw, Hc; subst worker.
  - repeat split; assumption.
  - destruct (step_worker_lost D a w Hc) as (E & Hc1 & Hq & Ht & Hs).
    change (run D (a :: acts) (w, None))
      with (run D acts (step D a (w, None))).
    destruct (IH (step D a (w, None))) as (L & Q & T & S).
    { rewrite E. split; [reflexivity|]. rewrite E in Hc1. exact Hc1. }
    split; [exact L|].
    rewrite Q, T, S, Hq, Ht, Hs. cbn [fst].
    repeat split.
    unfold sends. cbn [flat_map]. fold (sends acts).
    rewrite rev_app_distr, <- app_assoc. reflexivity.
Qed.

(** After the undecodable frame, two commands are sent and the worker is
    given two more passes. *)
Lemma lost_worker_queues_forever_witness :
  let env := mkIterEnv (inr (true, true)) None
               (inr ("garbage" +:+ terminator)) 10 10 20
               (Some Py.OSError) in
  let st := step device_delegates (WorkerPass env)
              (Lab.lab_device, Some "") in
  let acts := [OwnerSend (KillProcessMessage 1); WorkerPass Lab.writable_pass;
               OwnerSend (KillProcessMessage 2);
               WorkerPass Lab.writable_pass] in
  worker_lost (run device_delegates acts st)
  /\ message_queue (unreal_client (run device_delegates acts st).1)
     = [KillProcessMessage 2; KillProcessMessage 1]
  /\ transmitted (trace (run device_delegates acts st).1) = []
  /\ signals_emitted (trace (run device_delegates acts st).1) = [].
Proof.
  intros env st acts.
  apply (lost_worker_queues_forever device_delegates acts st).
  split; reflexivity.
Defined.

(* ===================================================================== *)
(** * The passes of the worker *)
(* ===================================================================== *)

#[local] Arguments signals_emitted : simpl never.

Lemma signals_emitted_app (t u : list event) :
  signals_emitted (t ++ u) = signals_emitted t ++ signals_emitted u.
Proof. unfold signals_emitted. apply flat_map_app. Qed.

Lemma signals_emitted_snoc (t : list event) (e : event) :
  signals_emitted (t ++ [e]) = signals_emitted t ++ signal_of e.
Proof.
  rewrite signals_emitted_app. unfold signals_emitted at 2. cbn.
  rewrite app_nil_r. reflexivity.
Qed.

(** X9.  When the [try] block of a pass raises an [OSError] that is no
    [ConnectionResetError], the worker of a device drops the socket,
    signals the unexpected disconnection once and ends: the client is not
    connected afterwards, and the outbound queue is what the failing pass
    left of it.  For a [ConnectionResetError] the worker first calls
    [shutdown] on the socket.  If that call raises, as it does on a socket
    that the peer has reset, its exception leaves the [except] clause and
    the loop: the worker ends in the state in which the [try] block was
    left, the socket is not dropped and nothing is signalled.  If it
    returns, the socket is closed and dropped and the disconnection is
    signalled once. *)
Theorem socket_error_ends_worker (env : IterEnv) (buffer : string)
  (w w1 : DeviceUnreal) (e : Py.exn) :
  is_connected (unreal_client w) = true ->
  loop_try device_delegates env buffer w = Raise e w1 ->
  is_OSError e = true ->
  (forall e',
      e = Py.ConnectionResetError ->
      shutdown_after_reset env = Some e' ->
      loop_body device_delegates env buffer w = Raise e' w1
      /\ step device_delegates (WorkerPass env) (w, Some buffer) = (w1, None))
  /\ (e <> Py.ConnectionResetError \/ shutdown_after_reset env = None ->
      exists w',
        step device_delegates (WorkerPass env) (w, Some buffer) = (w', None)
        /\ unreal_client w' = set_socket None (unreal_client w1)
        /\ is_connected (unreal_client w') = false
        /\ trace w' = trace w1
             ++ (if bool_decide (e = Py.ConnectionResetError)
                 then [SocketShutdown; SocketClosed] else [])
             ++ [Emit signal_device_client_disconnected]
        /\ signals_emitted (trace w')
           = signals_emitted (trace w1)
               ++ [signal_device_client_disconnected]).
Proof.
  intros Hc Htry He. split.
  - intros e' -> Hsh.
    assert (Hb : loop_body device_delegates env buffer w = Raise e' w1).
    { unfold loop_body, try_except. rewrite Htry. unfold_m. rewrite Hsh.
      reflexivity. }
    split; [exact Hb|]. cbn [step]. rewrite Hc, Hb. reflexivity.
  - intros Hsh. cbn [step]. rewrite Hc.
    unfold loop_body, try_except. rewrite Htry.
    destruct e; try discriminate He.
    + unfold_m. cbn. eexists. (split; [reflexivity|]). cbn. repeat split.
      rewrite signals_emitted_app. reflexivity.
    + destruct Hsh as [Hne|Hsh]; [congruence|].
      unfold_m. rewrite Hsh. cbn.
      eexists. (split; [reflexivity|]). cbn. repeat split;
        rewrite <- ?app_assoc, ?signals_emitted_app; reflexivity.
Qed.

(** A kill command is queued and the write to the socket fails.  When the
    peer has reset the connection, the command is neither sent nor kept,
    and the worker ends with the socket still in place and without a
    signal; when the write fails with another [OSError], the socket is
    dropped and the disconnection is signalled. *)
Lemma socket_error_ends_worker_witness :
  let reset := mkIterEnv (inr (false, true)) (Some Py.ConnectionResetError)
                 (inr "") 10 10 20 (Some Py.OSError) in
  let broken := mkIterEnv (inr (false, true)) (Some Py.OSError)
                  (inr "") 10 10 20 (Some Py.OSError) in
  let w := world_of (unreal_client_send_message (KillProcessMessage 1)
                       Lab.lab_device) in
  let w1 := upd_client (set_message_queue []) w in
  (loop_body device_delegates reset "" w = Raise Py.OSError w1
   /\ step device_delegates (WorkerPass reset) (w, Some "") = (w1, None))
  /\ exists w',
       step device_delegates (WorkerPass broken) (w, Some "") = (w', None)
       /\ socket (unreal_client w') = None
       /\ signals_emitted (trace w') = [signal_device_client_disconnected].
Proof.
  intros reset broken w w1. split.
  - apply (proj1 (socket_error_ends_worker reset "" w w1
                    Py.ConnectionResetError eq_refl eq_refl eq_refl)
                 Py.OSError); reflexivity.
  - destruct (proj2 (socket_error_ends_worker broken "" w w1
                       Py.OSError eq_refl eq_refl eq_refl))
      as (w' & E & Hcl & _ & _ & Hs); [left; discriminate|].
    exists w'. split; [exact E|]. rewrite Hcl, Hs. split; reflexivity.
Defined.

Ltac unfold_loop :=
  unfold loop_body, loop_try, transmit_one, receive, keep_alive,
         close_if_requested, send_message.

(** The close flag and the socket of a client whose queue, activity time
    or trace were changed are those of the client before the change. *)
Ltac same_socket w :=
  repeat match goal with
  | |- context [close_socket ?c] =>
      lazymatch c with unreal_client w => fail | _ => idtac end;
      change (close_socket c) with (close_socket (unreal_client w))
  | |- context [is_connected ?c] =>
      lazymatch c with unreal_client w => fail | _ => idtac end;
      change (is_connected c) with (is_connected (unreal_client w))
  end.

(** X10.  A pass in which nothing is queued, nothing can be read and the
    close flag is not set changes nothing as long as the last activity is
    at most two seconds old, and the worker goes on.  When it is older, the
    pass puts one keep-alive message on the queue, writes nothing and does
    not touch the activity time; the next such pass that finds the socket
    writable sends that message and sets the activity time to the time of
    the write. *)
Theorem keep_alive_cycle (D : Delegates) (env env2 : IterEnv)
  (buffer : string) (writable : bool) (w : DeviceUnreal) :
  is_connected (unreal_client w) = true ->
  close_socket (unreal_client w) = false ->
  message_queue (unreal_client w) = [] ->
  select_result env = inr (false, writable) ->
  (now_idle env - last_activity (unreal_client w) <= 2000000 ->
     loop_body D env buffer w = Ok (Continue, buffer) w)
  /\ (2000000 < now_idle env - last_activity (unreal_client w) ->
      exists w1,
        loop_body D env buffer w = Ok (Continue, buffer) w1
        /\ unreal_client w1
           = set_message_queue [KeepAliveMessage] (unreal_client w)
        /\ transmitted (trace w1) = transmitted (trace w)
        /\ (select_result env2 = inr (false, true) ->
            send_result env2 = None ->
            now_idle env2 - now_sent env2 <= 2000000 ->
            exists w2,
              loop_body D env2 buffer w1 = Ok (Continue, buffer) w2
              /\ unreal_client w2
                 = set_last_activity (now_sent env2) (unreal_client w)
              /\ transmitted (trace w2)
                 = transmitted (trace w) ++ [KeepAliveMessage])).
Proof.
  intros Hc Hflag Hq Hsel. split.
  - intros Hidle. apply Z.ltb_ge in Hidle.
    unfold_loop. unfold_m. rewrite Hsel. cbv beta iota.
    rewrite Hq. cbn. rewrite Hidle, Hflag. reflexivity.
  - intros Hidle. apply Z.ltb_lt in Hidle.
    eexists. split; [|split; [|split]].
    + unfold_loop. unfold_m. rewrite Hsel. cbv beta iota.
      rewrite Hq. cbn. rewrite Hidle, Hc. cbn. rewrite Hflag. reflexivity.
    + cbn. rewrite Hq. reflexivity.
    + cbn. rewrite transmitted_snoc. cbn. apply app_nil_r.
    + intros Hsel2 Hsend2 Hidle2. apply Z.ltb_ge in Hidle2.
      eexists. split; [|split].
      * unfold_loop. unfold_m. rewrite Hsel2. cbn.
        rewrite Hq, Hsend2. cbn. rewrite Hidle2. same_socket w.
        rewrite Hflag. reflexivity.
      * cbn. destruct (unreal_client w); cbn in *. subst. reflexivity.
      * cbn. rewrite !transmitted_snoc. cbn. rewrite app_nil_r.
        reflexivity.
Qed.

(** On the lab device, whose last activity is at time 0: a pass at time
    20, then a pass at time 3 000 000 and one right after it. *)
Lemma keep_alive_cycle_witness :
  let late := mkIterEnv (inr (false, true)) None (inr "") 0 0 3000000
                (Some Py.OSError) in
  let next := mkIterEnv (inr (false, true)) None (inr "") 3000001 0 3000002
                (Some Py.OSError) in
  loop_body device_delegates Lab.writable_pass "" Lab.lab_device
    = Ok (Continue, "") Lab.lab_device
  /\ exists w1 w2,
       loop_body device_delegates late "" Lab.lab_device = Ok (Continue, "") w1
       /\ message_queue (unreal_client w1) = [KeepAliveMessage]
       /\ loop_body device_delegates next "" w1 = Ok (Continue, "") w2
       /\ message_queue (unreal_client w2) = []
       /\ last_activity (unreal_client w2) = 3000001
       /\ transmitted (trace w2) = [KeepAliveMessage].
Proof.
  intros late next. split.
  - apply (proj1 (keep_alive_cycle device_delegates Lab.writable_pass next
                    "" true Lab.lab_device eq_refl eq_refl eq_refl eq_refl)).
    cbn. lia.
  - destruct (proj2 (keep_alive_cycle device_delegates late next
                       "" true Lab.lab_device eq_refl eq_refl eq_refl eq_refl))
      as (w1 & E1 & C1 & _ & H2); [cbn; lia|].
    destruct H2 as (w2 & E2 & C2 & T2); [reflexivity|reflexivity|cbn; lia|].
    exists w1, w2. rewrite C1, C2. repeat split; assumption.
Defined.

(** X11.  The loop takes the oldest message off the queue before it
    looks whether the socket can be written.  In a pass in which the socket
    is not writable that message is written nowhere and is not put back:
    afterwards the queue holds the other messages (and a keep-alive
    message in front of them if the last activity is more than two seconds
    old), and nothing has been sent. *)
Theorem unwritable_pass_drops_message (D : Delegates) (env : IterEnv)
  (buffer : string) (q : list wire) (m : wire) (w : DeviceUnreal) :
  is_connected (unreal_client w) = true ->
  close_socket (unreal_client w) = false ->
  message_queue (unreal_client w) = q ++ [m] ->
  select_result env = inr (false, false) ->
  exists w',
    loop_body D env buffer w = Ok (Continue, buffer) w'
    /\ unreal_client w'
       = set_message_queue
           ((if Z.ltb 2000000 (now_idle env - last_activity (unreal_client w))
             then [KeepAliveMessage] else []) ++ q)
           (unreal_client w)
    /\ transmitted (trace w') = transmitted (trace w).
Proof.
  intros Hc Hflag Hq Hsel.
  unfold_loop. unfold_m. rewrite Hsel. cbv beta iota.
  rewrite Hq, deque_pop_snoc. cbn.
  destruct (Z.ltb 2000000 _).
  - same_socket w. rewrite Hc. cbn. same_socket w. rewrite Hflag.
    eexists. split; [reflexivity|]. cbn. rewrite transmitted_snoc. cbn.
    split; [reflexivity|apply app_nil_r].
  - same_socket w. rewrite Hflag. eexists. repeat split.
Qed.

(** Two kill commands are queued; after a pass that finds the socket
    blocked, only the second is left. *)
Lemma unwritable_pass_drops_message_witness :
  let w := world_of ((unreal_client_send_message (KillProcessMessage 1) ;;
                      unreal_client_send_message (KillProcessMessage 2))
                       Lab.lab_device) in
  exists w',
    loop_body device_delegates Lab.blocked_pass "" w = Ok (Continue, "") w'
    /\ unreal_client w'
       = set_message_queue [KillProcessMessage 2] (unreal_client w)
    /\ transmitted (trace w') = transmitted (trace w).
Proof.
  intros w.
  apply (unwritable_pass_drops_message device_delegates Lab.blocked_pass ""
           [KillProcessMessage 2] (KillProcessMessage 1) w);
    reflexivity.
Defined.

(* ===================================================================== *)
(** * [disconnect] *)
(* ===================================================================== *)

Lemma deque_pop_cons (m : wire) (q : list wire) :
  deque_pop (m :: q) = Some (removelast (m :: q), List.last q m).
Proof.
  destruct q as [|x q _] using rev_ind; [reflexivity|].
  rewrite app_comm_cons, deque_pop_snoc, removelast_last, last_last.
  reflexivity.
Qed.

(** [disconnect] on a connected client, when nothing is read in the pass
    that follows. *)
Lemma disconnect_connected (env : IterEnv) (envs : list IterEnv)
  (buffer : string) (writable : bool) (w : DeviceUnreal) :
  is_connected (unreal_client w) = true ->
  select_result env = inr (false, writable) ->
  send_result env = None ->
  exists w' new,
    disconnect device_delegates (env :: envs) (Some buffer) w = Ok tt w'
    /\ socket (unreal_client w') = None
    /\ close_socket (unreal_client w') = true
    /\ ip_address (unreal_client w') = ip_address (unreal_client w)
    /\ message_queue (unreal_client w')
       = new ++ removelast (DisconnectMessage
                             :: message_queue (unreal_client w))
    /\ transmitted (trace w')
       = transmitted (trace w)
           ++ (if writable
               then [List.last (message_queue (unreal_client w))
                       DisconnectMessage]
               else [])
    /\ signals_emitted (trace w') = signals_emitted (trace w).
Proof.
  intros Hc Hsel Hsend.
  unfold disconnect, join, send_message. unfold_m.
  repeat (rewrite Hc; cbv beta iota).
  cbn [handle_connection_from]. unfold_m. same_socket w. rewrite Hc.
  unfold_loop. unfold_m. rewrite Hsel. cbv beta iota.
  cbn [unreal_client upd_client set_unreal_client message_queue
       set_message_queue set_close_socket set_trace].
  rewrite deque_pop_cons, Hsend.
  destruct writable; cbv beta iota;
    (destruct (Z.ltb 2000000 _); cbv beta iota; same_socket w;
     rewrite ?Hc; cbn;
     [eexists; exists [KeepAliveMessage]|eexists; exists []];
     (split; [reflexivity|]); cbn;
     rewrite <- ?app_assoc, ?transmitted_app, ?signals_emitted_app;
     repeat split; try apply app_nil_r).
Qed.

(** X12.  [disconnect] on a client that is not connected does nothing.
    On a connected client it queues the disconnect notice and sets the
    close flag; the next pass of the worker, if nothing is read in it,
    closes the socket and ends the worker without any signal to the
    device, so that [join] returns.  That pass writes one message at most,
    and it is the oldest one queued: the notice itself reaches the listener
    only when the queue was empty before the call. *)
Theorem disconnect_effects (env : IterEnv) (envs : list IterEnv)
  (worker : option string) (buffer : string) (writable : bool)
  (w : DeviceUnreal) :
  (is_connected (unreal_client w) = false ->
     disconnect device_delegates envs worker w = Ok tt w)
  /\ (is_connected (unreal_client w) = true ->
      select_result env = inr (false, writable) ->
      send_result env = None ->
      exists w',
        disconnect device_delegates (env :: envs) (Some buffer) w = Ok tt w'
        /\ socket (unreal_client w') = None
        /\ close_socket (unreal_client w') = true
        /\ transmitted (trace w')
           = transmitted (trace w)
               ++ (if writable
                   then [List.last (message_queue (unreal_client w))
                           DisconnectMessage]
                   else [])
        /\ signals_emitted (trace w') = signals_emitted (trace w)).
Proof.
  split.
  - intros Hc. unfold disconnect. unfold_m. rewrite Hc. reflexivity.
  - intros Hc Hsel Hsend.
    destruct (disconnect_connected env envs buffer writable w Hc Hsel Hsend)
      as (w' & new & E & Hs & Hf & _ & _ & Ht & Hsig).
    exists w'. repeat split; assumption.
Qed.

(** A kill command is waiting when [disconnect] is called: the closing
    pass sends the kill command, and the notice is never sent. *)
Lemma disconnect_effects_witness :
  let w := world_of (unreal_client_send_message (KillProcessMessage 1)
                       Lab.lab_device) in
  disconnect device_delegates [] None Lab.disconnected_no_address
    = Ok tt Lab.disconnected_no_address
  /\ exists w',
       disconnect device_delegates [Lab.writable_pass] (Some "") w = Ok tt w'
       /\ socket (unreal_client w') = None
       /\ close_socket (unreal_client w') = true
       /\ transmitted (trace w') = [KillProcessMessage 1]
       /\ signals_emitted (trace w') = [].
Proof.
  intros w. split.
  - apply (proj1 (disconnect_effects Lab.writable_pass [] None "" true
                    Lab.disconnected_no_address)).
    reflexivity.
  - apply (proj2 (disconnect_effects Lab.writable_pass [] None "" true w));
      reflexivity.
Defined.

(* ===================================================================== *)
(** * One message per pass *)
(* ===================================================================== *)

Lemma sent_within_trans (n k : nat) (w1 w2 w3 : DeviceUnreal) :
  sent_within n w1 w2 -> sent_within k w2 w3 -> sent_within (n + k) w1 w3.
Proof.
  intros (s1 & E1 & L1) (s2 & E2 & L2). exists (s1 ++ s2).
  rewrite E2, E1, <- app_assoc, length_app. split; [reflexivity|lia].
Qed.

Lemma sent_within_grows (w w' : DeviceUnreal) :
  queue_grows w w' -> sent_within 0 w w'.
Proof.
  intros (new & _ & _ & Ht). exists []. rewrite Ht, app_nil_r.
  split; [reflexivity|cbn; lia].
Qed.

Lemma sends_within_enqueue_only {A : Type} (m : M A) :
  enqueue_only m -> sends_within 0 m.
Proof. intros H w. apply sent_within_grows, H. Qed.

Lemma sends_within_bind {A B : Type} (n k : nat) (m : M A) (f : A -> M B) :
  sends_within n m -> (forall a, sends_within k (f a)) ->
  sends_within (n + k) (m ≫= f).
Proof.
  intros Hm Hf w. unfold mbind, M_bind. specialize (Hm w).
  destruct (m w) as [a w1|e w1]; cbn in *.
  - eapply sent_within_trans; [exact Hm|apply Hf].
  - destruct Hm as (s & E & L). exists s. split; [exact E|lia].
Qed.

Lemma sends_within_try_except {A : Type} (n : nat) (body : M A)
  (handler : Py.exn -> option (M A)) :
  sends_within n body ->
  (forall e h, handler e = Some h -> sends_within 0 h) ->
  sends_within n (try_except body handler).
Proof.
  intros Hb Hh w. unfold try_except. specialize (Hb w).
  destruct (body w) as [a w1|e w1]; cbn in *; [exact Hb|].
  destruct (handler e) as [h|] eqn:E; [|exact Hb].
  rewrite <- (Nat.add_0_r n).
  eapply sent_within_trans; [exact Hb|apply (Hh e h E)].
Qed.

Lemma sends_within_transmit_one (env : IterEnv) (writable : bool) :
  sends_within 1 (transmit_one env writable).
Proof.
  intros w. unfold transmit_one. unfold_m.
  destruct (deque_pop (message_queue (unreal_client w))) as [[rest m]|];
    [destruct writable; [destruct (send_result env)|]|]; cbn.
  all: try (exists []; rewrite app_nil_r; split; [reflexivity|cbn; lia]).
  exists [m]. cbn. rewrite transmitted_snoc. split; [reflexivity|cbn; lia].
Qed.

Section OnePerPass.

Variable D : Delegates.
Hypothesis HD : delegates_enqueue_only D.

Lemma sends_within_loop_body (env : IterEnv) (buffer : string) :
  sends_within 1 (loop_body D env buffer).
Proof.
  unfold loop_body. apply sends_within_try_except.
  - unfold loop_try. apply (sends_within_bind 0 1).
    + apply sends_within_enqueue_only, enqueue_only_lift.
    + intros [readable writable]. apply (sends_within_bind 1 0).
      * apply sends_within_transmit_one.
      * intros _. apply sends_within_enqueue_only.
        apply (enqueue_only_after_transmit D HD).
  - intros e h H. apply sends_within_enqueue_only.
    apply (enqueue_only_handlers D HD env buffer e h H).
Qed.

Lemma sent_within_step (a : action) (st : DeviceUnreal * option string) :
  sent_within (if is_pass a then 1 else 0) st.1 (step D a st).1.
Proof.
  destruct st as [w worker]. destruct a as [m|env]; cbn [step is_pass fst].
  - apply sent_within_grows. apply (send_message_enqueue_only D HD).
  - assert (H0 : sent_within 1 w w).
    { exists []. rewrite app_nil_r. split; [reflexivity|cbn; lia]. }
    destruct worker as [buffer|]; [|exact H0].
    destruct (is_connected (unreal_client w)); [|exact H0].
    pose proof (sends_within_loop_body env buffer w) as H.
    destruct (loop_body D env buffer w) as [[[] b] w'|e w']; exact H.
Qed.

End OnePerPass.

(** X13.  With delegates that only enqueue, as those of a device do, the
    worker writes at most one message to the socket in each pass: over any
    schedule of sends and passes, the number of messages written is at most
    the number of passes, however many messages are queued. *)
Theorem one_message_per_pass (D : Delegates) (acts : list action)
  (st : DeviceUnreal * option string) :
  delegates_enqueue_only D ->
  sent_within (passes acts) st.1 (run D acts st).1.
Proof.
  intros HD. revert st. induction acts as [|a acts IH]; intros st.
  - exists []. rewrite app_nil_r. split; [reflexivity|cbn; lia].
  - change (run D (a :: acts) st) with (run D acts (step D a st)).
    replace (passes (a :: acts))
      with ((if is_pass a then 1 else 0) + passes acts)%nat
      by (unfold passes; cbn; destruct (is_pass a); reflexivity).
    eapply sent_within_trans; [apply (sent_within_step D HD)|apply IH].
Qed.

(** Three kill commands and two passes: two commands are written. *)
Lemma one_message_per_pass_witness :
  let acts := [OwnerSend (KillProcessMessage 1);
               OwnerSend (KillProcessMessage 2);
               OwnerSend (KillProcessMessage 3);
               WorkerPass Lab.writable_pass; WorkerPass Lab.writable_pass] in
  sent_within 2 Lab.lab_device
    (run device_delegates acts (Lab.lab_device, Some "")).1
  /\ transmitted
       (trace (run device_delegates acts (Lab.lab_device, Some "")).1)
     = [KillProcessMessage 1; KillProcessMessage 2].
Proof.
  intros acts. split; [|reflexivity].
  apply (one_message_per_pass device_delegates acts
           (Lab.lab_device, Some "") device_delegates_enqueue_only).
Defined.

(* ===================================================================== *)
(** * The two tables of running programs *)
(* ===================================================================== *)

Lemma tables_ended_branch (nm program_name : string) (r o : value) :
  respects tables_untouched (ended_branch nm program_name r o).
Proof. unfold_handlers. repeat rs_step. Qed.

(** The three ways through the two [pop] calls of [on_program_ended]. *)
Lemma on_program_ended_registered (w : DeviceUnreal) (p q : UUID)
  (n : string) (r o : value) :
  _running_remote_program_names w !! p = Some n ->
  _running_remote_program_ids w !! n = Some q ->
  on_program_ended p r o w
    = ended_branch (name w) n r o (ended_popped w p n r).
Proof.
  intros Hn Hi. rewrite on_program_ended_branches.
  unfold pop_program_names, pop_program_ids. unfold_m. cbn.
  rewrite Hn. cbn. rewrite Hi. reflexivity.
Qed.

Lemma on_program_ended_half_registered (w : DeviceUnreal) (p : UUID)
  (n : string) (r o : value) :
  _running_remote_program_names w !! p = Some n ->
  _running_remote_program_ids w !! n = None ->
  on_program_ended p r o w = Raise Py.KeyError (name_popped w p r).
Proof.
  intros Hn Hi. rewrite on_program_ended_branches.
  unfold pop_program_names, pop_program_ids. unfold_m. cbn.
  rewrite Hn. cbn. rewrite Hi. reflexivity.
Qed.

Lemma on_program_ended_unknown (w : DeviceUnreal) (p : UUID) (r o : value) :
  _running_remote_program_names w !! p = None ->
  on_program_ended p r o w
    = Raise Py.KeyError (set_trace (trace w ++ [ended_entry w p r]) w).
Proof.
  intros Hn. rewrite on_program_ended_branches.
  unfold pop_program_names, pop_program_ids. unfold_m. cbn.
  rewrite Hn. reflexivity.
Qed.

Lemma on_program_ended_tables (w : DeviceUnreal) (p q : UUID) (n : string)
  (r o : value) :
  _running_remote_program_names w !! p = Some n ->
  _running_remote_program_ids w !! n = Some q ->
  let w' := world_of (on_program_ended p r o w) in
  _running_remote_program_names w'
    = delete p (_running_remote_program_names w)
  /\ _running_remote_program_ids w' = delete n (_running_remote_program_ids w).
Proof.
  intros Hn Hi w'. subst w'.
  rewrite (on_program_ended_registered w p q n r o Hn Hi).
  destruct (tables_ended_branch (name w) n r o (ended_popped w p n r))
    as [H1 H2].
  rewrite H1, H2. split; reflexivity.
Qed.

Lemma on_program_started_tables (w : DeviceUnreal) (p i : UUID) (n : string) :
  _remote_programs_start_queue w !! i = Some n ->
  exists w',
    on_program_started p i w = Ok tt w'
    /\ _running_remote_program_names w'
       = <[p := n]> (_running_remote_program_names w)
    /\ _running_remote_program_ids w'
       = <[n := p]> (_running_remote_program_ids w)
    /\ _remote_programs_start_queue w'
       = delete i (_remote_programs_start_queue w).
Proof.
  intros Hq. unfold on_program_started, pop_start_queue, assign_status.
  unfold_m. cbn. rewrite Hq. cbn.
  destruct (bool_decide (n = "unreal")); cbn; eexists; repeat split.
Qed.

Section DeviceLeavesTables.

Lemma tables_on_listener_disconnect (u : bool) (e : option Py.exn) :
  respects tables_untouched (on_listener_disconnect u e).
Proof. unfold_handlers. repeat rs_step. Qed.

Lemma tables_on_program_start_failed (e : value) (i : UUID) :
  respects tables_untouched (on_program_start_failed e i).
Proof. unfold_handlers. repeat rs_step. Qed.

Lemma tables_on_program_kill_failed (p : UUID) (e : value) :
  respects tables_untouched (on_program_kill_failed p e).
Proof. unfold_handlers. repeat rs_step. Qed.

Lemma tables_on_file_received (s c : value) :
  respects tables_untouched (on_file_received s c).
Proof. unfold_handlers. repeat rs_step. Qed.

Lemma tables_on_file_receive_failed (s e : value) :
  respects tables_untouched (on_file_receive_failed s e).
Proof. unfold_handlers. repeat rs_step. Qed.

End DeviceLeavesTables.

(** X14.  The table of ids by name stays the inverse of the table of
    names by id when a program ends, whatever the event says and whether
    the handler returns or raises, and when a program starts whose id and
    name are not in the tables yet.  No other handler touches the
    tables. *)
Theorem tables_inverse_kept (w : DeviceUnreal) :
  tables_inverse w ->
  (forall p r o, tables_inverse (world_of (on_program_ended p r o w)))
  /\ (forall p i n,
        _remote_programs_start_queue w !! i = Some n ->
        _running_remote_program_names w !! p = None ->
        _running_remote_program_ids w !! n = None ->
        tables_inverse (world_of (on_program_started p i w)))
  /\ (forall e i,
        tables_untouched w (world_of (on_program_start_failed e i w)))
  /\ (forall p e,
        tables_untouched w (world_of (on_program_kill_failed p e w)))
  /\ (forall s c, tables_untouched w (world_of (on_file_received s c w)))
  /\ (forall s e,
        tables_untouched w (world_of (on_file_receive_failed s e w)))
  /\ (forall u e,
        tables_untouched w (world_of (on_listener_disconnect u e w))).
Proof.
  intros Hinv. split; [|split].
  - intros p r o.
    destruct (_running_remote_program_names w !! p) as [n|] eqn:Hn.
    + assert (Hi : _running_remote_program_ids w !! n = Some p)
        by (apply Hinv, Hn).
      destruct (on_program_ended_tables w p p n r o Hn Hi) as [E1 E2].
      intros p' n'. rewrite E1, E2, !lookup_delete_Some. split.
      * intros [Hne Hp']. split; [|apply Hinv, Hp'].
        intros <-. apply Hinv in Hp'. congruence.
      * intros [Hne Hn']. split; [|apply Hinv, Hn'].
        intros <-. apply Hinv in Hn'. congruence.
    + rewrite (on_program_ended_unknown w p r o Hn). exact Hinv.
  - intros p i n Hq Hp Hi.
    destruct (on_program_started_tables w p i n Hq) as (w' & E & E1 & E2 & _).
    rewrite E. cbn [world_of]. intros p' n'.
    rewrite E1, E2, !lookup_insert_Some. split.
    + intros [[<- <-]|[Hne Hp']]; [left; split; reflexivity|].
      right. split; [|apply Hinv, Hp']. intros <-.
      apply Hinv in Hp'. congruence.
    + intros [[<- <-]|[Hne Hn']]; [left; split; reflexivity|].
      right. split; [|apply Hinv, Hn']. intros <-.
      apply Hinv in Hn'. congruence.
  - split; [intros; apply tables_on_program_start_failed|].
    split; [intros; apply tables_on_program_kill_failed|].
    split; [intros; apply tables_on_file_received|].
    split; [intros; apply tables_on_file_receive_failed|].
    intros; apply tables_on_listener_disconnect.
Qed.

Lemma tables_inverse_sync_running : tables_inverse Lab.sync_running.
Proof.
  intros p n.
  change (_running_remote_program_names Lab.sync_running)
    with ({[ 1%N := "sync" ]} : gmap UUID string).
  change (_running_remote_program_ids Lab.sync_running)
    with ({[ "sync" := 1%N ]} : gmap string UUID).
  rewrite !lookup_singleton_Some. intuition congruence.
Qed.

(** While the sync runs as program 1, the tables are inverse to each
    other, and they still are when the sync has ended. *)
Lemma tables_inverse_kept_witness :
  tables_inverse Lab.sync_running
  /\ tables_inverse
       (world_of (on_program_ended 1%N (VInt 0) (VStr "") Lab.sync_running)).
Proof.
  split; [exact tables_inverse_sync_running|].
  apply (proj1 (tables_inverse_kept Lab.sync_running
                  tables_inverse_sync_running)).
Defined.

(** X15.  The table of ids has one entry for a name.  When two running
    programs have the same name, the end of the first takes that entry
    away, and the end of the second then raises [KeyError] after the
    program was taken out of the table of names and before anything else
    was done: the status, the changelist and the pending build are as they
    were, and nothing but the first log line is added to the trace. *)
Theorem second_end_of_a_name_raises (w : DeviceUnreal) (p1 p2 q : UUID)
  (n : string) (r1 o1 r2 o2 : value) :
  p1 <> p2 ->
  _running_remote_program_names w !! p1 = Some n ->
  _running_remote_program_names w !! p2 = Some n ->
  _running_remote_program_ids w !! n = Some q ->
  let w1 := world_of (on_program_ended p1 r1 o1 w) in
  on_program_ended p2 r2 o2 w1 = Raise Py.KeyError (name_popped w1 p2 r2)
  /\ _running_remote_program_names (name_popped w1 p2 r2)
     = delete p2 (delete p1 (_running_remote_program_names w))
  /\ _running_remote_program_ids (name_popped w1 p2 r2)
     = delete n (_running_remote_program_ids w).
Proof.
  intros Hne H1 H2 Hq w1.
  destruct (on_program_ended_tables w p1 q n r1 o1 H1 Hq) as [E1 E2].
  fold w1 in E1, E2. split; [|split].
  - apply (on_program_ended_half_registered w1 p2 n r2 o2).
    + rewrite E1, lookup_delete_ne by exact Hne. exact H2.
    + rewrite E2. apply lookup_delete_eq.
  - cbn. rewrite E1. reflexivity.
  - cbn. exact E2.
Qed.

(** Two syncs are started one after the other and run as programs 1 and
    2; the first ends with success, the end of the second raises. *)
Lemma second_end_of_a_name_raises_witness :
  let w := world_of ((sync (VInt 1234) ;; sync (VInt 1235) ;;
                      on_program_started 1%N 100%N ;;
                      on_program_started 2%N 101%N) Lab.lab_device) in
  let w1 := world_of (on_program_ended 1%N (VInt 0) (VStr "") w) in
  on_program_ended 2%N (VInt 0) (VStr "") w1
    = Raise Py.KeyError (name_popped w1 2%N (VInt 0))
  /\ _running_remote_program_names (name_popped w1 2%N (VInt 0))
     = delete 2%N (delete 1%N (_running_remote_program_names w))
  /\ _running_remote_program_ids (name_popped w1 2%N (VInt 0))
     = delete "sync" (_running_remote_program_ids w).
Proof.
  intros w.
  apply (second_end_of_a_name_raises w 1%N 2%N 2%N "sync"
           (VInt 0) (VStr "") (VInt 0) (VStr ""));
    first [reflexivity | discriminate].
Defined.

(** The device is left [SYNCING] by that second end. *)
Example second_sync_end_leaves_device_syncing :
  let w := world_of ((sync (VInt 1234) ;; sync (VInt 1235) ;;
                      on_program_started 1%N 100%N ;;
                      on_program_started 2%N 101%N ;;
                      on_program_ended 1%N (VInt 0) (VStr "")) Lab.lab_device) in
  let w' := world_of (sync (VInt 1236) w) in
  status w = CLOSED
  /\ status w' = SYNCING
  /\ status (world_of (on_program_ended 2%N (VInt 0) (VStr "") w')) = SYNCING.
Proof. vm_compute. repeat split. Qed.

(** X16.  A program that starts under an id and a name that are not in
    the tables and then ends leaves the two tables as they were before it
    started, whatever its return code and output are and whether the
    handler of its end returns or raises. *)
Theorem start_then_end_restores_tables (w : DeviceUnreal) (p i : UUID)
  (n : string) (r o : value) :
  _remote_programs_start_queue w !! i = Some n ->
  _running_remote_program_names w !! p = None ->
  _running_remote_program_ids w !! n = None ->
  tables_untouched w
    (world_of ((on_program_started p i ;; on_program_ended p r o) w)).
Proof.
  intros Hq Hp Hn.
  destruct (on_program_started_tables w p i n Hq) as (w1 & E & E1 & E2 & _).
  unfold mbind, M_bind. rewrite E.
  destruct (on_program_ended_tables w1 p p n r o) as [F1 F2].
  { rewrite E1. apply lookup_insert_eq. }
  { rewrite E2. apply lookup_insert_eq. }
  split.
  - rewrite F1, E1. apply delete_insert_id, Hp.
  - rewrite F2, E2. apply delete_insert_id, Hn.
Qed.

Lemma start_then_end_restores_tables_witness :
  let w := world_of (_request_current_changelist_number Lab.lab_device) in
  tables_untouched w
    (world_of ((on_program_started 1%N 100%N ;;
                on_program_ended 1%N (VInt 0) (VInt 7)) w)).
Proof.
  intros w.
  apply (start_then_end_restores_tables w 1%N 100%N "cstat" (VInt 0)
           (VInt 7)); reflexivity.
Defined.

(* ===================================================================== *)
(** * A program that could not be started *)
(* ===================================================================== *)

(** X17.  [on_program_start_failed] raises [KeyError] and changes nothing
    for a message id that is not in the start queue.  For one that is, it
    takes the entry out and logs the error; the device is set to [CLOSED]
    only if the program was a sync or a build, so a failed launch of Unreal
    leaves the status as it is.  The changelist in flight and the pending
    build are not reset. *)
Theorem start_failure_effects (w : DeviceUnreal) (error : value)
  (message_id : UUID) :
  (_remote_programs_start_queue w !! message_id = None ->
     on_program_start_failed error message_id w = Raise Py.KeyError w)
  /\ (forall n,
        _remote_programs_start_queue w !! message_id = Some n ->
        exists w',
          on_program_start_failed error message_id w = Ok tt w'
          /\ _remote_programs_start_queue w'
             = delete message_id (_remote_programs_start_queue w)
          /\ status w'
             = (if closes_on_start_failure n then CLOSED else status w)
          /\ statuses_assigned (trace w')
             = statuses_assigned (trace w)
                 ++ (if closes_on_start_failure n then [CLOSED] else [])
          /\ changelist w' = changelist w
          /\ inflight_changelist w' = inflight_changelist w
          /\ start_build_after_sync w' = start_build_after_sync w
          /\ tables_untouched w w'
          /\ unreal_client w' = unreal_client w).
Proof.
  split.
  - intros H. unfold on_program_start_failed, pop_start_queue. unfold_m.
    rewrite H. reflexivity.
  - intros n H.
    unfold on_program_start_failed, pop_start_queue, assign_status,
      assign_changelist, closes_on_start_failure.
    unfold_m. rewrite H. cbv beta iota.
    destruct (bool_decide (n = "sync") || bool_decide (n = "build"));
      cbn; eexists; (split; [reflexivity|]); cbn;
      rewrite <- ?app_assoc, ?statuses_assigned_app, ?app_nil_r;
      repeat split.
Qed.

(** The start of the sync is refused while a build is pending; the start
    of Unreal is refused. *)
Lemma start_failure_effects_witness :
  (exists w',
     on_program_start_failed (VStr "no such file") 100%N
       (world_of ((sync (VInt 1234) ;; build) Lab.lab_device)) = Ok tt w'
     /\ status w' = CLOSED
     /\ inflight_changelist w' = VInt 1234
     /\ start_build_after_sync w' = true)
  /\ on_program_start_failed (VStr "no such file") 100%N Lab.lab_device
     = Raise Py.KeyError Lab.lab_device.
Proof.
  split.
  - destruct (proj2 (start_failure_effects
                       (world_of ((sync (VInt 1234) ;; build) Lab.lab_device))
                       (VStr "no such file") 100%N) "sync")
      as (w' & E & _ & Hs & _ & _ & Hi & Hb & _); [reflexivity|].
    exists w'. rewrite Hs, Hi, Hb. repeat split. exact E.
  - apply (proj1 (start_failure_effects Lab.lab_device
                    (VStr "no such file") 100%N)).
    reflexivity.
Defined.

(* ===================================================================== *)
(** * Commands given while the connection is down *)
(* ===================================================================== *)

(** X18.  [sync] and [build] do not look at what [send_message] did.
    With the connection down, the command is not queued and the device
    signals the disconnection, and yet the start-queue entry is recorded
    under the fresh message id and the status is set to [SYNCING], or to
    [BUILDING], as if the command were on its way. *)
Theorem commands_without_connection (w : DeviceUnreal) (cl : value) :
  is_connected (unreal_client w) = false ->
  let mid := uuid4 (platform w) (uuids_drawn w) in
  (exists w',
     sync cl w = Ok tt w'
     /\ status w' = SYNCING
     /\ inflight_changelist w' = cl
     /\ _remote_programs_start_queue w'
        = <[mid := "sync"]> (_remote_programs_start_queue w)
     /\ unreal_client w' = unreal_client w
     /\ enqueued (trace w') = enqueued (trace w)
     /\ signals_emitted (trace w')
        = signals_emitted (trace w) ++ [signal_device_client_disconnected])
  /\ (status w <> SYNCING ->
      exists w',
        build w = Ok tt w'
        /\ status w' = BUILDING
        /\ _remote_programs_start_queue w'
           = <[mid := "build"]> (_remote_programs_start_queue w)
        /\ unreal_client w' = unreal_client w
        /\ enqueued (trace w') = enqueued (trace w)
        /\ signals_emitted (trace w')
           = signals_emitted (trace w) ++ [signal_device_client_disconnected]).
Proof.
  intros Hc mid. subst mid. split.
  - unfold sync, create_start_process_message, unreal_client_send_message,
      send_message, assign_status, on_listener_disconnect.
    unfold_m. destruct (sync_command (config w) cl) as [tool args].
    cbv beta iota. same_socket w. rewrite Hc.
    eexists. split; [reflexivity|]. cbn.
    rewrite <- !app_assoc, enqueued_app, signals_emitted_app.
    repeat split; apply app_nil_r.
  - intros Hs.
    unfold build, create_start_process_message, unreal_client_send_message,
      send_message, assign_status, on_listener_disconnect.
    unfold_m. rewrite bool_decide_eq_false_2 by exact Hs.
    destruct (build_command (config w)) as [tool args].
    cbv beta iota. same_socket w. rewrite Hc.
    eexists. split; [reflexivity|]. cbn.
    rewrite <- !app_assoc, enqueued_app, signals_emitted_app.
    repeat split; apply app_nil_r.
Qed.

Lemma commands_without_connection_witness :
  (exists w',
     sync (VInt 1234) Lab.disconnected_no_address = Ok tt w'
     /\ status w' = SYNCING
     /\ message_queue (unreal_client w') = []
     /\ signals_emitted (trace w') = [signal_device_client_disconnected])
  /\ (exists w',
     build Lab.disconnected_no_address = Ok tt w'
     /\ status w' = BUILDING
     /\ message_queue (unreal_client w') = []
     /\ signals_emitted (trace w') = [signal_device_client_disconnected]).
Proof.
  split.
  - destruct (proj1 (commands_without_connection Lab.disconnected_no_address
                       (VInt 1234) eq_refl))
      as (w' & E & Hs & _ & _ & Hc & _ & Hsig).
    exists w'. rewrite Hs, Hc, Hsig. repeat split. exact E.
  - destruct (proj2 (commands_without_connection Lab.disconnected_no_address
                       (VInt 1234) eq_refl))
      as (w' & E & Hs & _ & Hc & _ & Hsig); [discriminate|].
    exists w'. rewrite Hs, Hc, Hsig. repeat split. exact E.
Defined.

(* ===================================================================== *)
(** * [launch] and the life of the Unreal process *)
(* ===================================================================== *)

(** [generate_unreal_command_line_args] returns, and adds to the trace at
    most the line about the omitted roles. *)
Lemma generate_unreal_command_line_args_returns (ls : LaunchSettings)
  (map_name : string) (w : DeviceUnreal) :
  exists args w1,
    generate_unreal_command_line_args ls map_name w = Ok args w1
    /\ (w1 = w \/ exists text, w1 = set_trace (trace w ++ [Log ERROR text]) w).
Proof.
  unfold generate_unreal_command_line_args. unfold_m.
  destruct (unsupported_roles (setting_roles w) (possible_values w));
    eexists; eexists; (split; [reflexivity|]); [left|right; eexists];
    reflexivity.
Qed.

Lemma launch_connected (ls : LaunchSettings) (map_name : string)
  (w : DeviceUnreal) :
  is_connected (unreal_client w) = true ->
  exists args w',
    launch ls map_name w = Ok tt w'
    /\ _remote_programs_start_queue w'
       = <[uuid4 (platform w) (uuids_drawn w) := "unreal"]>
           (_remote_programs_start_queue w)
    /\ unreal_client w'
       = set_message_queue
           (StartProcessMessage (uuid4 (platform w) (uuids_drawn w))
              (unreal_exe_path ls) args
            :: message_queue (unreal_client w))
           (unreal_client w)
    /\ status w' = status w
    /\ tables_untouched w w'
    /\ name w' = name w
    /\ statuses_assigned (trace w') = statuses_assigned (trace w)
    /\ signals_emitted (trace w') = signals_emitted (trace w).
Proof.
  intros Hc.
  destruct (generate_unreal_command_line_args_returns ls map_name w)
    as (args & w1 & E & Hw1).
  exists args. unfold launch. unfold mbind at 1, M_bind at 1. rewrite E.
  unfold create_start_process_message, unreal_client_send_message,
    send_message. unfold_m.
  destruct Hw1 as [->|[text ->]]; cbv beta iota; same_socket w; rewrite Hc;
    (eexists; split; [reflexivity|]); cbn;
    rewrite <- ?app_assoc, ?statuses_assigned_app, ?signals_emitted_app;
    repeat split; apply app_nil_r.
Qed.

Lemma on_program_started_unreal (w : DeviceUnreal) (p i : UUID) :
  _remote_programs_start_queue w !! i = Some "unreal" ->
  exists w',
    on_program_started p i w = Ok tt w'
    /\ status w' = OPEN
    /\ statuses_assigned (trace w') = statuses_assigned (trace w) ++ [OPEN]
    /\ _running_remote_program_names w'
       = <[p := "unreal"]> (_running_remote_program_names w)
    /\ _running_remote_program_ids w'
       = <[("unreal" : string) := p]> (_running_remote_program_ids w)
    /\ _remote_programs_start_queue w'
       = delete i (_remote_programs_start_queue w)
    /\ unreal_client w' = unreal_client w
    /\ name w' = name w.
Proof.
  intros Hq. unfold on_program_started, pop_start_queue, assign_status.
  unfold_m. cbn. rewrite Hq. exec.
  eexists. split; [reflexivity|]. cbn.
  rewrite <- !app_assoc, statuses_assigned_app.
  repeat split; try apply app_nil_r.
Qed.

Lemma close_running (w : DeviceUnreal) (p : UUID) (force : bool) :
  _running_remote_program_ids w !! "unreal" = Some p ->
  is_connected (unreal_client w) = true ->
  exists w',
    close force w = Ok tt w'
    /\ unreal_client w'
       = set_message_queue
           (KillProcessMessage p :: message_queue (unreal_client w))
           (unreal_client w)
    /\ status w' = status w
    /\ statuses_assigned (trace w') = statuses_assigned (trace w)
    /\ tables_untouched w w'
    /\ _remote_programs_start_queue w' = _remote_programs_start_queue w
    /\ name w' = name w.
Proof.
  intros Hi Hc. unfold close, unreal_client_send_message, send_message.
  unfold_m. rewrite Hi. cbv beta iota. rewrite Hc.
  eexists. split; [reflexivity|]. cbn.
  rewrite statuses_assigned_app. repeat split; try apply app_nil_r.
Qed.

Lemma on_program_ended_unreal (w : DeviceUnreal) (p q : UUID)
  (r o : value) :
  _running_remote_program_names w !! p = Some "unreal" ->
  _running_remote_program_ids w !! "unreal" = Some q ->
  exists w',
    on_program_ended p r o w = Ok tt w'
    /\ status w' = CLOSED
    /\ statuses_assigned (trace w') = statuses_assigned (trace w) ++ [CLOSED]
    /\ _running_remote_program_names w'
       = delete p (_running_remote_program_names w)
    /\ _running_remote_program_ids w'
       = delete ("unreal" : string) (_running_remote_program_ids w)
    /\ _remote_programs_start_queue w' = _remote_programs_start_queue w
    /\ unreal_client w' = unreal_client w.
Proof.
  intros Hn Hi. rewrite (on_program_ended_registered w p q _ r o Hn Hi).
  unfold ended_branch, assign_status. unfold_m. exec.
  eexists. split; [reflexivity|]. cbn.
  rewrite <- !app_assoc, statuses_assigned_app.
  repeat split; try apply app_nil_r.
Qed.

(** X19.  The life of the Unreal process on a connected device: [launch]
    records the fresh message id under the name "unreal" and queues the
    start command; the confirmation of the start sets the device to
    [OPEN]; [close] queues the kill command for the program id that the
    confirmation brought and leaves the status alone; the end of the
    program sets the device to [CLOSED].  All four return, the two status
    assignments are the only ones, and the start queue and the two tables
    hold in the end what they held before without the ids used. *)
Theorem launch_lifecycle (ls : LaunchSettings) (map_name : string)
  (p : UUID) (force : bool) (r o : value) (w : DeviceUnreal) :
  is_connected (unreal_client w) = true ->
  let mid := uuid4 (platform w) (uuids_drawn w) in
  exists args w',
    (launch ls map_name ;; on_program_started p mid ;; close force ;;
     on_program_ended p r o) w = Ok tt w'
    /\ status w' = CLOSED
    /\ statuses_assigned (trace w')
       = statuses_assigned (trace w) ++ [OPEN; CLOSED]
    /\ message_queue (unreal_client w')
       = KillProcessMessage p
         :: StartProcessMessage mid (unreal_exe_path ls) args
         :: message_queue (unreal_client w)
    /\ _remote_programs_start_queue w'
       = delete mid (_remote_programs_start_queue w)
    /\ _running_remote_program_names w'
       = delete p (_running_remote_program_names w)
    /\ _running_remote_program_ids w'
       = delete ("unreal" : string) (_running_remote_program_ids w).
Proof.
  intros Hc mid.
  destruct (launch_connected ls map_name w Hc)
    as (args & w1 & E1 & Q1 & C1 & S1 & [N1 I1] & _ & T1 & _).
  fold mid in Q1, C1.
  destruct (on_program_started_unreal w1 p mid)
    as (w2 & E2 & S2 & T2 & N2 & I2 & Q2 & C2 & _).
  { rewrite Q1. apply lookup_insert_eq. }
  destruct (close_running w2 p force)
    as (w3 & E3 & C3 & S3 & T3 & [N3 I3] & Q3 & _).
  { rewrite I2. apply lookup_insert_eq. }
  { rewrite C2, C1. exact Hc. }
  destruct (on_program_ended_unreal w3 p p r o)
    as (w4 & E4 & S4 & T4 & N4 & I4 & Q4 & C4).
  { rewrite N3, N2. apply lookup_insert_eq. }
  { rewrite I3, I2. apply lookup_insert_eq. }
  exists args, w4. split.
  { unfold mbind, M_bind. rewrite E1, E2, E3. exact E4. }
  split; [exact S4|]. split.
  { rewrite T4, T3, T2, T1, <- app_assoc. reflexivity. }
  split.
  { rewrite C4, C3, C2, C1. reflexivity. }
  split.
  { rewrite Q4, Q3, Q2, Q1. apply delete_insert_eq. }
  split.
  { rewrite N4, N3, N2, N1. apply delete_insert_eq. }
  rewrite I4, I3, I2, I1. apply delete_insert_eq.
Qed.

Lemma launch_lifecycle_witness :
  let ls := mkLaunchSettings "-log" true "stage" "take1" 7
              "D:/Stage/Stage.uproject" "D:/UE/UE4Editor.exe" in
  exists args w',
    (launch ls "Main" ;; on_program_started 1%N 100%N ;; close false ;;
     on_program_ended 1%N (VInt 0) (VStr "")) Lab.lab_device = Ok tt w'
    /\ status w' = CLOSED
    /\ statuses_assigned (trace w') = [OPEN; CLOSED]
    /\ message_queue (unreal_client w')
       = [KillProcessMessage 1;
          StartProcessMessage 100 "D:/UE/UE4Editor.exe" args]
    /\ _remote_programs_start_queue w' = ∅
    /\ _running_remote_program_names w' = ∅
    /\ _running_remote_program_ids w' = ∅.
Proof.
  intros ls.
  apply (launch_lifecycle ls "Main" 1%N false (VInt 0) (VStr "")
           Lab.lab_device).
  reflexivity.
Defined.

(* ===================================================================== *)
(** * The end of a build *)
(* ===================================================================== *)

Lemma log_output_not_str (o : value) (w : DeviceUnreal) :
  is_str o = false -> log_output o w = Raise Py.AttributeError w.
Proof. intros H. destruct o; try discriminate H; reflexivity. Qed.

(** X20.  When the program registered as "build" ends, the device is set
    to [CLOSED] and its changelist is assigned again, after the line about
    success for return code 0 and after the line about failure and the
    lines of the output otherwise.  The output is only looked at after a
    failure: if it is not a string then, the handler raises
    [AttributeError] before the status is assigned, and the device stays as
    it was. *)
Theorem build_ended (w : DeviceUnreal) (p q : UUID) (r o : value) :
  _running_remote_program_names w !! p = Some "build" ->
  _running_remote_program_ids w !! "build" = Some q ->
  (py_eq r (VInt 0) = true ->
     exists w',
       on_program_ended p r o w = Ok tt w'
       /\ status w' = CLOSED
       /\ trace w'
          = trace w
              ++ [ended_entry w p r;
                  Log INFO [Fv (VStr (name w));
                            Lit ": Project was built successfully!"];
                  StatusAssigned CLOSED; ChangelistAssigned (changelist w)])
  /\ (forall out,
        py_eq r (VInt 0) = false -> o = VStr out ->
        exists w',
          on_program_ended p r o w = Ok tt w'
          /\ status w' = CLOSED
          /\ trace w'
             = trace w
                 ++ [ended_entry w p r;
                     Log ERROR [Fv (VStr (name w));
                                Lit ": Project was not built successfully!"]]
                 ++ output_entries w out
                 ++ [StatusAssigned CLOSED; ChangelistAssigned (changelist w)])
  /\ (py_eq r (VInt 0) = false -> is_str o = false ->
      exists w',
        on_program_ended p r o w = Raise Py.AttributeError w'
        /\ status w' = status w
        /\ statuses_assigned (trace w') = statuses_assigned (trace w)).
Proof.
  intros Hn Hi. rewrite (on_program_ended_registered w p q _ r o Hn Hi).
  unfold ended_branch, assign_status, assign_changelist.
  split; [|split].
  - intros Hr. unfold_m. exec. rewrite Hr. exec.
    eexists. split; [reflexivity|]. cbn.
    rewrite <- !app_assoc. repeat split.
  - intros out Hr ->. unfold_m. exec. rewrite Hr. exec.
    rewrite log_output_lines. exec.
    eexists. split; [reflexivity|]. cbn.
    rewrite <- !app_assoc. repeat split.
  - intros Hr Ho. unfold_m. exec. rewrite Hr. exec.
    rewrite (log_output_not_str o _ Ho). exec.
    eexists. split; [reflexivity|]. cbn.
    rewrite <- !app_assoc, statuses_assigned_app. cbn.
    split; [reflexivity|apply app_nil_r].
Qed.

(** The build runs as program 1 and ends with return code 0, with return
    code 2 and two lines of output, and with return code 2 and no
    output. *)
Lemma build_ended_witness :
  let w := world_of ((build ;; on_program_started 1%N 100%N)
                       Lab.lab_device) in
  (exists w',
     on_program_ended 1%N (VInt 0) VNone w = Ok tt w' /\ status w' = CLOSED)
  /\ (exists w',
     on_program_ended 1%N (VInt 2) (VStr "error C2065") w = Ok tt w'
     /\ status w' = CLOSED)
  /\ (exists w',
     on_program_ended 1%N (VInt 2) VNone w = Raise Py.AttributeError w'
     /\ status w' = BUILDING).
Proof.
  intros w.
  split; [|split].
  - destruct (proj1 (build_ended w 1%N 1%N (VInt 0) VNone
                       eq_refl eq_refl))
      as (w' & E & Hs & _); [reflexivity|].
    exists w'. split; assumption.
  - destruct (proj1 (proj2 (build_ended w 1%N 1%N (VInt 2)
                              (VStr "error C2065") eq_refl eq_refl))
                    "error C2065")
      as (w' & E & Hs & _); [reflexivity|reflexivity|].
    exists w'. split; assumption.
  - destruct (proj2 (proj2 (build_ended w 1%N 1%N (VInt 2) VNone
                              eq_refl eq_refl)))
      as (w' & E & Hs & _); [reflexivity|reflexivity|].
    exists w'. split; [exact E|]. rewrite Hs. reflexivity.
Defined.

(* ===================================================================== *)
(** * Reconnecting *)
(* ===================================================================== *)

(** X21.  [disconnect] puts its notice behind the messages that are still
    queued, the closing pass takes one message at most off the queue, and
    neither [disconnect] nor [connect] empties the queue.  So when a
    message was waiting at the call of [disconnect], the notice of the old
    connection is still queued, behind the remaining messages, once a later
    [connect] has succeeded: the worker of the new connection will send it
    to the listener. *)
Theorem reconnect_keeps_stale_notice (env : IterEnv) (envs : list IterEnv)
  (buffer : string) (writable : bool) (cenv : ConnectEnv)
  (q : list wire) (m : wire) (w : DeviceUnreal) :
  is_connected (unreal_client w) = true ->
  truthy (ip_address (unreal_client w)) = true ->
  message_queue (unreal_client w) = q ++ [m] ->
  select_result env = inr (false, writable) ->
  send_result env = None ->
  os_socket_ok cenv && os_connect_ok cenv = true ->
  exists w' new,
    (disconnect device_delegates (env :: envs) (Some buffer) ;;
     connect cenv None) w = Ok true w'
    /\ is_connected (unreal_client w') = true
    /\ close_socket (unreal_client w') = false
    /\ message_queue (unreal_client w') = new ++ DisconnectMessage :: q.
Proof.
  intros Hc Hip Hq Hsel Hsend Hos.
  destruct (disconnect_connected env envs buffer writable w Hc Hsel Hsend)
    as (w1 & new & E1 & _ & _ & Hip1 & Hq1 & _).
  rewrite Hq, app_comm_cons, removelast_last in Hq1.
  rewrite <- Hip1 in Hip.
  unfold mbind, M_bind. rewrite E1.
  rewrite connect_with_address by (rewrite Hip; apply orb_true_r).
  cbn [truthy].
  destruct (connect_attempt_success_state cenv w1 Hos) as (w2 & E2 & Hc2).
  destruct (server_address_known _ Hip) as [a Ha].
  exists w2, new. split; [exact E2|]. rewrite Hc2. cbn.
  unfold is_connected. cbn. rewrite Ha. repeat split. exact Hq1.
Qed.

(** A kill command is waiting and the socket is blocked when [disconnect]
    is called; after the reconnect the notice is first in line. *)
Lemma reconnect_keeps_stale_notice_witness :
  let w := world_of (unreal_client_send_message (KillProcessMessage 1)
                       Lab.lab_device) in
  exists w' new,
    (disconnect device_delegates [Lab.blocked_pass] (Some "") ;;
     connect Lab.accepted None) w = Ok true w'
    /\ is_connected (unreal_client w') = true
    /\ close_socket (unreal_client w') = false
    /\ message_queue (unreal_client w') = new ++ [DisconnectMessage].
Proof.
  intros w.
  apply (reconnect_keeps_stale_notice Lab.blocked_pass [] "" false
           Lab.accepted [] (KillProcessMessage 1) w); reflexivity.
Defined.

(* ===================================================================== *)
(** * The roles on the command line *)
(* ===================================================================== *)

Lemma unsupported_roles_spec (selected possible : list string)
  (role : string) :
  role ∈ unsupported_roles selected possible
  <-> role ∈ selected /\ role ∉ possible.
Proof.
  unfold unsupported_roles.
  rewrite !list_elem_of_In, List.filter_In, negb_true_iff,
    bool_decide_eq_false, <- !list_elem_of_In.
  reflexivity.
Qed.

Lemma filter_complement {A : Type} (f : A -> bool) (l : list A) :
  Permutation (List.filter f l ++ List.filter (fun x => negb (f x)) l) l.
Proof.
  induction l as [|x l IH]; [constructor|]. cbn.
  destruct (f x); cbn.
  - constructor. exact IH.
  - rewrite <- Permutation_middle. constructor. exact IH.
Qed.

Lemma supported_roles_filter (selected possible : list string) :
  supported_roles selected possible
    = List.filter (fun role => bool_decide (role ∈ possible)) selected.
Proof.
  unfold supported_roles. apply List.filter_ext_in. intros role Hin.
  apply list_elem_of_In in Hin.
  destruct (bool_decide (role ∈ possible)) eqn:Hp.
  - apply negb_true_iff, bool_decide_eq_false.
    rewrite unsupported_roles_spec. apply bool_decide_eq_true in Hp.
    tauto.
  - apply negb_false_iff, bool_decide_eq_true.
    rewrite unsupported_roles_spec. apply bool_decide_eq_false in Hp.
    tauto.
Qed.

(** X22.  The roles that [generate_unreal_command_line_args] passes to
    Unreal are computed as the selected roles that are not among the
    unsupported ones; they are the selected roles that are possible
    values, in the order of the selection, and the unsupported ones are
    the selected roles that are not.  Together the two lists are the
    selection: every selected role is either passed on or reported. *)
Theorem roles_on_command_line (selected possible : list string) :
  supported_roles selected possible
    = List.filter (fun role => bool_decide (role ∈ possible)) selected
  /\ (forall role,
        role ∈ supported_roles selected possible
        <-> role ∈ selected /\ role ∈ possible)
  /\ (forall role,
        role ∈ unsupported_roles selected possible
        <-> role ∈ selected /\ role ∉ possible)
  /\ Permutation
       (supported_roles selected possible
          ++ unsupported_roles selected possible)
       selected.
Proof.
  pose proof (supported_roles_filter selected possible) as E.
  split; [exact E|]. split; [|split].
  - intros role.
    rewrite E, !list_elem_of_In, List.filter_In, bool_decide_eq_true,
      <- !list_elem_of_In.
    reflexivity.
  - apply unsupported_roles_spec.
  - rewrite E. unfold unsupported_roles. apply filter_complement.
Qed.

(* ===================================================================== *)
(** * The roles file *)
(* ===================================================================== *)

(** X23.  [on_file_received] ignores a file whose path does not end with
    the name of the roles file, and raises [AttributeError] for a path
    that is not a string.  For the roles file it replaces the possible
    roles by the tags parsed from the decoded content and changes nothing
    else but the trace; the roles that a later launch passes to Unreal are
    then the selected roles found among these tags.  When the content
    cannot be decoded or parsed, the exception leaves the handler and the
    possible roles stay what they were. *)
Theorem on_file_received_effects (w : DeviceUnreal)
  (source_path content : value) :
  (is_str source_path = false ->
     on_file_received source_path content w = Raise Py.AttributeError w)
  /\ (forall path,
        source_path = VStr path ->
        Py.endswith path (roles_filename (config w)) = false ->
        on_file_received source_path content w = Ok tt w)
  /\ (forall path,
        source_path = VStr path ->
        Py.endswith path (roles_filename (config w)) = true ->
        (forall e,
           b64decode (platform w) content = inl e ->
           on_file_received source_path content w = Raise e w)
        /\ (forall text e,
              b64decode (platform w) content = inr text ->
              TagFile.parse_unreal_tag_file (Py.splitlines text) = inl e ->
              exists w',
                on_file_received source_path content w = Raise e w'
                /\ possible_values w' = possible_values w)
        /\ (forall text tags,
              b64decode (platform w) content = inr text ->
              TagFile.parse_unreal_tag_file (Py.splitlines text) = inr tags ->
              exists w',
                on_file_received source_path content w = Ok tt w'
                /\ possible_values w' = tags
                /\ set_trace (trace w) (set_possible_values (possible_values w) w')
                   = w
                /\ supported_roles (setting_roles w') (possible_values w')
                   = List.filter (fun role => bool_decide (role ∈ tags))
                       (setting_roles w))).
Proof.
  split; [|split].
  - intros H. unfold on_file_received. unfold_m.
    destruct source_path; try discriminate H; reflexivity.
  - intros path -> H. unfold on_file_received. unfold_m. rewrite H.
    reflexivity.
  - intros path -> H. unfold on_file_received. split; [|split].
    + intros e He. unfold_m. rewrite H, He. reflexivity.
    + intros text e Ht He.
      cbv beta iota delta [mbind M_bind mret M_ret gets lift].
      rewrite H, Ht. cbv beta iota.
      rewrite for_each_log, He. eexists. split; reflexivity.
    + intros text tags Ht Hp.
      cbv beta iota delta [mbind M_bind mret M_ret gets lift].
      rewrite H, Ht. cbv beta iota.
      rewrite for_each_log, Hp. unfold_m.
      destruct (filter _ _); cbn; (eexists; split; [reflexivity|]); cbn;
        (split; [reflexivity|]);
        (split; [destruct w; reflexivity|apply supported_roles_filter]).
Qed.

Lemma on_file_received_effects_witness :
  on_file_received (VStr "D:/Stage/Saved/Logs/Stage.log") (VStr "")
    RolesLab.roles_device = Ok tt RolesLab.roles_device
  /\ (exists w',
        on_file_received (VStr "D:/Stage/Config/Tags/VPRoles.ini")
          (VStr RolesLab.broken_roles_file) RolesLab.roles_device
          = Raise Py.IndexError w'
        /\ possible_values w' = [])
  /\ (exists w',
        on_file_received (VStr "D:/Stage/Config/Tags/VPRoles.ini")
          (VStr RolesLab.roles_file) RolesLab.roles_device = Ok tt w'
        /\ possible_values w' = ["Stage.Main"]
        /\ supported_roles (setting_roles w') (possible_values w')
           = ["Stage.Main"]).
Proof.
  split; [|split].
  - apply (proj1 (proj2 (on_file_received_effects RolesLab.roles_device
                           (VStr "D:/Stage/Saved/Logs/Stage.log") (VStr "")))
                 "D:/Stage/Saved/Logs/Stage.log"); reflexivity.
  - destruct (proj1 (proj2 (proj2 (proj2 (on_file_received_effects
                 RolesLab.roles_device
                 (VStr "D:/Stage/Config/Tags/VPRoles.ini")
                 (VStr RolesLab.broken_roles_file)))
               "D:/Stage/Config/Tags/VPRoles.ini" eq_refl eq_refl))
             RolesLab.broken_roles_file Py.IndexError)
      as (w' & E & Hp); [reflexivity|reflexivity|].
    exists w'. split; assumption.
  - destruct (proj2 (proj2 (proj2 (proj2 (on_file_received_effects
                 RolesLab.roles_device
                 (VStr "D:/Stage/Config/Tags/VPRoles.ini")
                 (VStr RolesLab.roles_file)))
               "D:/Stage/Config/Tags/VPRoles.ini" eq_refl eq_refl))
             RolesLab.roles_file ["Stage.Main"])
      as (w' & E & Hp & _ & Hs); [reflexivity|reflexivity|].
    exists w'. split; [exact E|]. split; [exact Hp|]. rewrite Hs.
    reflexivity.
Defined.

(* ===================================================================== *)
(** * The lines of the roles file that are logged *)
(* ===================================================================== *)

Section TagFileLog.

Import TagFile TagFileSpec.

Lemma lines_logged_parsable (content : list string) :
  forallb parsable content = true -> lines_logged content = content.
Proof.
  induction content as [|line rest IH]; [reflexivity|].
  cbn [forallb lines_logged]. intros H. apply andb_prop in H as [Hl Hr].
  fold (is_tag_line line). unfold parsable in Hl.
  destruct (is_tag_line line); cbn in Hl.
  - rewrite tag_of_line_field.
    destruct (tag_field_defined line Hl) as [t ->]. rewrite (IH Hr).
    reflexivity.
  - rewrite (IH Hr). reflexivity.
Qed.

(** X24.  [parse_unreal_tag_file] logs each line before it looks at it.
    When every role line of the file has a tag field, every line is logged;
    otherwise the lines are logged up to and including the first role line
    without a tag field, at which the parser raises [IndexError], and no
    line after it is logged. *)
Theorem lines_logged_spec (content : list string) :
  (forallb parsable content = true -> lines_logged content = content)
  /\ (forall pre bad post,
        content = pre ++ bad :: post ->
        forallb parsable pre = true ->
        parsable bad = false ->
        lines_logged content = pre ++ [bad]
        /\ parse_unreal_tag_file content = inl Py.IndexError).
Proof.
  split; [apply lines_logged_parsable|].
  intros pre bad post -> Hpre Hbad.
  unfold parsable in Hbad. apply orb_false_elim in Hbad as [Ht Hc].
  apply negb_false_iff in Ht. split.
  - induction pre as [|line pre IH].
    + cbn [app lines_logged]. fold (is_tag_line bad).
      rewrite Ht, tag_of_line_field, (tag_field_undefined bad Hc).
      reflexivity.
    + cbn [forallb] in Hpre. apply andb_prop in Hpre as [Hl Hr].
      cbn [app lines_logged]. fold (is_tag_line line). unfold parsable in Hl.
      destruct (is_tag_line line); cbn in Hl.
      * rewrite tag_of_line_field.
        destruct (tag_field_defined line Hl) as [t ->]. rewrite (IH Hr).
        reflexivity.
      * rewrite (IH Hr). reflexivity.
  - apply parse_loop_raises. exists bad. repeat split; try assumption.
    apply in_elt.
Qed.

Lemma lines_logged_spec_witness :
  lines_logged ["[Tags]"; "GameplayTagList=+(Tag=A)"] =
    ["[Tags]"; "GameplayTagList=+(Tag=A)"]
  /\ lines_logged ["[Tags]"; "GameplayTagList=+(DevComment=none)";
                   "GameplayTagList=+(Tag=A)"]
     = ["[Tags]"] ++ ["GameplayTagList=+(DevComment=none)"]
  /\ parse_unreal_tag_file
       ["[Tags]"; "GameplayTagList=+(DevComment=none)";
        "GameplayTagList=+(Tag=A)"] = inl Py.IndexError.
Proof.
  split.
  - apply (proj1 (lines_logged_spec
                    ["[Tags]"; "GameplayTagList=+(Tag=A)"])).
    reflexivity.
  - apply (proj2 (lines_logged_spec
                    ["[Tags]"; "GameplayTagList=+(DevComment=none)";
                     "GameplayTagList=+(Tag=A)"])
                 ["[Tags]"] "GameplayTagList=+(DevComment=none)"
                 ["GameplayTagList=+(Tag=A)"]); reflexivity.
Defined.

End TagFileLog.

(* ===================================================================== *)
(** * Data that arrives in pieces *)
(* ===================================================================== *)

(** X25.  The buffer carries an unfinished frame from one call of
    [process_received_data] to the next, so the way the stream is cut into
    pieces by [recv] does not matter: processing two pieces one after the
    other routes the same messages, ends in the same state and leaves the
    same buffer as processing them in one piece, and raises where that
    raises. *)
Theorem process_received_data_chunks (D : Delegates) (d1 d2 buffer : string)
  (w : DeviceUnreal) :
  process_received_data D buffer (d1 +:+ d2) w
    = (b ← process_received_data D buffer d1;
       process_received_data D b d2) w.
Proof.
  revert buffer w. induction d1 as [|symbol rest IH]; intros buffer w.
  - rewrite append_empty_l. reflexivity.
  - rewrite append_cons. cbn [process_received_data].
    destruct (is_terminator symbol); [|apply IH].
    unfold mbind, M_bind, gets, lift, mret, M_ret.
    destruct (decode_message (platform w) buffer) as [e|m]; [reflexivity|].
    cbv beta iota.
    match goal with
    | |- context [try_except ?b ?h w] =>
        destruct (try_except b h w) as [u w1|e w1]; [|reflexivity]
    end.
    apply IH.
Qed.

(* ===================================================================== *)
(** * Assigning to [is_connected] *)
(* ===================================================================== *)

(** X26.  Assigning to [is_connected] the value it has does nothing.
    Assigning [True] to a client that is not connected calls [connect] and
    drops its answer.  When [connect] returns, the assignment returns
    normally, also when no address is known or the operating system
    refuses, and [is_connected] is true afterwards only if the attempt
    succeeded.  When [connect] raises, which it does when [socket.connect]
    raises an exception that is no [OSError], the assignment raises that
    exception and [is_connected] is false afterwards.  Assigning [False]
    to a connected client is [disconnect]. *)
Theorem set_is_connected_effects (D : Delegates) (cenv : ConnectEnv)
  (envs : list IterEnv) (worker : option string) (value : bool)
  (w : DeviceUnreal) :
  let escapes :=
    truthy (ip_address (unreal_client w)) && connect_escapes cenv in
  (value = is_connected (unreal_client w) ->
     set_is_connected D cenv envs worker value w = Ok tt w)
  /\ (is_connected (unreal_client w) = false -> escapes = false ->
      exists w',
        set_is_connected D cenv envs worker true w = Ok tt w'
        /\ is_connected (unreal_client w')
           = truthy (ip_address (unreal_client w))
             && os_socket_ok cenv && os_connect_ok cenv)
  /\ (is_connected (unreal_client w) = false -> escapes = true ->
      exists w',
        set_is_connected D cenv envs worker true w
          = Raise (connect_error cenv) w'
        /\ is_connected (unreal_client w') = false)
  /\ (is_connected (unreal_client w) = true ->
      set_is_connected D cenv envs worker false w
        = disconnect D envs worker w).
Proof.
  intros escapes. subst escapes. split; [|split; [|split]].
  - intros ->. unfold set_is_connected. unfold_m.
    rewrite Bool.eqb_reflx. reflexivity.
  - intros Hc Hesc. unfold set_is_connected. unfold_m. rewrite Hc.
    change (Bool.eqb true false) with false. cbv beta iota.
    destruct (truthy (ip_address (unreal_client w))) eqn:Hip.
    + rewrite connect_with_address by (rewrite Hip; reflexivity).
      change (truthy None) with false. cbv beta iota. cbn [andb] in *.
      destruct (os_socket_ok cenv && os_connect_ok cenv) eqn:Hos.
      * destruct (connect_attempt_success_state cenv w Hos)
          as (w1 & E & Hc1).
        destruct (server_address_known _ Hip) as [a Ha].
        rewrite E. exists w1. split; [reflexivity|].
        rewrite Hc1. unfold is_connected. cbn. rewrite Ha. reflexivity.
      * assert (Hr : os_refuses cenv = true).
        { unfold os_refuses, connect_escapes in *.
          destruct (os_socket_ok cenv), (os_connect_ok cenv),
            (is_OSError (connect_error cenv)); try reflexivity;
            discriminate. }
        destruct (connect_attempt_fails cenv w Hr) as (w1 & E & Hc1 & _).
        rewrite E. exists w1. split; [reflexivity|].
        rewrite Hc1. reflexivity.
    + rewrite connect_no_address by first [reflexivity | exact Hip].
      eexists. split; [reflexivity|]. exact Hc.
  - intros Hc Hesc. apply andb_prop in Hesc as [Hip Hesc].
    unfold set_is_connected. unfold_m. rewrite Hc.
    change (Bool.eqb true false) with false. cbv beta iota.
    rewrite connect_with_address by (rewrite Hip; reflexivity).
    change (truthy None) with false. cbv beta iota.
    destruct (connect_attempt_escapes cenv w Hesc) as (w1 & E & Hc1 & _).
    rewrite E. exists w1. split; [reflexivity|].
    rewrite Hc1. reflexivity.
  - intros Hc. unfold set_is_connected. unfold_m. rewrite Hc. reflexivity.
Qed.

(** The assignment of [True] to a client without an address returns and
    leaves it disconnected; to a client whose port is out of range it
    raises. *)
Lemma set_is_connected_effects_witness :
  set_is_connected device_delegates Lab.accepted [] None true Lab.lab_device
    = Ok tt Lab.lab_device
  /\ (exists w',
        set_is_connected device_delegates Lab.accepted [] None true
          Lab.disconnected_no_address = Ok tt w'
        /\ is_connected (unreal_client w') = false)
  /\ (exists w',
        set_is_connected device_delegates Lab.bad_port [] None true
          (upd_client (set_socket None) Lab.lab_device)
          = Raise Py.OverflowError w'
        /\ is_connected (unreal_client w') = false)
  /\ set_is_connected device_delegates Lab.accepted [Lab.writable_pass]
       (Some "") false Lab.lab_device
     = disconnect device_delegates [Lab.writable_pass] (Some "")
         Lab.lab_device.
Proof.
  split; [|split; [|split]].
  - apply (proj1 (set_is_connected_effects device_delegates Lab.accepted
                    [] None true Lab.lab_device)).
    reflexivity.
  - apply (proj1 (proj2 (set_is_connected_effects device_delegates
                           Lab.accepted [] None true
                           Lab.disconnected_no_address)));
      reflexivity.
  - apply (proj1 (proj2 (proj2 (set_is_connected_effects device_delegates
                                  Lab.bad_port [] None true
                                  (upd_client (set_socket None)
                                     Lab.lab_device)))));
      reflexivity.
  - apply (proj2 (proj2 (proj2 (set_is_connected_effects device_delegates
                                  Lab.accepted [Lab.writable_pass]
                                  (Some "") false Lab.lab_device)))).
    reflexivity.
Defined.

(* ===================================================================== *)
(** * Two syncs at once *)
(* ===================================================================== *)

Lemma sync_fields (w : DeviceUnreal) (cl : value) :
  exists w',
    sync cl w = Ok tt w'
    /\ inflight_changelist w' = cl
    /\ _remote_programs_start_queue w'
       = <[uuid4 (platform w) (uuids_drawn w) := "sync"]>
           (_remote_programs_start_queue w)
    /\ uuids_drawn w' = S (uuids_drawn w)
    /\ platform w' = platform w
    /\ tables_untouched w w'
    /\ changelist w' = changelist w
    /\ start_build_after_sync w' = start_build_after_sync w.
Proof.
  unfold sync, create_start_process_message, unreal_client_send_message,
    send_message, assign_status, on_listener_disconnect.
  unfold_m. destruct (sync_command (config w) cl) as [tool args].
  cbv beta iota.
  match goal with
  | |- context [is_connected ?c] => destruct (is_connected c)
  end; cbn; eexists; repeat split.
Qed.

Lemma on_program_started_fields (w : DeviceUnreal) (p i : UUID)
  (n : string) :
  _remote_programs_start_queue w !! i = Some n ->
  exists w',
    on_program_started p i w = Ok tt w'
    /\ _running_remote_program_names w'
       = <[p := n]> (_running_remote_program_names w)
    /\ _running_remote_program_ids w'
       = <[n := p]> (_running_remote_program_ids w)
    /\ _remote_programs_start_queue w'
       = delete i (_remote_programs_start_queue w)
    /\ inflight_changelist w' = inflight_changelist w
    /\ changelist w' = changelist w
    /\ start_build_after_sync w' = start_build_after_sync w.
Proof.
  intros Hq. unfold on_program_started, pop_start_queue, assign_status.
  unfold_m. cbn. rewrite Hq. cbn.
  destruct (bool_decide (n = "unreal")); cbn; eexists; repeat split.
Qed.

Lemma sync_ended_fields (w : DeviceUnreal) (p q : UUID) (o : value) :
  _running_remote_program_names w !! p = Some "sync" ->
  _running_remote_program_ids w !! "sync" = Some q ->
  start_build_after_sync w = false ->
  exists w',
    on_program_ended p (VInt 0) o w = Ok tt w'
    /\ changelist w' = inflight_changelist w
    /\ inflight_changelist w' = VInt 0
    /\ status w' = CLOSED
    /\ _remote_programs_start_queue w' = _remote_programs_start_queue w
    /\ _running_remote_program_names w'
       = delete p (_running_remote_program_names w)
    /\ _running_remote_program_ids w'
       = delete ("sync" : string) (_running_remote_program_ids w)
    /\ start_build_after_sync w' = false.
Proof.
  intros Hn Hi Hb. rewrite (on_program_ended_registered w p q _ _ o Hn Hi).
  unfold ended_branch, assign_status, assign_changelist. unfold_m. exec.
  rewrite Hb. eexists. split; [reflexivity|]. cbn. repeat split.
  exact Hb.
Qed.

(** X27.  There is one slot for the changelist in flight, and every
    [sync] overwrites it.  When a second sync is asked for before the
    first has ended, the successful end of the first makes the changelist
    of the second the current one and resets the slot; the successful end
    of the second, if it starts after that, then makes the changelist 0. *)
Theorem overlapping_syncs (w : DeviceUnreal) (cl1 cl2 : value)
  (p1 p2 : UUID) (o1 o2 : value) :
  let mid1 := uuid4 (platform w) (uuids_drawn w) in
  let mid2 := uuid4 (platform w) (S (uuids_drawn w)) in
  mid1 <> mid2 ->
  start_build_after_sync w = false ->
  exists w1 w2,
    (sync cl1 ;; sync cl2 ;; on_program_started p1 mid1 ;;
     on_program_ended p1 (VInt 0) o1) w = Ok tt w1
    /\ changelist w1 = cl2
    /\ (on_program_started p2 mid2 ;; on_program_ended p2 (VInt 0) o2) w1
       = Ok tt w2
    /\ changelist w2 = VInt 0
    /\ status w2 = CLOSED.
Proof.
  intros mid1 mid2 Hne Hb.
  destruct (sync_fields w cl1)
    as (wa & Ea & _ & Qa & Ua & Pa & _ & _ & Ba).
  destruct (sync_fields wa cl2)
    as (wb & Eb & Ib & Qb & _ & _ & _ & _ & Bb).
  rewrite Pa, Ua in Qb. fold mid1 in Qa. fold mid2 in Qb.
  destruct (on_program_started_fields wb p1 mid1 "sync")
    as (wc & Ec & Nc & Ic & Qc & Fc & _ & Bc).
  { rewrite Qb, lookup_insert_ne by (intros E; apply Hne; symmetry; exact E).
    rewrite Qa. apply lookup_insert_eq. }
  destruct (sync_ended_fields wc p1 p1 o1)
    as (wd & Ed & Cd & Id & _ & Qd & Nd & Idd & Bd).
  { rewrite Nc. apply lookup_insert_eq. }
  { rewrite Ic. apply lookup_insert_eq. }
  { rewrite Bc, Bb, Ba. exact Hb. }
  destruct (on_program_started_fields wd p2 mid2 "sync")
    as (we & Ee & Ne & Ie & _ & Fe & _ & Be).
  { rewrite Qd, Qc, lookup_delete_ne by exact Hne.
    rewrite Qb. apply lookup_insert_eq. }
  destruct (sync_ended_fields we p2 p2 o2)
    as (wf & Ef & Cf & _ & Sf & _).
  { rewrite Ne. apply lookup_insert_eq. }
  { rewrite Ie. apply lookup_insert_eq. }
  { rewrite Be. exact Bd. }
  exists wd, wf. split.
  { unfold mbind, M_bind. rewrite Ea, Eb, Ec. exact Ed. }
  split; [rewrite Cd, Fc; exact Ib|]. split.
  { unfold mbind, M_bind. rewrite Ee. exact Ef. }
  split; [rewrite Cf, Fe; exact Id|exact Sf].
Qed.

Lemma overlapping_syncs_witness :
  exists w1 w2,
    (sync (VInt 1234) ;; sync (VInt 1240) ;; on_program_started 1%N 100%N ;;
     on_program_ended 1%N (VInt 0) (VStr "")) Lab.lab_device = Ok tt w1
    /\ changelist w1 = VInt 1240
    /\ (on_program_started 2%N 101%N ;;
        on_program_ended 2%N (VInt 0) (VStr "")) w1 = Ok tt w2
    /\ changelist w2 = VInt 0
    /\ status w2 = CLOSED.
Proof.
  apply (overlapping_syncs Lab.lab_device (VInt 1234) (VInt 1240)
           1%N 2%N (VStr "") (VStr "")); [discriminate|reflexivity].
Defined.

(* ===================================================================== *)
(** * The requests made after connecting *)
(* ===================================================================== *)

(** A pass in which nothing is read and the socket is writable sends the
    oldest queued message. *)
Lemma writable_pass_sends (D : Delegates) (env : IterEnv) (buffer : string)
  (q : list wire) (m : wire) (w : DeviceUnreal) :
  is_connected (unreal_client w) = true ->
  close_socket (unreal_client w) = false ->
  message_queue (unreal_client w) = q ++ [m] ->
  select_result env = inr (false, true) ->
  send_result env = None ->
  exists w' new,
    loop_body D env buffer w = Ok (Continue, buffer) w'
    /\ is_connected (unreal_client w') = true
    /\ close_socket (unreal_client w') = false
    /\ message_queue (unreal_client w') = new ++ q
    /\ transmitted (trace w') = transmitted (trace w) ++ [m]
    /\ _remote_programs_start_queue w' = _remote_programs_start_queue w.
Proof.
  intros Hc Hflag Hq Hsel Hsend.
  unfold_loop. unfold_m. rewrite Hsel. cbv beta iota.
  rewrite Hq, deque_pop_snoc, Hsend. cbn.
  destruct (Z.ltb 2000000 _).
  - same_socket w. rewrite Hc. cbn. same_socket w. rewrite Hflag.
    eexists. exists [KeepAliveMessage]. split; [reflexivity|]. cbn.
    same_socket w. rewrite !transmitted_snoc. cbn. rewrite app_nil_r.
    repeat split; assumption.
  - same_socket w. rewrite Hflag.
    eexists. exists []. split; [reflexivity|]. cbn.
    same_socket w. rewrite !transmitted_snoc. cbn.
    repeat split; assumption.
Qed.

(** X28.  On a connected device with an empty queue, the request for the
    roles file and the request for the changelist number are queued in
    that order, and the next two passes of the worker that find the socket
    writable send them to the listener in that order; the changelist query
    is recorded in the start queue under its message id. *)
Theorem requests_sent_in_order (env1 env2 : IterEnv) (buffer : string)
  (w : DeviceUnreal) :
  is_connected (unreal_client w) = true ->
  close_socket (unreal_client w) = false ->
  message_queue (unreal_client w) = [] ->
  select_result env1 = inr (false, true) -> send_result env1 = None ->
  select_result env2 = inr (false, true) -> send_result env2 = None ->
  let mid := uuid4 (platform w) (uuids_drawn w) in
  let w0 := world_of ((_request_roles_file ;;
                       _request_current_changelist_number) w) in
  let st := run device_delegates [WorkerPass env1; WorkerPass env2]
              (w0, Some buffer) in
  transmitted (trace st.1)
    = transmitted (trace w)
        ++ [CopyFileFromListenerMessage (roles_file_path (config w));
            StartProcessMessage mid "p4" (cstat_args (config w))]
  /\ _remote_programs_start_queue st.1
     = <[mid := "cstat"]> (_remote_programs_start_queue w)
  /\ st.2 = Some buffer.
Proof.
  intros Hc Hflag Hq Hs1 Hn1 Hs2 Hn2 mid w0 st.
  assert (H0 : is_connected (unreal_client w0) = true
               /\ close_socket (unreal_client w0) = false
               /\ message_queue (unreal_client w0)
                  = [StartProcessMessage mid "p4" (cstat_args (config w))]
                    ++ [CopyFileFromListenerMessage
                          (roles_file_path (config w))]
               /\ transmitted (trace w0) = transmitted (trace w)
               /\ _remote_programs_start_queue w0
                  = <[mid := "cstat"]> (_remote_programs_start_queue w)).
  { subst w0 mid.
    unfold _request_roles_file, _request_current_changelist_number,
      create_start_process_message, unreal_client_send_message, send_message.
    unfold_m. rewrite Hc. cbv beta iota. same_socket w. rewrite Hc.
    cbn. same_socket w. rewrite Hq, !transmitted_snoc. cbn.
    rewrite !app_nil_r. repeat split; assumption. }
  destruct H0 as (Hc0 & Hf0 & Hq0 & Ht0 & Hsq0).
  destruct (writable_pass_sends device_delegates env1 buffer _ _ w0
              Hc0 Hf0 Hq0 Hs1 Hn1)
    as (w1 & new1 & E1 & Hc1 & Hf1 & Hq1 & Ht1 & Hsq1).
  destruct (writable_pass_sends device_delegates env2 buffer new1 _ w1
              Hc1 Hf1 Hq1 Hs2 Hn2)
    as (w2 & new2 & E2 & _ & _ & _ & Ht2 & Hsq2).
  assert (Hst : st = (w2, Some buffer)).
  { assert (S1 : step device_delegates (WorkerPass env1) (w0, Some buffer)
                 = (w1, Some buffer))
      by (cbn [step]; rewrite Hc0, E1; reflexivity).
    assert (S2 : step device_delegates (WorkerPass env2) (w1, Some buffer)
                 = (w2, Some buffer))
      by (cbn [step]; rewrite Hc1, E2; reflexivity).
    subst st. unfold run. cbn [fold_left]. rewrite S1, S2. reflexivity. }
  rewrite Hst. cbn [fst snd].
  rewrite Ht2, Ht1, Ht0, Hsq2, Hsq1, Hsq0, <- app_assoc.
  repeat split.
Qed.

Lemma requests_sent_in_order_witness :
  let w0 := world_of ((_request_roles_file ;;
                       _request_current_changelist_number) Lab.lab_device) in
  let st := run device_delegates
              [WorkerPass Lab.writable_pass; WorkerPass Lab.writable_pass]
              (w0, Some "") in
  transmitted (trace st.1)
    = [CopyFileFromListenerMessage "D:/Stage/Config/Tags/VPRoles.ini";
       StartProcessMessage 100 "p4" "cstat"]
  /\ _remote_programs_start_queue st.1 = <[100%N := "cstat"]> ∅
  /\ st.2 = Some "".
Proof.
  apply (requests_sent_in_order Lab.writable_pass Lab.writable_pass ""
           Lab.lab_device); reflexivity.
Defined.

(* ===================================================================== *)
(** * The statuses that events lead to *)
(* ===================================================================== *)

#[global] Instance status_by_event_tolerant : Tolerant status_by_event.
Proof.
  split.
  - intros w. left. reflexivity.
  - intros w1 w2 w3 [H1|H1] [H2|H2]; unfold status_by_event.
    + left. congruence.
    + right. exact H2.
    + right. congruence.
    + right. exact H2.
  - intros w t. left. reflexivity.
  - intros w q. left. reflexivity.
Qed.

(** A step of the proof that a computation of the device leads to such a
    status only: an assignment to another field leaves the status, an
    assignment to the status is looked up. *)
Ltac sb_step :=
  lazymatch goal with
  | |- respects _ (modify _) =>
      apply (respects_modify status_by_event); intros ?;
      first [left; reflexivity | right; reflexivity]
  | _ => rs_step
  end.

Section DeviceStatusByEvent.

Lemma status_on_listener_disconnect (u : bool) (e : option Py.exn) :
  respects status_by_event (on_listener_disconnect u e).
Proof. unfold_handlers. repeat sb_step. Qed.

Lemma status_on_program_started (p i : UUID) :
  respects status_by_event (on_program_started p i).
Proof. unfold_handlers. repeat sb_step. Qed.

Lemma status_on_program_start_failed (e : value) (i : UUID) :
  respects status_by_event (on_program_start_failed e i).
Proof. unfold_handlers. repeat sb_step. Qed.

Lemma status_on_program_ended (p : UUID) (r o : value) :
  respects status_by_event (on_program_ended p r o).
Proof. unfold_handlers. repeat sb_step. Qed.

Lemma status_on_program_kill_failed (p : UUID) (e : value) :
  respects status_by_event (on_program_kill_failed p e).
Proof. unfold_handlers. repeat sb_step. Qed.

Lemma status_on_file_received (s c : value) :
  respects status_by_event (on_file_received s c).
Proof. unfold_handlers. repeat sb_step. Qed.

Lemma status_on_file_receive_failed (s e : value) :
  respects status_by_event (on_file_receive_failed s e).
Proof. unfold_handlers. repeat sb_step. Qed.

End DeviceStatusByEvent.

Lemma status_handlers : handlers_respect status_by_event.
Proof.
  split.
  - apply status_on_listener_disconnect.
  - apply status_on_program_started.
  - apply status_on_program_start_failed.
  - apply status_on_program_ended.
  - apply status_on_program_kill_failed.
  - apply status_on_file_received.
  - apply status_on_file_receive_failed.
Qed.

Lemma status_loop_body (env : IterEnv) (buffer : string) :
  respects status_by_event (loop_body device_delegates env buffer).
Proof.
  unfold loop_body, loop_try, transmit_one, receive, keep_alive,
    close_if_requested, call.
  cbn [disconnect_delegate device_delegates].
  repeat first
    [ apply (respects_process_received_data_device status_by_event
               status_handlers)
    | apply status_on_listener_disconnect
    | sb_step ].
Qed.

Lemma status_step (a : action) (st : DeviceUnreal * option string) :
  status_by_event st.1 (step device_delegates a st).1.
Proof.
  destruct st as [w worker]. destruct a as [m|env]; cbn [step fst].
  - apply (respects_send_message status_by_event). intros f [= <-] u e.
    apply status_on_listener_disconnect.
  - destruct worker as [buffer|]; [|apply tolerant_refl].
    destruct (is_connected (unreal_client w)); [|apply tolerant_refl].
    pose proof (status_loop_body env buffer w) as H.
    destruct (loop_body device_delegates env buffer w) as [[[] b] w'|e w'];
      exact H.
Qed.

(** X29.  The handlers of the listener's events assign no status but
    [OPEN], [CLOSED] and [BUILDING].  So whatever the owner sends and
    whatever the worker receives, over any schedule of sends and passes,
    the status of the device in the end is the one it had or one of these
    three: no event from the listener makes a device [SYNCING],
    [CONNECTED] or [DISCONNECTED], not even the loss of the connection. *)
Theorem status_after_events (acts : list action)
  (st : DeviceUnreal * option string) :
  status_by_event st.1 (run device_delegates acts st).1.
Proof.
  revert st. induction acts as [|a acts IH]; intros st.
  - apply tolerant_refl.
  - change (run device_delegates (a :: acts) st)
      with (run device_delegates acts (step device_delegates a st)).
    eapply tolerant_trans; [apply status_step|apply IH].
Qed.

(* ===================================================================== *)
(** * What the loop does transmit *)
(* ===================================================================== *)

(** X30.  On a connected client whose close flag is not set, each pass
    that finds the socket writable (and nothing to read) takes the oldest
    message off the queue and writes it: as many such passes as there are
    messages waiting, or fewer, write the oldest messages waiting, one per
    pass, in the order in which they were enqueued, and the worker goes
    on. *)
Theorem writable_passes_send_oldest_first (D : Delegates)
  (envs : list IterEnv) (buffer : string) (w : DeviceUnreal) :
  is_connected (unreal_client w) = true ->
  close_socket (unreal_client w) = false ->
  Forall clear_pass envs ->
  (length envs <= length (message_queue (unreal_client w)))%nat ->
  exists w',
    run D (map WorkerPass envs) (w, Some buffer) = (w', Some buffer)
    /\ transmitted (trace w')
       = transmitted (trace w)
           ++ take (length envs) (List.rev (message_queue (unreal_client w))).
Proof.
  revert w. induction envs as [|env envs IH]; intros w Hc Hflag Hclear Hlen.
  - exists w. split; [reflexivity|]. cbn. rewrite app_nil_r. reflexivity.
  - apply Forall_cons in Hclear as [[Hsel Hsend] Hclear].
    assert (Hex : exists q m, message_queue (unreal_client w) = q ++ [m]).
    { destruct (message_queue (unreal_client w)) as [|x l _] using rev_ind;
        [cbn in Hlen; lia|eauto]. }
    destruct Hex as (q & m & Hq). rewrite Hq in Hlen |- *.
    destruct (writable_pass_sends D env buffer q m w Hc Hflag Hq Hsel Hsend)
      as (w1 & new & E1 & Hc1 & Hf1 & Hq1 & Ht1 & _).
    destruct (IH w1 Hc1 Hf1 Hclear) as (w' & E' & Ht').
    { rewrite Hq1, length_app. rewrite length_app in Hlen. cbn in Hlen. lia. }
    exists w'. split.
    + change (run D (map WorkerPass (env :: envs)) (w, Some buffer))
        with (run D (map WorkerPass envs)
                (step D (WorkerPass env) (w, Some buffer))).
      cbn [step]. rewrite Hc, E1. exact E'.
    + rewrite Ht', Ht1, Hq1, !rev_app_distr, <- app_assoc. cbn.
      rewrite take_app_le; [reflexivity|].
      rewrite length_rev. rewrite length_app in Hlen. cbn in Hlen. lia.
Qed.

(** Three kill commands are queued and the worker makes two passes. *)
Lemma writable_passes_send_oldest_first_witness :
  let w := world_of ((unreal_client_send_message (KillProcessMessage 1) ;;
                      unreal_client_send_message (KillProcessMessage 2) ;;
                      unreal_client_send_message (KillProcessMessage 3))
                       Lab.lab_device) in
  exists w',
    run device_delegates
      (map WorkerPass [Lab.writable_pass; Lab.writable_pass]) (w, Some "")
      = (w', Some "")
    /\ transmitted (trace w')
       = [KillProcessMessage 1; KillProcessMessage 2].
Proof.
  intros w.
  apply (writable_passes_send_oldest_first device_delegates
           [Lab.writable_pass; Lab.writable_pass] "" w).
  - reflexivity.
  - reflexivity.
  - repeat constructor.
  - vm_compute. repeat constructor.
Defined.
